(** * QCoDeS Reports: the benchmark notebooks, embedded and verified

    The repository holds stand-alone benchmarking notebooks.  This
    development embeds the Python code of their cells:

    - [time_it], the timing decorator of
      "Compare loading saving speed with numpy files.ipynb";
    - [make_data_producer], the generator of dummy measurement data;
    - [save_to_sqlite], [save_to_hdf5] and [save_to_npy], the three
      save routines of that notebook;
    - the cells of "Agilent 34411A versus Keysight 34465A.ipynb" and
      [benchmark_seqx] of the AWG70002A upload notebook.

    Python code runs in a world that it mutates and may raise, so every
    routine is a computation in the state-and-exception monad [Py.M].
    Calls into numpy, h5py, timeit, qcodes and the instrument drivers are
    either modelled after the documented behaviour of these libraries (the
    array operations, [timeit.Timer]) or taken as section variables (the
    instruments, the clocks, the qcodes data saver).

    Part I holds the definitions, Part II the theorems about the
    routines, Part III further properties of the code. *)

From Stdlib Require Import ZArith Lia List String.
From stdpp Require Import base gmap strings list.

Local Open Scope nat_scope.

(* ===================================================================== *)
(** * Part I: definitions *)
(* ===================================================================== *)

(** ** Python computations *)

Module Py.

(** The exceptions the notebooks can meet.  [OtherError] stands for an
    error raised inside an external library (a VISA error, an [OSError],
    a broadcast error of h5py ...). *)
Inductive exn : Type :=
| ValueError
| ZeroDivisionError
| IndexError
| TypeError
| OtherError (name : string).

(** How a computation ends.  [Unfinished] is only produced by loops that
    are bounded by fuel in this model ([timeit.Timer.autorange]). *)
Inductive outcome (A : Type) : Type :=
| Return (a : A)
| Raise (e : exn)
| Unfinished.
Arguments Return {A} a.
Arguments Raise {A} e.
Arguments Unfinished {A}.

Definition M (S A : Type) : Type := S -> outcome A * S.

Definition ret {S A : Type} (a : A) : M S A := fun s => (Return a, s).

Definition raise {S A : Type} (e : exn) : M S A := fun s => (Raise e, s).

Definition bind {S A B : Type} (c : M S A) (k : A -> M S B) : M S B :=
  fun s =>
    match c s with
    | (Return a, s1) => k a s1
    | (Raise e, s1) => (Raise e, s1)
    | (Unfinished, s1) => (Unfinished, s1)
    end.

(** A statement that only changes the world. *)
Definition modify {S : Type} (f : S -> S) : M S unit := fun s => (Return tt, f s).

Definition gets {S A : Type} (f : S -> A) : M S A := fun s => (Return (f s), s).

(** [try: body finally: fin] *)
Definition try_finally {S A : Type} (body : M S A) (fin : M S unit) : M S A :=
  fun s =>
    match body s with
    | (Unfinished, s1) => (Unfinished, s1)
    | (o, s1) =>
        match fin s1 with
        | (Return _, s2) => (o, s2)
        | (Raise e, s2) => (Raise e, s2)
        | (Unfinished, s2) => (Unfinished, s2)
        end
    end.

(** [try: body except: handler]; the handler receives the exception. *)
Definition try_except {S A : Type} (body : M S A) (handler : exn -> M S A) : M S A :=
  fun s =>
    match body s with
    | (Raise e, s1) => handler e s1
    | r => r
    end.

(** [with enter as r: body], for a context manager whose [__exit__] does
    not swallow exceptions. *)
Definition with_ctx {S R A : Type}
  (enter : M S R) (exit : R -> M S unit) (body : R -> M S A) : M S A :=
  bind enter (fun r => try_finally (body r) (exit r)).

(** [for x in xs: body x] *)
Fixpoint for_each {S A : Type} (xs : list A) (body : A -> M S unit) : M S unit :=
  match xs with
  | [] => ret tt
  | x :: xs' => bind (body x) (fun _ => for_each xs' body)
  end.

(** A [for] loop that updates a local variable [acc]. *)
Fixpoint for_fold {S A B : Type} (xs : list A) (body : B -> A -> M S B) (acc : B) : M S B :=
  match xs with
  | [] => ret acc
  | x :: xs' => bind (body acc x) (fun acc' => for_fold xs' body acc')
  end.

(** Python values, as far as the notebooks inspect them: a number of
    type [V], [None], a tuple, or an opaque object of type [O]. *)
#[warnings="-register-all"]
Inductive pyval (V O : Type) : Type :=
| PyNone
| PyNum (v : V)
| PyTuple (items : list (pyval V O))
| PyObj (o : O).
Arguments PyNone {V O}.
Arguments PyNum {V O} v.
Arguments PyTuple {V O} items.
Arguments PyObj {V O} o.

(** The arithmetic the notebooks use on numbers.  Python floats are kept
    abstract: nothing below depends on a law of the arithmetic.
    [num_div x n] is [x / n] for a Python int [n], which may be negative;
    [num_float32 x] is [x] rounded to single precision, the conversion
    that HDF5 applies to what is written to a dataset of element type
    float32. *)
Class Num (V : Type) : Type := {
  num_zero : V;
  num_add : V -> V -> V;
  num_sub : V -> V -> V;
  num_lt : V -> V -> bool;
  num_div : V -> Z -> V;
  num_of_nat : nat -> V;
  num_float32 : V -> V
}.

(** The two clocks of the [time] module that the notebooks read:
    [time.time()] and [time.perf_counter()]. *)
Inductive clock : Type :=
| time_time
| perf_counter.

End Py.

Import Py.

Declare Scope py_scope.
Delimit Scope py_scope with py.
Notation "x <- c ;; k" := (Py.bind c (fun x => k))
  (at level 100, c at next level, right associativity) : py_scope.
Notation "c ;;; k" := (Py.bind c (fun _ => k))
  (at level 100, right associativity) : py_scope.
Local Open Scope py_scope.

(** ** The generator of dummy measurement data *)

Module Producer.

(** One item yielded by the generator:
    [s1_val, s2_val, magn_vals, phas_vals]. *)
Record datum (V : Type) : Type := Datum {
  s1_val : V;
  s2_val : V;
  magn_vals : list V;
  phas_vals : list V
}.
Arguments Datum {V} _ _ _ _.
Arguments s1_val {V} _.
Arguments s2_val {V} _.
Arguments magn_vals {V} _.
Arguments phas_vals {V} _.

Section Producer.
Context {V : Type} `{Num V}.

(** The global random state of numpy and one draw from it. *)
Variable G : Type.
Variable next_random : G -> V * G.

(** [numpy.random.rand(n)] *)
Fixpoint rand (n : nat) (g : G) : list V * G :=
  match n with
  | 0 => ([], g)
  | S n' =>
      let '(x, g1) := next_random g in
      let '(xs, g2) := rand n' g1 in
      (x :: xs, g2)
  end.

(** [numpy.meshgrid(x, y)] with the default 'xy' indexing: two arrays of
    shape [(len y, len x)], the first with [x] in every row, the second
    with [y] down every column. *)
Definition meshgrid (x y : list V) : list (list V) * list (list V) :=
  (map (fun _ => x) y, map (fun yi => map (fun _ => yi) x) y).

(** [numpy.reshape(a, -1)] of a C-ordered 2-D array. *)
Definition reshape_flat (a : list (list V)) : list V := concat a.

(** The body of the two nested loops, up to its [yield]. *)
Definition measure (n_pts_per_param s1 s2 : nat) (g : G) : datum V * G :=
  let '(x, g1) := rand n_pts_per_param g in
  let '(y, g2) := rand n_pts_per_param g1 in
  let '(magn, phas) := meshgrid x y in
  (Datum (num_of_nat s1) (num_of_nat s2) (reshape_flat magn) (reshape_flat phas), g2).

(** A [for] loop inside a generator: the items its body yields, in
    order, with the random state threaded through. *)
Fixpoint gen_for {A B : Type} (xs : list A) (body : A -> G -> list B * G) (g : G)
  : list B * G :=
  match xs with
  | [] => ([], g)
  | x :: xs' =>
      let '(ys, g1) := body x g in
      let '(zs, g2) := gen_for xs' body g1 in
      (ys ++ zs, g2)
  end.

(** The generator [produce_measurement_data], run to exhaustion: the
    list of the items it yields.  The generator is consumed by one [for]
    loop that does not touch the random state, so its laziness is not
    observable. *)
Definition produce_measurement_data (n_pts_per_param : nat) (g : G) : list (datum V) * G :=
  gen_for (seq 0 n_pts_per_param)
    (fun s1 =>
       gen_for (seq 0 n_pts_per_param)
         (fun s2 g' =>
            let '(d, g'') := measure n_pts_per_param s1 s2 g' in
            ([d], g'')))
    g.

(** [make_data_producer(n_pts_per_param)] returns the generator function
    closed over [n_pts_per_param]. *)
Definition make_data_producer (n_pts_per_param : nat) : G -> list (datum V) * G :=
  produce_measurement_data n_pts_per_param.

End Producer.
End Producer.

(** ** The [time_it] decorator *)

Module TimeIt.

(** [IPython.core.magics.execution.TimeitResult], built by its
    constructor [TimeitResult(loops, repeat, best, worst, all_runs,
    compile_time, precision)]. *)
Record TimeitResult (V : Type) : Type := MkTimeitResult {
  loops : Z;
  repeat : nat;
  best : V;
  worst : V;
  all_runs : list V;
  compile_time : nat;
  precision : nat
}.
Arguments MkTimeitResult {V} _ _ _ _ _ _ _.
Arguments loops {V} _.
Arguments repeat {V} _.
Arguments best {V} _.
Arguments worst {V} _.
Arguments all_runs {V} _.
Arguments compile_time {V} _.
Arguments precision {V} _.

(** [timeit.default_repeat], the default of the [repeat] argument of
    [time_it], in Python 3.7, the version the notebook ran on. *)
Definition default_repeat : nat := 5.

(** [number] is a Python int and is kept as an integer: a negative
    [number] is accepted, runs no execution and ends up in the result.
    [repeat] is kept as a natural number: it is only used in
    [range(repeat)], which is as empty for a negative [repeat] as for 0,
    and in the result, which is never built when it is not positive. *)

Section TimeIt.
Context {V O : Type} `{Num V}.

(** The world the profiled function runs in, with the two things the
    wrapper itself does to it: [t.print_exc()] and [print(timeit_result)]. *)
Variable W : Type.
Variable print_exc : exn -> W -> W.
Variable print_result : TimeitResult V -> W -> W.

(** [timeit.default_timer], which [timeit.Timer()] stores as [self.timer],
    and the test [time_taken >= 0.2] of [autorange]. *)
Variable default_timer : M W V.
Variable reaches_min_time : V -> bool.

(** [returned_vals[0] if isinstance(returned_vals, tuple) else returned_vals] *)
Definition first_return_value (returned_vals : pyval V O) : M W (pyval V O) :=
  match returned_vals with
  | PyTuple [] => raise IndexError
  | PyTuple (x :: _) => ret x
  | v => ret v
  end.

(** [total_time += x], where [total_time] is a number: adding anything
    but a number to it is a [TypeError]. *)
Definition add_to (total_time : V) (x : pyval V O) : M W V :=
  match x with
  | PyNum d => ret (num_add total_time d)
  | _ => raise TypeError
  end.

(** [inner(_it, _timer)], closed over the profiled function.  [sut] stands
    for the call of the profiled function on the (shallow) copies [args_]
    and [kwargs_] of the wrapper's arguments. *)
Definition inner (sut : M W (pyval V O)) (_it : list unit) (_timer : M W V) : M W V :=
  for_fold _it
    (fun total_time _ =>
       returned_vals <- sut;;
       x <- first_return_value returned_vals;;
       add_to total_time x)
    num_zero.

(** [itertools.repeat(None, number)]: [number] times [None], and
    nothing at all when [number] is negative. *)
Definition itertools_repeat (number : Z) : list unit := replicate (Z.to_nat number) tt.

(** [timeit.Timer.timeit(number)] of the standard library, with the
    wrapper's [inner] installed as [t.inner]:
    [it = itertools.repeat(None, number); timing = self.inner(it, self.timer)]. *)
Definition timer_timeit (sut : M W (pyval V O)) (number : Z) : M W V :=
  inner sut (itertools_repeat number) default_timer.

(** [timeit.Timer.repeat(repeat, number)]:
    [r = []; for i in range(repeat): r.append(self.timeit(number))]. *)
Definition timer_repeat (sut : M W (pyval V O)) (repeat : nat) (number : Z)
  : M W (list V) :=
  for_fold (seq 0 repeat)
    (fun r _ => t <- timer_timeit sut number;; ret (r ++ [t]))
    [].

(** [timeit.Timer.autorange()]: [for j in 1, 2, 5] inside [while True],
    the latter bounded by [fuel] rounds here. *)
Fixpoint autorange_for (sut : M W (pyval V O)) (i : Z) (js : list Z)
  : M W (option (Z * V)) :=
  match js with
  | [] => ret None
  | j :: js' =>
      let number := (i * j)%Z in
      time_taken <- timer_timeit sut number;;
      if reaches_min_time time_taken
      then ret (Some (number, time_taken))
      else autorange_for sut i js'
  end.

Fixpoint autorange_while (sut : M W (pyval V O)) (fuel : nat) (i : Z) : M W (Z * V) :=
  match fuel with
  | 0 => fun w => (Unfinished, w)
  | S fuel' =>
      found <- autorange_for sut i [1; 2; 5]%Z;;
      match found with
      | Some r => ret r
      | None => autorange_while sut fuel' (i * 10)%Z
      end
  end.

Definition timer_autorange (sut : M W (pyval V O)) (fuel : nat) : M W (Z * V) :=
  autorange_while sut fuel 1%Z.

(** The builtins [min] and [max] on a list: the first smallest (largest)
    item, [ValueError] on an empty list. *)
Definition smallest (x : V) (xs : list V) : V :=
  fold_left (fun m y => if num_lt y m then y else m) xs x.

Definition largest (x : V) (xs : list V) : V :=
  fold_left (fun m y => if num_lt m y then y else m) xs x.

Definition py_min (xs : list V) : M W V :=
  match xs with
  | [] => raise ValueError
  | x :: xs' => ret (smallest x xs')
  end.

Definition py_max (xs : list V) : M W V :=
  match xs with
  | [] => raise ValueError
  | x :: xs' => ret (largest x xs')
  end.

(** [x / number_] *)
Definition truediv (x : V) (number_ : Z) : M W V :=
  if (number_ =? 0)%Z then raise ZeroDivisionError else ret (num_div x number_).

(** The body of the [try] statement of [wrapper]: the number of
    executions per run and the totals of the runs. *)
Definition profile (number : option Z) (repeat : nat) (sut : M W (pyval V O))
  (fuel : nat) : M W (Z * list V) :=
  number_ <- match number with
             | None => r <- timer_autorange sut fuel;; ret (fst r)
             | Some n => ret n
             end;;
  all_runs <- timer_repeat sut repeat number_;;
  ret (number_, all_runs).

(** What follows the [try] statement: the result is built and printed. *)
Definition summarise (repeat : nat) (number_ : Z) (all_runs : list V)
  : M W (TimeitResult V) :=
  lo <- py_min all_runs;;
  best <- truediv lo number_;;
  hi <- py_max all_runs;;
  worst <- truediv hi number_;;
  let timeit_result := MkTimeitResult number_ repeat best worst all_runs 0 3 in
  modify (print_result timeit_result);;;
  ret timeit_result.

(** [wrapper], the function the decorator puts in the place of [sut]:
    [try: ... except: t.print_exc(); raise], then the summary. *)
Definition wrapper (number : option Z) (repeat : nat) (sut : M W (pyval V O))
  (fuel : nat) : M W (TimeitResult V) :=
  profiled <-
    try_except (profile number repeat sut fuel)
      (fun e => modify (print_exc e);;; raise e);;
  summarise repeat (fst profiled) (snd profiled).

(** [time_sut(sut)] returns [wrapper]; [time_it(number, repeat)] returns
    [time_sut]. *)
Definition time_sut (number : option Z) (repeat : nat) (sut : M W (pyval V O)) :=
  wrapper number repeat sut.

Definition time_it (number : option Z) (repeat : nat) := time_sut number repeat.

End TimeIt.
End TimeIt.

(** ** Files, HDF5 datasets and numpy arrays *)

Module Storage.

(** An h5py dataset of rank 2.  HDF5 addresses the elements by their
    index: the data is kept row by row.  A dataset created without
    [dtype] has the element type float32: what is written to it is
    converted ([num_float32]).  [open_memmap] without [dtype] gives
    float64, the type of the Python floats themselves. *)
Record dataset (V : Type) : Type := MkDataset {
  ds_shape : nat * nat;
  ds_maxshape : nat * option nat;
  ds_rows : list (list V)
}.
Arguments MkDataset {V} _ _ _.
Arguments ds_shape {V} _.
Arguments ds_maxshape {V} _.
Arguments ds_rows {V} _.

(** What a file holds: an HDF5 file is a collection of named datasets, a
    .npy file a header with the shape followed by the elements in C
    order. *)
Inductive file_content (V : Type) : Type :=
| Hdf5File (datasets : gmap string (dataset V))
| NpyFile (shape : nat * nat) (data : list V).
Arguments Hdf5File {V} _.
Arguments NpyFile {V} _ _.

(** The file system, and the names of the files on which the process
    holds an open handle or a memory mapping. *)
Record World (V : Type) : Type := MkWorld {
  files : gmap string (file_content V);
  open_files : gset string
}.
Arguments MkWorld {V} _ _.
Arguments files {V} _.
Arguments open_files {V} _.

(** A numpy array of rank 2: the shape and the buffer in C order.
    [nd_owndata] is the OWNDATA flag; [nd_mmap] names the file a
    [numpy.memmap] maps, [None] for an array in memory. *)
Record ndarray (V : Type) : Type := MkNdarray {
  nd_shape : nat * nat;
  nd_flat : list V;
  nd_owndata : bool;
  nd_mmap : option string
}.
Arguments MkNdarray {V} _ _ _ _.
Arguments nd_shape {V} _.
Arguments nd_flat {V} _.
Arguments nd_owndata {V} _.
Arguments nd_mmap {V} _.

(** The right-hand side of a slice assignment. *)
Inductive rhs (V : Type) : Type :=
| Scalar (v : V)
| Array (vs : list V).
Arguments Scalar {V} v.
Arguments Array {V} vs.

Section Storage.
Context {V : Type} `{Num V}.

(** The values a slice of [len] elements receives from [src]: a scalar
    and an array of one element are broadcast, an array of [len] elements
    is taken as it is, any other array fits nothing. *)
Definition broadcast (len : nat) (src : rhs V) : option (list V) :=
  match src with
  | Scalar v => Some (replicate len v)
  | Array vs =>
      if decide (length vs = len) then Some vs
      else match vs with
           | [v] => Some (replicate len v)
           | _ => None
           end
  end.

(** [row[a:b] = vs] on a sequence of fixed length; a slice is clipped to
    the sequence, as Python does. *)
Definition slice_start (a n : nat) : nat := a `min` n.
Definition slice_len (a b n : nat) : nat := (b `min` n) - (a `min` n).

Definition write_at (row : list V) (start : nat) (vs : list V) : list V :=
  take start row ++ vs ++ drop (start + length vs) row.

(** *** h5py *)

Definition close_file (filename : string) (w : World V) : World V :=
  MkWorld (files w) (open_files w ∖ {[filename]}).

(** [h5py.File(filename, 'w')]: create the file, truncating it if it
    exists; HDF5 refuses to truncate a file that is open. *)
Definition h5_File_w (filename : string) : M (World V) string :=
  fun w =>
    if decide (filename ∈ open_files w)
    then (Raise (OtherError "OSError"), w)
    else (Return filename,
          MkWorld (<[filename := Hdf5File ∅]> (files w)) ({[filename]} ∪ open_files w)).

(** [File.__exit__]: close the file. *)
Definition h5_File_exit (f : string) : M (World V) unit := modify (close_file f).

(** The datasets of the open HDF5 file [f]. *)
Definition h5_datasets (f : string) : M (World V) (gmap string (dataset V)) :=
  fun w =>
    if decide (f ∈ open_files w)
    then match files w !! f with
         | Some (Hdf5File dss) => (Return dss, w)
         | _ => (Raise (OtherError "OSError"), w)
         end
    else (Raise ValueError, w).

Definition h5_put (f name : string) (d : dataset V) : M (World V) unit :=
  dss <- h5_datasets f;;
  modify (fun w => MkWorld (<[f := Hdf5File (<[name := d]> dss)]> (files w)) (open_files w)).

(** [f.create_dataset(name, shape=..., maxshape=...)]: a new dataset
    filled with the fill value, zero.  A dataset is a handle: the file
    and the name. *)
Definition create_dataset (f name : string) (shape : nat * nat) (maxshape : nat * option nat)
  : M (World V) (string * string) :=
  dss <- h5_datasets f;;
  match dss !! name with
  | Some _ => raise ValueError
  | None =>
      h5_put f name
        (MkDataset shape maxshape (replicate (fst shape) (replicate (snd shape) num_zero)));;;
      ret (f, name)
  end.

Definition ds_get (ds : string * string) : M (World V) (dataset V) :=
  dss <- h5_datasets (fst ds);;
  match dss !! snd ds with
  | Some d => ret d
  | None => raise ValueError
  end.

(** [ds.shape] *)
Definition ds_shape_of (ds : string * string) : M (World V) (nat * nat) :=
  d <- ds_get ds;; ret (ds_shape d).

(** [ds.resize(size)]: every element keeps its index; new elements take
    the fill value; elements beyond the new extent are dropped.  The new
    size must stay within [maxshape]. *)
Definition resize_row (c : nat) (row : list V) : list V :=
  take c row ++ replicate (c - length row) num_zero.

Definition resize_rows (r c : nat) (rows : list (list V)) : list (list V) :=
  map (resize_row c) (take r rows) ++ replicate (r - length rows) (replicate c num_zero).

Definition within_maxshape (size : nat * nat) (maxshape : nat * option nat) : bool :=
  (fst size <=? fst maxshape) &&
  match snd maxshape with
  | None => true
  | Some m => snd size <=? m
  end.

Definition ds_resize (ds : string * string) (size : nat * nat) : M (World V) unit :=
  d <- ds_get ds;;
  if within_maxshape size (ds_maxshape d)
  then h5_put (fst ds) (snd ds)
         (MkDataset size (ds_maxshape d) (resize_rows (fst size) (snd size) (ds_rows d)))
  else raise ValueError.

(** [ds[i, a:b] = src], that is [Dataset.__setitem__]: the selection is
    made first; if it selects no element the method returns at once,
    before it looks at the shape of [src]; otherwise [src] is broadcast
    to the selection ([TypeError] if it cannot be) and written, converted
    to the element type of the dataset. *)
Definition ds_setitem (ds : string * string) (i a b : nat) (src : rhs V) : M (World V) unit :=
  d <- ds_get ds;;
  match ds_rows d !! i with
  | None => raise IndexError
  | Some row =>
      let n := snd (ds_shape d) in
      if slice_len a b n =? 0 then ret tt
      else
        match broadcast (slice_len a b n) src with
        | None => raise TypeError
        | Some vs =>
            h5_put (fst ds) (snd ds)
              (MkDataset (ds_shape d) (ds_maxshape d)
                 (<[i := write_at row (slice_start a n) (map num_float32 vs)]> (ds_rows d)))
        end
  end.

(** *** numpy *)

(** [numpy.lib.format.open_memmap(filename, mode='w+', shape=shape)]:
    write the header, extend the file to the size of the data (zeros),
    map it.  A [memmap] does not own its data. *)
Definition open_memmap (filename : string) (shape : nat * nat) : M (World V) (ndarray V) :=
  fun w =>
    let zeros := replicate (fst shape * snd shape) num_zero in
    (Return (MkNdarray shape zeros false (Some filename)),
     MkWorld (<[filename := NpyFile shape zeros]> (files w)) ({[filename]} ∪ open_files w)).

(** [numpy.require(a, requirements=['OWNDATA'])]: [a] itself if it owns
    its data, else a copy, which does and which maps no file.  The
    boolean tells whether the result is a new object. *)
Definition require_owndata (a : ndarray V) : ndarray V * bool :=
  if nd_owndata a then (a, false)
  else (MkNdarray (nd_shape a) (nd_flat a) true None, true).

(** The last reference to an array goes away (its name is rebound to
    another object, or deleted): a memory mapping is flushed and closed
    with it. *)
Definition release (a : ndarray V) : M (World V) unit :=
  match nd_mmap a with
  | Some filename => modify (close_file filename)
  | None => ret tt
  end.

(** [name = new], where [name] held the only reference to [old]. *)
Definition rebind (old : ndarray V) (new : ndarray V * bool) : M (World V) (ndarray V) :=
  if snd new then (release old;;; ret (fst new)) else ret (fst new).

(** A write through a memory mapping reaches the mapped file. *)
Definition write_through (a : ndarray V) : M (World V) unit :=
  match nd_mmap a with
  | Some filename =>
      modify (fun w =>
        MkWorld (<[filename := NpyFile (nd_shape a) (nd_flat a)]> (files w)) (open_files w))
  | None => ret tt
  end.

(** [a.resize(new_shape)], in place: the buffer is reallocated to the new
    number of elements, keeping the elements in the order they are
    stored in memory and padding with zeros, and is then read with the
    new shape.  Only an array that owns its data can be resized. *)
Definition nd_resize (a : ndarray V) (new_shape : nat * nat) : M (World V) (ndarray V) :=
  if nd_owndata a
  then
    let size := fst new_shape * snd new_shape in
    ret (MkNdarray new_shape
           (take size (nd_flat a) ++ replicate (size - length (nd_flat a)) num_zero)
           true (nd_mmap a))
  else raise ValueError.

(** [a[i, s:e] = src] *)
Definition nd_setitem (a : ndarray V) (i s e : nat) (src : rhs V) : M (World V) (ndarray V) :=
  let '(n_rows, n_cols) := nd_shape a in
  if decide (i < n_rows)
  then
    match broadcast (slice_len s e n_cols) src with
    | None => raise ValueError
    | Some vs =>
        let a' := MkNdarray (nd_shape a)
                    (write_at (nd_flat a) (i * n_cols + slice_start s n_cols) vs)
                    (nd_owndata a) (nd_mmap a) in
        write_through a';;;
        ret a'
    end
  else raise IndexError.

(** [a[i, j]], for reading the result back. *)
Definition nd_item (a : ndarray V) (i j : nat) : option V :=
  if decide (i < fst (nd_shape a) ∧ j < snd (nd_shape a))
  then nd_flat a !! (i * snd (nd_shape a) + j)
  else None.

Definition rows_item (rows : list (list V)) (i j : nat) : option V :=
  row ← rows !! i; row !! j.

(** What the loading cells of the notebook find on disk: the dataset
    [f[name]] of the HDF5 file, and the array read by
    [numpy.load(filename)], as its shape and its elements. *)
Definition load_hdf5 (filename name : string) (w : World V) : option (dataset V) :=
  match files w !! filename with
  | Some (Hdf5File dss) => dss !! name
  | _ => None
  end.

Definition numpy_load (filename : string) (w : World V) : option ((nat * nat) * list V) :=
  match files w !! filename with
  | Some (NpyFile shape data) => Some (shape, data)
  | _ => None
  end.

End Storage.
End Storage.

(** ** The two incremental writers *)

Module Writers.
Import Producer Storage.

Section Writers.
Context {V O : Type} `{Num V}.

(** One iteration of the loop of [save_to_hdf5]. *)
Definition hdf5_step (ds : string * string) (d : datum V) : M (World V) unit :=
  let n_pts := length (magn_vals d) in
  shape <- ds_shape_of ds;;
  let n_cols := fst shape in
  let n_rows := snd shape in
  ds_resize ds (n_cols, n_rows + n_pts);;;
  ds_setitem ds 0 n_rows (n_rows + n_pts) (Scalar (s1_val d));;;
  ds_setitem ds 1 n_rows (n_rows + n_pts) (Scalar (s2_val d));;;
  ds_setitem ds 2 n_rows (n_rows + n_pts) (Array (magn_vals d));;;
  ds_setitem ds 3 n_rows (n_rows + n_pts) (Array (phas_vals d)).

(** The body of the [with] block of [save_to_hdf5]. *)
Definition hdf5_body (data_generator : list (datum V)) (f : string) : M (World V) unit :=
  ds <- create_dataset f "results" (4, 0) (4, None);;
  for_each data_generator (hdf5_step ds).

(** [save_to_hdf5(create_data_generator, filename)]; [data_generator]
    is the list of the items that [create_data_generator()] yields.  The
    function has no [return] statement. *)
Definition save_to_hdf5 (data_generator : list (datum V)) (filename : string)
  : M (World V) (pyval V O) :=
  with_ctx (h5_File_w filename) h5_File_exit (hdf5_body data_generator);;;
  ret PyNone.

(** One iteration of the loop of [save_to_npy]; [npy_mm] is mutated in
    place, the result is the array after the iteration. *)
Definition npy_step (npy_mm : ndarray V) (d : datum V) : M (World V) (ndarray V) :=
  let n_pts := length (magn_vals d) in
  let n_cols := fst (nd_shape npy_mm) in
  let n_rows := snd (nd_shape npy_mm) in
  a0 <- nd_resize npy_mm (n_cols, n_rows + n_pts);;
  a1 <- nd_setitem a0 0 n_rows (n_rows + n_pts) (Scalar (s1_val d));;
  a2 <- nd_setitem a1 1 n_rows (n_rows + n_pts) (Scalar (s2_val d));;
  a3 <- nd_setitem a2 2 n_rows (n_rows + n_pts) (Array (magn_vals d));;
  nd_setitem a3 3 n_rows (n_rows + n_pts) (Array (phas_vals d)).

(** [save_to_npy] up to the end of its loop: the array [npy_mm] as it is
    just before [del npy_mm]. *)
Definition npy_body (data_generator : list (datum V)) (filename : string)
  : M (World V) (ndarray V) :=
  mm <- open_memmap filename (4, 0);;
  npy_mm <- rebind mm (require_owndata mm);;
  for_fold data_generator npy_step npy_mm.

(** [save_to_npy(create_data_generator, filename)]; it has no [return]
    statement either. *)
Definition save_to_npy (data_generator : list (datum V)) (filename : string)
  : M (World V) (pyval V O) :=
  npy_mm <- npy_body data_generator filename;;
  release npy_mm;;;
  ret PyNone.

End Writers.
End Writers.

(** ** Saving through the qcodes dataset *)

Module Sqlite.
Import Producer.

Section Sqlite.
Context {V O : Type} `{Num V}.

(** The qcodes side is external: the world [W] it acts on, the data
    saver that [meas.run()] hands out, and the clocks: [now c w] is the
    reading of the clock [c] in the world [w], with the world after the
    reading. *)
Variable W : Type.
Variable DataSaver : Type.
Variable now : clock -> W -> V * W.
(** [Parameter(...)] four times, [Measurement()], the four
    [register_parameter] calls, [meas.write_period = write_period] and
    the [__enter__] of [meas.run()]. *)
Variable meas_run : string -> nat -> M W DataSaver.
(** The [__exit__] of [meas.run()], which flushes the last data. *)
Variable meas_run_exit : DataSaver -> M W unit.
(** [datasaver.add_result((s1, s1_val), (s2, s2_val), (magn, magn_vals),
    (phas, phas_vals))] *)
Variable add_result : DataSaver -> datum V -> M W unit.
(** [datasaver.dataset] *)
Variable datasaver_dataset : DataSaver -> O.

Definition read_clock (c : clock) : M W V :=
  fun w => (Return (fst (now c w)), snd (now c w)).

(** [save_to_sqlite(create_data_generator, paramtype, write_period)] *)
Definition save_to_sqlite (data_generator : list (datum V)) (paramtype : string)
  (write_period : nat) : M W (pyval V O) :=
  entered <-
    with_ctx (meas_run paramtype write_period) meas_run_exit
      (fun datasaver =>
         t0 <- read_clock perf_counter;;
         for_each data_generator (add_result datasaver);;;
         ret (t0, datasaver));;
  let t0 := fst entered in
  let datasaver := snd entered in
  t1 <- read_clock perf_counter;;
  let saving_time := num_sub t1 t0 in
  let dataset := datasaver_dataset datasaver in
  ret (PyTuple [PyNum saving_time; PyObj dataset]).

End Sqlite.
End Sqlite.

(** ** The instrument notebooks *)

Module Bench.

(** A printed line: the format string and the numbers it is filled with. *)
Inductive line (V : Type) : Type :=
| Line (text : string) (args : list V).
Arguments Line {V} text args.

(** The state of a notebook session: the laboratory (instruments and
    clocks), the names of the instruments with an open connection, and
    what has been printed. *)
Record Lab (D V : Type) : Type := MkLab {
  dev : D;
  connected : gset string;
  printed : list (line V)
}.
Arguments MkLab {D V} _ _ _.
Arguments dev {D V} _.
Arguments connected {D V} _.
Arguments printed {D V} _.

Section Bench.
Context {V : Type} `{Num V}.

(** The laboratory is external: its state [D], the clocks ([now c d] is
    the reading of the clock [c] in the state [d], with the state after
    the reading), and what the instrument drivers and [qc.Loop] do to
    it. *)
Variable D : Type.
Variable now : clock -> D -> V * D.
(** The constructor of a driver (name, address), a call of a method of a
    connected instrument, [Instrument.close], and [loop.run()]. *)
Variable driver_connect : string -> string -> M D unit.
Variable driver_call : string -> string -> M D V.
Variable driver_close : string -> M D unit.
Variable loop_run : string -> M D unit.

(** A computation on the laboratory, run in the session. *)
Definition lift {A : Type} (c : M D A) : M (Lab D V) A :=
  fun s =>
    let '(o, d) := c (dev s) in
    (o, MkLab d (connected s) (printed s)).

Definition read_clock (c : clock) : M (Lab D V) V :=
  lift (fun d => (Return (fst (now c d)), snd (now c d))).

Definition print (l : line V) : M (Lab D V) unit :=
  modify (fun s => MkLab (dev s) (connected s) (printed s ++ [l])).

Definition new_instrument (name address : string) : M (Lab D V) unit :=
  lift (driver_connect name address);;;
  modify (fun s => MkLab (dev s) ({[name]} ∪ connected s) (printed s)).

(** A method call on an instrument; the connection must be open. *)
Definition call (name method : string) : M (Lab D V) unit :=
  fun s =>
    if decide (name ∈ connected s)
    then (lift (driver_call name method);;; ret tt) s
    else (Raise (OtherError "closed"), s).

Definition close (name : string) : M (Lab D V) unit :=
  lift (driver_close name);;;
  modify (fun s => MkLab (dev s) (connected s ∖ {[name]}) (printed s)).

(** *** Agilent 34411A versus Keysight 34465A *)

Definition cell_connect : M (Lab D V) unit :=
  new_instrument "Keysight" "TCPIP0::K-000000-00000::inst0::INSTR";;;
  new_instrument "Agilent" "TCPIP0::192.168.15.105::inst0::INSTR";;;
  new_instrument "qdac" "ASRL4::INSTR".

Definition cell_setup : M (Lab D V) unit :=
  call "Keysight" "NPLC(0.06)";;;
  call "Agilent" "NPLC(0.06)";;;
  call "Keysight" "range(1)";;;
  call "Agilent" "range(1)".

(** [t_start = time.time(); for ii in range(N): dmm.volt();
     t_stop = time.time(); print(...)] *)
Definition read_values (dmm : string) (N : nat) : M (Lab D V) unit :=
  t_start <- read_clock time_time;;
  for_each (seq 0 N) (fun _ => call dmm "volt()");;;
  t_stop <- read_clock time_time;;
  print (Line ("Read {} values one at a time from " ++ dmm ++ " in: {} s")
           [num_of_nat N; num_sub t_stop t_start]).

Definition cell_raw_displays_on : M (Lab D V) unit :=
  call "Keysight" "display_clear()";;;
  call "Agilent" "display_clear()";;;
  print (Line "Reading with displays ON" []);;;
  print (Line "----------" []);;;
  for_each [512; 1024; 2048]
    (fun N =>
       read_values "Keysight" N;;;
       read_values "Agilent" N;;;
       print (Line "----------" [])).

Definition cell_raw_displays_off : M (Lab D V) unit :=
  print (Line "Reading with displays OFF" []);;;
  print (Line "----------" []);;;
  for_each [512; 1024; 2048]
    (fun N =>
       call "Keysight" "display_text('QCoDeS')";;;
       read_values "Keysight" N;;;
       call "Keysight" "display_clear()";;;
       call "Agilent" "display_text('QCoDes')";;;
       read_values "Agilent" N;;;
       call "Agilent" "display_clear()";;;
       print (Line "----------" [])).

(** [t_start = time.time(); _ = loop.run(); t_stop = time.time(); print(...)] *)
Definition sweep (description : string) (points : list nat) (pair : string)
  : M (Lab D V) unit :=
  t_start <- read_clock time_time;;
  lift (loop_run description);;;
  t_stop <- read_clock time_time;;
  print (Line ("Did a QCoDeS sweep of the QDac/" ++ pair ++ " pair in {:.1f} s")
           (map num_of_nat points ++ [num_sub t_stop t_start])).

Definition cell_sweep_1d : M (Lab D V) unit :=
  call "Keysight" "display_text('QCoDeS')";;;
  call "Agilent" "display_text('QCoDeS')";;;
  sweep "Loop(qdac.ch42_v).each(ks.volt)" [512] "Keysight";;;
  sweep "Loop(qdac.ch41_v).each(agi.volt)" [512] "Agilent";;;
  call "Agilent" "display_clear()";;;
  call "Keysight" "display_clear()".

Definition cell_sweep_2d : M (Lab D V) unit :=
  call "Keysight" "display_text('QCoDeS')";;;
  call "Agilent" "display_text('QCoDeS')";;;
  sweep "Loop(qdac.ch42_v).loop(qdac.ch41_v).each(ks.volt)" [100; 100] "Keysight";;;
  sweep "Loop(qdac.ch41_v).loop(qdac.ch42_v).each(agi.volt)" [100; 100] "Agilent";;;
  call "Keysight" "display_clear()";;;
  call "Agilent" "display_clear()".

(** [ks.close(); agi.close(); qdac.close()] *)
Definition cell_close : M (Lab D V) unit :=
  close "Keysight";;;
  close "Agilent";;;
  close "qdac".

(** The code cells of the notebook, run from top to bottom.  The cell
    [station = qc.Station(ks, agi, qdac)] only builds an object. *)
Definition dmm_notebook : M (Lab D V) unit :=
  cell_connect;;;
  cell_setup;;;
  cell_raw_displays_on;;;
  cell_raw_displays_off;;;
  cell_sweep_1d;;;
  cell_sweep_2d;;;
  cell_close.

(** *** Benchmark of waveform upload to Tektronix AWG70002A *)

(** The timed part of one repetition of [benchmark_seqx]. *)
Definition upload_seqx : M (Lab D V) unit :=
  call "awg" "sendSEQXFile(seqx_file, 'benchmarkingqcodes.seqx')";;;
  call "awg" "ask('*OPC?')";;;
  call "awg" "loadSEQXFile('benchmarkingqcodes.seqx')";;;
  call "awg" "ch1.setSequenceTrack('Sequence', 1)".

(** [benchmark_seqx(seqx_file, no_of_reps)]; the result is [times]. *)
Definition benchmark_seqx (no_of_reps : nat) : M (Lab D V) (list V) :=
  let times := replicate no_of_reps num_zero in
  call "awg" "clearSequenceList()";;;
  call "awg" "clearWaveformList()";;;
  for_fold (seq 0 no_of_reps)
    (fun times n =>
       t_start <- read_clock perf_counter;;
       upload_seqx;;;
       t_stop <- read_clock perf_counter;;
       let times' := <[n := num_sub t_stop t_start]> times in
       print (Line "Completed run {} of {}." [num_of_nat (n + 1); num_of_nat no_of_reps]);;;
       ret times')
    times.

(** [np.mean] and [np.std] of an array of numbers. *)
Variable np_mean : list V -> V.
Variable np_std : list V -> V.

(** The cell that runs the benchmark:
    [times = benchmark_seqx(seqx_file, no_of_reps=10)], then three
    [print]s, the last of the mean and the deviation of the times. *)
Definition cell_benchmark : M (Lab D V) (list V) :=
  times <- benchmark_seqx 10;;
  print (Line "-------------------------" []);;;
  print (Line "Benchmark complete." []);;;
  print (Line "Time spent: {} s, deviation {} s" [np_mean times; np_std times]);;;
  ret times.

End Bench.
End Bench.

(** ** The cells that use the routines *)

Module Cells.
Import Producer Storage Writers Sqlite TimeIt.

Section Loading.
Context {V : Type} `{Num V}.

(** [h5py.File(filename, 'r')]: the file must exist and be an HDF5 file. *)
Definition h5_File_r (filename : string) : M (World V) string :=
  fun w =>
    match files w !! filename with
    | Some (Hdf5File _) =>
        (Return filename, MkWorld (files w) ({[filename]} ∪ open_files w))
    | _ => (Raise (OtherError "OSError"), w)
    end.

(** The cell that loads from HDF5:
    [with h5py.File(hdf5filename, 'r') as f:
         data = numpy.array(f['results'], copy=True)];
    the result is [data], an array in memory. *)
Definition load_results (hdf5filename : string) : M (World V) (ndarray V) :=
  with_ctx (h5_File_r hdf5filename) h5_File_exit
    (fun f =>
       dss <- h5_datasets f;;
       match dss !! "results" with
       | Some d => ret (MkNdarray (ds_shape d) (concat (ds_rows d)) true None)
       | None => raise (OtherError "KeyError")
       end).

End Loading.

Section Decorated.
Context {V O : Type} `{Num V}.
Variable W : Type.
Variable print_exc : exn -> W -> W.
Variable print_result : TimeitResult V -> W -> W.
Variable default_timer : M W V.
Variable reaches_min_time : V -> bool.
Variable DataSaver : Type.
Variable now : clock -> W -> V * W.
Variable meas_run : string -> nat -> M W DataSaver.
Variable meas_run_exit : DataSaver -> M W unit.
Variable add_result : DataSaver -> datum V -> M W unit.
Variable datasaver_dataset : DataSaver -> O.

(** [partial(save_to_sqlite, paramtype=...)], called with the data
    producer; [write_period] keeps its default, 10. *)
Definition partial_save_to_sqlite (paramtype : string) (data_generator : list (datum V))
  : M W (pyval V O) :=
  save_to_sqlite W DataSaver now meas_run meas_run_exit add_result
    datasaver_dataset data_generator paramtype 10.

(** [time_save_to_sqlite_numeric = time_it(number=3, repeat=2)(
       partial(save_to_sqlite, paramtype='numeric'))] *)
Definition time_save_to_sqlite_numeric (data_generator : list (datum V)) (fuel : nat)
  : M W (TimeitResult V) :=
  time_it W print_exc print_result default_timer reaches_min_time (Some 3%Z) 2
    (partial_save_to_sqlite "numeric" data_generator) fuel.

(** [time_save_to_sqlite_array = time_it()(
       partial(save_to_sqlite, paramtype='array'))] *)
Definition time_save_to_sqlite_array (data_generator : list (datum V)) (fuel : nat)
  : M W (TimeitResult V) :=
  time_it W print_exc print_result default_timer reaches_min_time None default_repeat
    (partial_save_to_sqlite "array" data_generator) fuel.

End Decorated.

Section Waveforms.
Context {V : Type} `{Num V}.

(** [numpy] is external here: the [i]-th of the [N] points of
    [np.linspace(0, 2*np.pi, N)], and [np.sin((m+1)*0.25*x)] at a point. *)
Variable linspace_point : nat -> nat -> V.
Variable sine : nat -> V -> V.

(** [twopi = np.linspace(0, 2*np.pi, N)] *)
Definition twopi (N : nat) : list V := map (linspace_point N) (seq 0 N).

(** [m1 = np.concatenate((np.zeros(int(N/2)), np.ones(int(N/2))))] and
    [m2], with the zeros and the ones exchanged. *)
Definition m1 (N : nat) : list V :=
  replicate (N / 2) num_zero ++ replicate (N / 2) (num_of_nat 1).

Definition m2 (N : nat) : list V :=
  replicate (N / 2) (num_of_nat 1) ++ replicate (N / 2) num_zero.

(** The loop [for m in range(M)] that appends to [wfms], [m1s] and [m2s]. *)
Definition build_waveforms (N M : nat) : list (list V) * list (list V) * list (list V) :=
  fold_left
    (fun lists m =>
       let '(wfms, m1s, m2s) := lists in
       (wfms ++ [map (sine m) (twopi N)], m1s ++ [m1 N], m2s ++ [m2 N]))
    (seq 0 M) ([], [], []).

(** [np.array([row, ...])] of rows of numbers: a 2-D array, for which the
    rows must have one length. *)
Definition np_array (rows : list (list V)) : option (nat * nat * list V) :=
  match rows with
  | [] => Some (0, 0, [])
  | row :: _ =>
      if forallb (fun r => length r =? length row) rows
      then Some (length rows, length row, concat rows)
      else None
  end.

(** [data = np.array([wfms[m], m1s[m], m2s[m]])] of the loop that makes
    the .wfmx files. *)
Definition wfmx_data (N M m : nat) : option (nat * nat * list V) :=
  let '(wfms, m1s, m2s) := build_waveforms N M in
  match wfms !! m, m1s !! m, m2s !! m with
  | Some w, Some a, Some b => np_array [w; a; b]
  | _, _, _ => None
  end.

End Waveforms.
End Cells.

(** ** Sample inputs *)

(** Concrete worlds and inputs on which the routines are run below.
    Numbers are integers here (times in milliseconds). *)
Module Samples.
Import Producer Storage Bench TimeIt.

(** The nearest integer that single precision can hold (24 significant
    bits, ties to the even one), for integers within its range. *)
Definition round_single (z : Z) : Z :=
  let m := Z.abs z in
  if (m <? 2 ^ 24)%Z then z
  else
    let e := (Z.log2 m - 23)%Z in
    let q := Z.shiftr m e in
    let r := (m - Z.shiftl q e)%Z in
    let half := Z.shiftl 1 (e - 1) in
    let q' := if ((half <? r) || ((r =? half) && Z.odd q))%Z%bool then (q + 1)%Z else q in
    (Z.sgn z * Z.shiftl q' e)%Z.

#[export] Instance Z_Num : Num Z := {|
  num_zero := 0%Z;
  num_add := Z.add;
  num_sub := Z.sub;
  num_lt := Z.ltb;
  num_div := Z.div;
  num_of_nat := Z.of_nat;
  num_float32 := round_single
|}.

(** Two items of one point each, and a file system with nothing in it. *)
Definition first_item : datum Z := Datum 1%Z 2%Z [3%Z] [4%Z].
Definition second_item : datum Z := Datum 5%Z 6%Z [7%Z] [8%Z].
Definition two_items : list (datum Z) := [first_item; second_item].

Definition empty_world : World Z := MkWorld ∅ ∅.

(** A random state that counts its draws. *)
Definition counting_random (g : nat) : Z * nat := (Z.of_nat g, S g).

(** A world for [time_it]: the number of calls of the profiled function
    so far, and what the wrapper has printed. *)
Definition counter : Type := nat * list string.

(** A profiled function that reports, at its [k]-th call, [k]
    milliseconds as the first element of a pair. *)
Definition ticking_sut : M counter (pyval Z unit) :=
  fun w => (Return (PyTuple [PyNum (Z.of_nat (fst w)); PyNone]), (S (fst w), snd w)).

(** A profiled function that fails at its third call. *)
Definition failing_sut : M counter (pyval Z unit) :=
  fun w =>
    if Nat.eqb (fst w) 2 then (Raise (OtherError "VisaIOError"), (S (fst w), snd w))
    else (Return (PyNum (Z.of_nat (fst w))), (S (fst w), snd w)).

(** A profiled function that returns [None]. *)
Definition silent_sut : M counter (pyval Z unit) :=
  fun w => (Return PyNone, (S (fst w), snd w)).

Definition note_exc (e : exn) (w : counter) : counter := (fst w, snd w ++ ["traceback"]).
Definition note_result (r : TimeitResult Z) (w : counter) : counter :=
  (fst w, snd w ++ ["result"]).
Definition stopped_timer : M counter Z := fun w => (Return 0%Z, w).
Definition min_time_reached (t : Z) : bool := (200 <=? t)%Z.

(** A laboratory whose state is the time in milliseconds.  Every driver
    call takes 5 ms.  [time.time()] ticks every 16 ms, [perf_counter()]
    every millisecond. *)
Definition coarse_time (d : Z) : Z * Z := ((16 * (d / 16))%Z, d).
Definition fine_time (d : Z) : Z * Z := (d, d).
Definition sample_clocks (c : clock) : Z -> Z * Z :=
  match c with
  | time_time => coarse_time
  | perf_counter => fine_time
  end.
Definition quick_connect (name address : string) : M Z unit := fun d => (Return tt, d).
Definition quick_call (name method : string) : M Z Z := fun d => (Return 0%Z, (d + 5)%Z).
Definition quick_close (name : string) : M Z unit := fun d => (Return tt, d).
Definition quick_loop (description : string) : M Z unit := fun d => (Return tt, (d + 100)%Z).

Definition fresh_lab : Lab Z Z := MkLab 0%Z ∅ [].
Definition keysight_lab : Lab Z Z := MkLab 0%Z {["Keysight"]} [].

(** A qcodes whose world is the time in milliseconds: entering and
    leaving a run take 10 ms, [add_result] takes 1 ms. *)
Definition quick_run (paramtype : string) (write_period : nat) : M Z unit :=
  fun d => (Return tt, (d + 10)%Z).
Definition quick_run_exit (datasaver : unit) : M Z unit := fun d => (Return tt, (d + 10)%Z).
Definition quick_add_result (datasaver : unit) (d : datum Z) : M Z unit :=
  fun t => (Return tt, (t + 1)%Z).
Definition the_dataset (datasaver : unit) : string := "dataset".

End Samples.

(* ===================================================================== *)
(** * Part II: theorems *)
(* ===================================================================== *)

(** ** Computations *)

Module PyFacts.

Section PyFacts.
Context {S : Type}.

Lemma bind_return {A B : Type} (c : M S A) (k : A -> M S B) (s s1 : S) (a : A) :
  c s = (Return a, s1) -> Py.bind c k s = k a s1.
Proof. intros Hc. unfold Py.bind. now rewrite Hc. Qed.

Lemma bind_assoc {A B C : Type} (c : M S A) (k : A -> M S B) (k' : B -> M S C) (s : S) :
  Py.bind (Py.bind c k) k' s = Py.bind c (fun a => Py.bind (k a) k') s.
Proof. unfold Py.bind. destruct (c s) as [[a|e|] s1]; reflexivity. Qed.

(** Two computations that start alike and go on alike are equal. *)
Lemma bind_ext_r {A B : Type} (c : M S A) (k k' : A -> M S B) (s : S) :
  (forall a s1, k a s1 = k' a s1) -> Py.bind c k s = Py.bind c k' s.
Proof.
  intros Hk. unfold Py.bind. destruct (c s) as [[a|e|] s1]; auto.
Qed.

Lemma bind_ret_now {A B : Type} (a : A) (k : A -> M S B) (s : S) :
  Py.bind (ret a) k s = k a s.
Proof. reflexivity. Qed.

(** A sequence that returns: so did its first part, and then the rest. *)
Lemma bind_returns {A B : Type} (c : M S A) (k : A -> M S B) (s s' : S) (b : B) :
  Py.bind c k s = (Return b, s') ->
  exists a s1, c s = (Return a, s1) /\ k a s1 = (Return b, s').
Proof.
  unfold Py.bind. destruct (c s) as [[a|e|] s1]; try discriminate. eauto.
Qed.

Lemma bind_raise_now {A B : Type} (c : M S A) (k : A -> M S B) (s s1 : S) (e : exn) :
  c s = (Raise e, s1) -> Py.bind c k s = (Raise e, s1).
Proof. intros Hc. unfold Py.bind. now rewrite Hc. Qed.

Lemma for_each_app {A : Type} (xs ys : list A) (body : A -> M S unit) (s : S) :
  for_each (xs ++ ys) body s = (for_each xs body;;; for_each ys body) s.
Proof.
  revert s. induction xs as [|x xs IH]; intros s; simpl; [reflexivity|].
  rewrite bind_assoc. apply bind_ext_r. intros _ s1. apply IH.
Qed.

Lemma for_fold_app {A B : Type} (xs ys : list A) (body : B -> A -> M S B) (acc : B) (s : S) :
  for_fold (xs ++ ys) body acc s
  = (acc' <- for_fold xs body acc;; for_fold ys body acc') s.
Proof.
  revert acc s. induction xs as [|x xs IH]; intros acc s; simpl; [reflexivity|].
  rewrite bind_assoc. apply bind_ext_r. intros acc1 s1. apply IH.
Qed.

End PyFacts.

(** Compare two computations statement by statement. *)
Ltac py_same :=
  repeat (rewrite ?bind_assoc; cbv beta;
          first [reflexivity | apply bind_ext_r; intros ? ?]).

End PyFacts.

(** ** The data producer *)

Module ProducerFacts.
Import Producer.

Section ProducerFacts.
Context {V : Type} `{Num V}.
Variable G : Type.
Variable next_random : G -> V * G.

Lemma rand_length (n : nat) (g : G) : length (fst (rand G next_random n g)) = n.
Proof.
  revert g. induction n as [|n IH]; intros g; simpl; [reflexivity|].
  destruct (next_random g) as [x g1]. specialize (IH g1).
  destruct (rand G next_random n g1) as [xs g2]. simpl in *. now rewrite IH.
Qed.

Lemma concat_const_length {A B : Type} (x : list A) (y : list B) :
  length (concat (map (fun _ => x) y)) = length y * length x.
Proof. induction y as [|b y IH]; simpl; [reflexivity|]. rewrite length_app, IH. lia. Qed.

Lemma concat_rows_length {A : Type} (x y : list A) :
  length (concat (map (fun yi => map (fun _ => yi) x) y)) = length y * length x.
Proof.
  induction y as [|b y IH]; simpl; [reflexivity|].
  rewrite length_app, length_map, IH. lia.
Qed.

(** One measurement: the two setpoints and two flattened [n] by [n] grids. *)
Lemma measure_spec (n s1 s2 : nat) (g : G) :
  let d := fst (measure G next_random n s1 s2 g) in
  s1_val d = num_of_nat s1 /\ s2_val d = num_of_nat s2 /\
  length (magn_vals d) = n * n /\ length (phas_vals d) = n * n.
Proof.
  unfold measure.
  pose proof (rand_length n g) as Hx.
  destruct (rand G next_random n g) as [x g1].
  pose proof (rand_length n g1) as Hy.
  destruct (rand G next_random n g1) as [y g2]. simpl in *.
  unfold reshape_flat.
  rewrite concat_const_length, concat_rows_length, Hx, Hy. auto.
Qed.

(** The inner loop at a fixed [s1]: one item per [s2] of [cols], in order. *)
Lemma inner_loop_spec (n s1 : nat) (cols : list nat) (g : G) :
  let items := fst (gen_for G cols
                      (fun s2 g' =>
                         let '(d, g'') := measure G next_random n s1 s2 g' in ([d], g'')) g) in
  map (fun d => (s1_val d, s2_val d)) items
    = map (fun s2 => (num_of_nat s1, num_of_nat s2)) cols /\
  Forall (fun d => length (magn_vals d) = n * n /\ length (phas_vals d) = n * n) items.
Proof.
  revert g. induction cols as [|s2 cols IH]; intros g; simpl.
  - split; constructor.
  - pose proof (measure_spec n s1 s2 g) as Hm.
    destruct (measure G next_random n s1 s2 g) as [d g1]. simpl in Hm.
    specialize (IH g1). simpl in IH.
    destruct (gen_for G cols _ g1) as [zs g2]. simpl in *.
    destruct Hm as (H1 & H2 & H3 & H4). destruct IH as [IH1 IH2].
    split.
    + now rewrite H1, H2, IH1.
    + constructor; auto.
Qed.

(** The outer loop over the rows [rows]. *)
Lemma outer_loop_spec (n : nat) (rows cols : list nat) (g : G) :
  let items := fst (gen_for G rows
                      (fun s1 =>
                         gen_for G cols
                           (fun s2 g' =>
                              let '(d, g'') := measure G next_random n s1 s2 g' in
                              ([d], g''))) g) in
  map (fun d => (s1_val d, s2_val d)) items
    = map (fun p => (num_of_nat (fst p), num_of_nat (snd p))) (list_prod rows cols) /\
  Forall (fun d => length (magn_vals d) = n * n /\ length (phas_vals d) = n * n) items.
Proof.
  revert g. induction rows as [|s1 rows IH]; intros g; simpl.
  - split; constructor.
  - pose proof (inner_loop_spec n s1 cols g) as Hin. simpl in Hin.
    destruct (gen_for G cols _ g) as [ys g1]. simpl in Hin.
    specialize (IH g1). simpl in IH.
    destruct (gen_for G rows _ g1) as [zs g2]. simpl in *.
    destruct Hin as [Hin1 Hin2]. destruct IH as [IH1 IH2].
    split.
    + rewrite !map_app, Hin1, IH1, map_map. reflexivity.
    + apply Forall_app. auto.
Qed.

(** What [make_data_producer(n)] yields. *)
Lemma make_data_producer_spec (n : nat) (g : G) :
  let items := fst (make_data_producer G next_random n g) in
  length items = n * n /\
  map (fun d => (s1_val d, s2_val d)) items
    = map (fun p => (num_of_nat (fst p), num_of_nat (snd p)))
        (list_prod (seq 0 n) (seq 0 n)) /\
  Forall (fun d => length (magn_vals d) = n * n /\ length (phas_vals d) = n * n) items.
Proof.
  unfold make_data_producer, produce_measurement_data.
  pose proof (outer_loop_spec n (seq 0 n) (seq 0 n) g) as [H1 H2].
  split; [|split]; auto.
  apply (f_equal (@length _)) in H1.
  rewrite !length_map, length_prod, !length_seq in H1. exact H1.
Qed.

End ProducerFacts.

Import Samples.

(** [numpy.meshgrid] and the flattening, on two points per parameter. *)
Example meshgrid_two_by_two :
  meshgrid [1; 2]%Z [3; 4]%Z = ([[1; 2]; [1; 2]]%Z, [[3; 3]; [4; 4]]%Z).
Proof. reflexivity. Qed.

Example first_item_of_two_by_two :
  head (fst (make_data_producer nat counting_random 2 0))
  = Some (Datum 0%Z 0%Z [0; 1; 0; 1]%Z [2; 2; 3; 3]%Z).
Proof. reflexivity. Qed.

End ProducerFacts.

(** ** Arrays and the two writers *)

Module WriterFacts.
Import Producer Storage Writers PyFacts.

Section WriterFacts.
Context {V : Type} `{Num V}.

(** *** Slices *)

Lemma slice_len_tail (n k : nat) : slice_len n (n + k) (n + k) = k.
Proof. unfold slice_len. lia. Qed.

Lemma slice_start_tail (n k : nat) : slice_start n (n + k) = n.
Proof. unfold slice_start. lia. Qed.

Lemma write_at_length (row vs : list V) (start : nat) :
  start + length vs <= length row -> length (write_at row start vs) = length row.
Proof.
  intros Hle. unfold write_at.
  rewrite !length_app, length_take, length_drop. lia.
Qed.

(** Writing the last [length vs] elements of a row replaces its padding. *)
Lemma write_at_tail (row pad vs : list V) (n : nat) :
  length row = n -> length pad = length vs -> write_at (row ++ pad) n vs = row ++ vs.
Proof.
  intros <- Hlen. unfold write_at.
  rewrite take_app_length.
  rewrite drop_app_ge by lia.
  rewrite drop_ge by lia. now rewrite app_nil_r.
Qed.

Lemma broadcast_scalar (len : nat) (v : V) : broadcast len (Scalar v) = Some (replicate len v).
Proof. reflexivity. Qed.

Lemma broadcast_array (vs : list V) : broadcast (length vs) (Array vs) = Some vs.
Proof. unfold broadcast. now rewrite decide_True. Qed.

Lemma resize_row_grow (row : list V) (k : nat) :
  resize_row (length row + k) row = row ++ replicate k num_zero.
Proof.
  unfold resize_row. rewrite take_ge by lia. f_equal. f_equal. lia.
Qed.

(** *** The world of an open HDF5 file with one dataset *)

Definition h5_world (base : gmap string (file_content V)) (opens : gset string)
  (f name : string) (d : dataset V) : World V :=
  MkWorld (<[f := Hdf5File (<[name := d]> ∅)]> base) opens.

Lemma h5_datasets_world base opens f name d :
  f ∈ opens ->
  h5_datasets f (h5_world base opens f name d)
  = (Return (<[name := d]> ∅), h5_world base opens f name d).
Proof.
  intros Hf. unfold h5_datasets, h5_world. simpl.
  rewrite decide_True by exact Hf. now rewrite lookup_insert_eq.
Qed.

Lemma h5_put_world base opens f name d d' :
  f ∈ opens ->
  h5_put f name d' (h5_world base opens f name d)
  = (Return tt, h5_world base opens f name d').
Proof.
  intros Hf. unfold h5_put.
  rewrite (bind_return _ _ _ _ _ (h5_datasets_world base opens f name d Hf)).
  unfold modify, h5_world. simpl. now rewrite !insert_insert_eq.
Qed.

Lemma ds_get_world base opens f name d :
  f ∈ opens ->
  ds_get (f, name) (h5_world base opens f name d)
  = (Return d, h5_world base opens f name d).
Proof.
  intros Hf. unfold ds_get. simpl.
  rewrite (bind_return _ _ _ _ _ (h5_datasets_world base opens f name d Hf)).
  now rewrite lookup_insert_eq.
Qed.

Lemma ds_resize_world base opens f name d size :
  f ∈ opens ->
  within_maxshape size (ds_maxshape d) = true ->
  ds_resize (f, name) size (h5_world base opens f name d)
  = (Return tt,
     h5_world base opens f name
       (MkDataset size (ds_maxshape d) (resize_rows (fst size) (snd size) (ds_rows d)))).
Proof.
  intros Hf Hmax. unfold ds_resize.
  rewrite (bind_return _ _ _ _ _ (ds_get_world base opens f name d Hf)).
  rewrite Hmax. simpl. now apply h5_put_world.
Qed.

Lemma broadcast_length (len : nat) (src : rhs V) (vs : list V) :
  broadcast len src = Some vs -> length vs = len.
Proof.
  destruct src as [v|ws]; simpl.
  - intros [= <-]. apply length_replicate.
  - destruct (decide (length ws = len)) as [Hlen|Hlen]; [now intros [= <-]|].
    destruct ws as [|v [|v' ws]]; try discriminate.
    intros [= <-]. apply length_replicate.
Qed.

Lemma map_replicate {A B : Type} (g : A -> B) (n : nat) (x : A) :
  map g (replicate n x) = replicate n (g x).
Proof. induction n as [|n IH]; simpl; [reflexivity|now rewrite IH]. Qed.

Lemma write_at_nothing (row : list V) (start : nat) : write_at row start [] = row.
Proof. unfold write_at. simpl. rewrite Nat.add_0_r. apply take_drop. Qed.

(** A slice assignment that can be broadcast: what is written is the
    source converted to single precision.  (On an empty selection nothing
    is written, which is the same.) *)
Lemma ds_setitem_world base opens f name d i a b src row vs :
  f ∈ opens ->
  ds_rows d !! i = Some row ->
  broadcast (slice_len a b (snd (ds_shape d))) src = Some vs ->
  ds_setitem (f, name) i a b src (h5_world base opens f name d)
  = (Return tt,
     h5_world base opens f name
       (MkDataset (ds_shape d) (ds_maxshape d)
          (<[i := write_at row (slice_start a (snd (ds_shape d))) (map num_float32 vs)]>
             (ds_rows d)))).
Proof.
  intros Hf Hrow Hb. unfold ds_setitem.
  rewrite (bind_return _ _ _ _ _ (ds_get_world base opens f name d Hf)).
  rewrite Hrow. cbv zeta.
  destruct (slice_len a b (snd (ds_shape d)) =? 0) eqn:Hempty.
  - apply Nat.eqb_eq in Hempty. rewrite Hempty in Hb.
    apply broadcast_length in Hb. apply nil_length_inv in Hb. subst vs.
    cbn [map]. rewrite write_at_nothing, list_insert_id by exact Hrow.
    destruct d. reflexivity.
  - rewrite Hb. now apply h5_put_world.
Qed.

(** *** One iteration of [save_to_hdf5] *)

(** The rows of the dataset after the items [data] have been appended to
    the rows [r0], [r1], [r2], [r3]: the values of the items, in single
    precision. *)
Definition appended (data : list (datum V)) (r0 r1 r2 r3 : list V) : list (list V) :=
  [ r0 ++ flat_map (fun d => replicate (length (magn_vals d)) (num_float32 (s1_val d))) data;
    r1 ++ flat_map (fun d => replicate (length (magn_vals d)) (num_float32 (s2_val d))) data;
    r2 ++ flat_map (fun d => map num_float32 (magn_vals d)) data;
    r3 ++ flat_map (fun d => map num_float32 (phas_vals d)) data ].

(** The total number of points of [data]. *)
Definition n_points (data : list (datum V)) : nat :=
  list_sum (map (fun d => length (magn_vals d)) data).

Definition well_formed (d : datum V) : Prop := length (phas_vals d) = length (magn_vals d).

Lemma hdf5_step_world base opens f name n r0 r1 r2 r3 d :
  f ∈ opens ->
  length r0 = n -> length r1 = n -> length r2 = n -> length r3 = n ->
  well_formed d ->
  hdf5_step (f, name) d
    (h5_world base opens f name (MkDataset (4, n) (4, None) [r0; r1; r2; r3]))
  = (Return tt,
     h5_world base opens f name
       (MkDataset (4, n + length (magn_vals d)) (4, None) (appended [d] r0 r1 r2 r3))).
Proof.
  intros Hf H0 H1 H2 H3 Hwf. unfold hdf5_step, ds_shape_of.
  set (k := length (magn_vals d)).
  rewrite (bind_return _ _ _ _ _
             (bind_return _ _ _ _ _ (ds_get_world _ _ _ _ _ Hf))).
  cbn [fst snd ds_shape].
  erewrite bind_return; cycle 1.
  { eapply ds_resize_world; [exact Hf|reflexivity]. }
  cbn [fst snd ds_rows ds_maxshape].
  assert (Hrows : resize_rows 4 (n + k) [r0; r1; r2; r3]
                  = [r0 ++ replicate k num_zero; r1 ++ replicate k num_zero;
                     r2 ++ replicate k num_zero; r3 ++ replicate k num_zero]).
  { unfold resize_rows. simpl.
    rewrite <- (resize_row_grow r0), <- (resize_row_grow r1),
      <- (resize_row_grow r2), <- (resize_row_grow r3).
    now rewrite H0, H1, H2, H3. }
  rewrite Hrows.
  erewrite bind_return; cycle 1.
  { eapply ds_setitem_world; [exact Hf|reflexivity|].
    cbn [snd ds_shape]. rewrite slice_len_tail. apply broadcast_scalar. }
  cbn [ds_shape ds_maxshape ds_rows snd]. rewrite slice_start_tail.
  erewrite bind_return; cycle 1.
  { eapply ds_setitem_world; [exact Hf|reflexivity|].
    cbn [snd ds_shape]. rewrite slice_len_tail. apply broadcast_scalar. }
  cbn [ds_shape ds_maxshape ds_rows snd]. rewrite slice_start_tail.
  erewrite bind_return; cycle 1.
  { eapply ds_setitem_world; [exact Hf|reflexivity|].
    cbn [snd ds_shape]. rewrite slice_len_tail. apply broadcast_array. }
  cbn [ds_shape ds_maxshape ds_rows snd]. rewrite slice_start_tail.
  erewrite ds_setitem_world; [|exact Hf|reflexivity|]; cycle 1.
  { cbn [snd ds_shape]. rewrite slice_len_tail. unfold k. rewrite <- Hwf.
    apply broadcast_array. }
  cbn [ds_shape ds_maxshape ds_rows snd]. rewrite slice_start_tail.
  do 2 f_equal. unfold appended. simpl. rewrite !app_nil_r, !map_replicate.
  rewrite !(write_at_tail _ _ _ n); auto; rewrite ?length_map, ?length_replicate; auto.
Qed.

(** *** The loop and the whole of [save_to_hdf5] *)

Lemma appended_cons d data r0 r1 r2 r3 :
  appended (d :: data) r0 r1 r2 r3
  = appended data
      (r0 ++ replicate (length (magn_vals d)) (num_float32 (s1_val d)))
      (r1 ++ replicate (length (magn_vals d)) (num_float32 (s2_val d)))
      (r2 ++ map num_float32 (magn_vals d)) (r3 ++ map num_float32 (phas_vals d)).
Proof. unfold appended. simpl. now rewrite <- !app_assoc. Qed.

Lemma hdf5_loop_world base opens f name data :
  f ∈ opens ->
  Forall well_formed data ->
  forall n r0 r1 r2 r3,
  length r0 = n -> length r1 = n -> length r2 = n -> length r3 = n ->
  for_each data (hdf5_step (f, name))
    (h5_world base opens f name (MkDataset (4, n) (4, None) [r0; r1; r2; r3]))
  = (Return tt,
     h5_world base opens f name
       (MkDataset (4, n + n_points data) (4, None) (appended data r0 r1 r2 r3))).
Proof.
  intros Hf Hwf. induction Hwf as [|d data Hd Hdata IH]; intros n r0 r1 r2 r3 H0 H1 H2 H3.
  - simpl. unfold ret, appended, n_points. simpl.
    now rewrite Nat.add_0_r, !app_nil_r.
  - cbn [for_each].
    rewrite (bind_return _ _ _ _ _ (hdf5_step_world _ _ _ _ n _ _ _ _ d Hf H0 H1 H2 H3 Hd)).
    unfold appended at 1. simpl. rewrite !app_nil_r.
    rewrite IH.
    + rewrite appended_cons. unfold n_points. simpl. now rewrite Nat.add_assoc.
    + rewrite length_app, length_replicate. lia.
    + rewrite length_app, length_replicate. lia.
    + rewrite length_app, length_map. lia.
    + rewrite length_app, length_map. unfold well_formed in Hd. lia.
Qed.

Lemma reopen_closed (filename : string) (opens : gset string) :
  filename ∉ opens -> ({[filename]} ∪ opens) ∖ {[filename]} = opens.
Proof.
  intros Hn. apply set_eq. intros x.
  rewrite elem_of_difference, elem_of_union, !elem_of_singleton.
  split.
  - intros [[Hx|Hx] Hne]; [contradiction|assumption].
  - intros Hx. split; [now right|]. intros Heq. subst x. contradiction.
Qed.

Lemma create_dataset_fresh base opens f name shape maxshape :
  f ∈ opens ->
  create_dataset f name shape maxshape (MkWorld (<[f := Hdf5File ∅]> base) opens)
  = (Return (f, name),
     h5_world base opens f name
       (MkDataset shape maxshape (replicate (fst shape) (replicate (snd shape) num_zero)))).
Proof.
  intros Hf.
  unfold create_dataset, h5_put, Py.bind, h5_datasets, modify, ret, h5_world. simpl.
  rewrite !decide_True by exact Hf. rewrite lookup_insert_eq, lookup_empty. simpl.
  rewrite decide_True by exact Hf. rewrite lookup_insert_eq. simpl.
  now rewrite insert_insert_eq.
Qed.

(** What [save_to_hdf5] leaves behind when the items are well formed:
    the file holds one dataset, "results", of shape 4 by the number of
    points, with the four columns of the items appended in order; the
    file is closed again and the function returns [None]. *)
Lemma save_to_hdf5_stores {O : Type} (data : list (datum V)) (filename : string) (w : World V) :
  filename ∉ open_files w ->
  Forall well_formed data ->
  save_to_hdf5 (O := O) data filename w
  = (Return PyNone,
     MkWorld
       (<[filename := Hdf5File
            (<["results" := MkDataset (4, n_points data) (4, None)
                              (appended data [] [] [] [])]> ∅)]> (files w))
       (open_files w)).
Proof.
  intros Hclosed Hwf. unfold save_to_hdf5, with_ctx.
  assert (Hopen : h5_File_w filename w
                  = (Return filename,
                     MkWorld (<[filename := Hdf5File ∅]> (files w))
                             ({[filename]} ∪ open_files w))).
  { unfold h5_File_w. now rewrite decide_False. }
  assert (Hin : filename ∈ ({[filename]} ∪ open_files w : gset string)).
  { apply elem_of_union. left. now apply elem_of_singleton. }
  assert (Hbody : hdf5_body data filename
                    (MkWorld (<[filename := Hdf5File ∅]> (files w))
                             ({[filename]} ∪ open_files w))
                  = (Return tt,
                     h5_world (files w) ({[filename]} ∪ open_files w) filename "results"
                       (MkDataset (4, n_points data) (4, None) (appended data [] [] [] [])))).
  { unfold hdf5_body.
    rewrite (bind_return _ _ _ _ _
               (create_dataset_fresh (files w) _ filename "results" (4, 0) (4, None) Hin)).
    cbn [fst snd replicate].
    rewrite (hdf5_loop_world _ _ _ _ data Hin Hwf 0 [] [] [] []); auto. }
  rewrite bind_assoc, (bind_return _ _ _ _ _ Hopen).
  unfold Py.bind, try_finally. rewrite Hbody.
  unfold h5_File_exit, modify, close_file, h5_world, ret. simpl.
  do 2 f_equal. now apply reopen_closed.
Qed.

(** *** Handles: what stays open *)

(** A computation that neither opens nor closes a file and that always
    ends. *)
Definition tidy {A : Type} (c : M (World V) A) : Prop :=
  forall w, open_files (snd (c w)) = open_files w /\ fst (c w) <> Unfinished.

Lemma tidy_ret {A : Type} (a : A) : tidy (ret a).
Proof. intros w. simpl. split; [reflexivity|discriminate]. Qed.

Lemma tidy_raise {A : Type} (e : exn) : tidy (raise (A := A) e).
Proof. intros w. simpl. split; [reflexivity|discriminate]. Qed.

Lemma tidy_bind {A B : Type} (c : M (World V) A) (k : A -> M (World V) B) :
  tidy c -> (forall a, tidy (k a)) -> tidy (Py.bind c k).
Proof.
  intros Hc Hk w. unfold Py.bind. specialize (Hc w).
  destruct (c w) as [[a|e|] w1]; simpl in *; destruct Hc as [Hc Hu].
  - destruct (Hk a w1) as [Ho Hu']. split; [congruence|exact Hu'].
  - split; [assumption|discriminate].
  - now contradict Hu.
Qed.

Lemma tidy_for_each {A : Type} (xs : list A) (body : A -> M (World V) unit) :
  (forall x, tidy (body x)) -> tidy (for_each xs body).
Proof.
  intros Hb. induction xs as [|x xs IH]; simpl.
  - apply tidy_ret.
  - apply tidy_bind; auto.
Qed.

Lemma tidy_h5_datasets f : tidy (h5_datasets f).
Proof.
  intros w. unfold h5_datasets.
  destruct (decide (f ∈ open_files w)); [|split; [reflexivity|discriminate]].
  destruct (files w !! f) as [[dss|sh data]|]; split; simpl; auto; discriminate.
Qed.

Lemma tidy_h5_put f name d : tidy (h5_put f name d).
Proof.
  unfold h5_put. apply tidy_bind; [apply tidy_h5_datasets|].
  intros dss w. simpl. split; [reflexivity|discriminate].
Qed.

Lemma tidy_ds_get ds : tidy (ds_get ds).
Proof.
  unfold ds_get. apply tidy_bind; [apply tidy_h5_datasets|].
  intros dss. destruct (dss !! snd ds); [apply tidy_ret|apply tidy_raise].
Qed.

Lemma tidy_ds_resize ds size : tidy (ds_resize ds size).
Proof.
  unfold ds_resize. apply tidy_bind; [apply tidy_ds_get|].
  intros d. destruct (within_maxshape size (ds_maxshape d));
    [apply tidy_h5_put|apply tidy_raise].
Qed.

Lemma tidy_ds_setitem ds i a b src : tidy (ds_setitem ds i a b src).
Proof.
  unfold ds_setitem. apply tidy_bind; [apply tidy_ds_get|].
  intros d. destruct (ds_rows d !! i); [|apply tidy_raise].
  cbv zeta. destruct (slice_len a b _ =? 0); [apply tidy_ret|].
  destruct (broadcast _ src); [apply tidy_h5_put|apply tidy_raise].
Qed.

Lemma tidy_hdf5_step ds d : tidy (hdf5_step ds d).
Proof.
  unfold hdf5_step, ds_shape_of.
  apply tidy_bind.
  - apply tidy_bind; [apply tidy_ds_get|intros d0; apply tidy_ret].
  - intros shape. cbv zeta.
    repeat first [apply tidy_ds_resize | apply tidy_ds_setitem | apply tidy_bind | intros ?].
Qed.

Lemma tidy_hdf5_body data f : tidy (hdf5_body data f).
Proof.
  unfold hdf5_body, create_dataset.
  apply tidy_bind.
  - apply tidy_bind; [apply tidy_h5_datasets|].
    intros dss. destruct (dss !! "results"); [apply tidy_raise|].
    apply tidy_bind; [apply tidy_h5_put|intros ?; apply tidy_ret].
  - intros ds. apply tidy_for_each. intros d. apply tidy_hdf5_step.
Qed.

(** [save_to_hdf5] in terms of the body of its [with] block: the file is
    closed on the way out, whether the body returned or raised. *)
Lemma save_to_hdf5_paths {O : Type} (data : list (datum V)) (filename : string) (w : World V) :
  filename ∉ open_files w ->
  save_to_hdf5 (O := O) data filename w
  = match hdf5_body data filename
            (MkWorld (<[filename := Hdf5File ∅]> (files w)) ({[filename]} ∪ open_files w))
    with
    | (Return _, w1) => (Return PyNone, close_file filename w1)
    | (Raise e, w1) => (Raise e, close_file filename w1)
    | (Unfinished, w1) => (Unfinished, w1)
    end.
Proof.
  intros Hclosed. unfold save_to_hdf5, with_ctx, Py.bind, h5_File_w.
  rewrite decide_False by exact Hclosed.
  unfold try_finally, h5_File_exit, modify, ret.
  destruct (hdf5_body data filename _) as [[[]|e|] w1]; reflexivity.
Qed.

(** Whatever the items are and however the loop ends, [save_to_hdf5]
    leaves no handle behind: the set of open files is the one it found. *)
Lemma save_to_hdf5_closes {O : Type} (data : list (datum V)) (filename : string) (w : World V) :
  filename ∉ open_files w ->
  open_files (snd (save_to_hdf5 (O := O) data filename w)) = open_files w /\
  fst (save_to_hdf5 (O := O) data filename w) <> Unfinished.
Proof.
  intros Hclosed. rewrite (save_to_hdf5_paths data filename w Hclosed).
  destruct (tidy_hdf5_body data filename
              (MkWorld (<[filename := Hdf5File ∅]> (files w))
                       ({[filename]} ∪ open_files w))) as [Ho Hu].
  destruct (hdf5_body data filename _) as [[[]|e|] w1]; simpl in *.
  - rewrite Ho. split; [now apply reopen_closed|discriminate].
  - rewrite Ho. split; [now apply reopen_closed|discriminate].
  - now contradict Hu.
Qed.

(** *** The array of [save_to_npy] *)

(** An array in memory: it owns its data and maps no file. *)
Definition in_memory (a : ndarray V) : Prop := nd_owndata a = true /\ nd_mmap a = None.

(** A computation that leaves the world as it is and, when it returns,
    returns a value with the property [P]. *)
Definition quiet {A : Type} (P : A -> Prop) (c : M (World V) A) : Prop :=
  forall w, snd (c w) = w /\
            match fst (c w) with
            | Return a => P a
            | Raise _ => True
            | Unfinished => False
            end.

(** A computation that leaves the world as it is and returns a value
    with the property [P]. *)
Definition succeeds {A : Type} (P : A -> Prop) (c : M (World V) A) : Prop :=
  forall w, exists a, c w = (Return a, w) /\ P a.

Lemma succeeds_quiet {A : Type} (P : A -> Prop) (c : M (World V) A) :
  succeeds P c -> quiet P c.
Proof. intros Hc w. destruct (Hc w) as (a & -> & Ha). simpl. auto. Qed.

Lemma quiet_bind {A B : Type} (P : A -> Prop) (Q : B -> Prop)
  (c : M (World V) A) (k : A -> M (World V) B) :
  quiet P c -> (forall a, P a -> quiet Q (k a)) -> quiet Q (Py.bind c k).
Proof.
  intros Hc Hk w. unfold Py.bind. destruct (Hc w) as [Hw Ho].
  destruct (c w) as [[a|e|] w1]; simpl in *; subst w1.
  - apply (Hk a Ho).
  - auto.
  - contradiction.
Qed.

Lemma succeeds_bind {A B : Type} (P : A -> Prop) (Q : B -> Prop)
  (c : M (World V) A) (k : A -> M (World V) B) :
  succeeds P c -> (forall a, P a -> succeeds Q (k a)) -> succeeds Q (Py.bind c k).
Proof.
  intros Hc Hk w. destruct (Hc w) as (a & Ha & HP).
  destruct (Hk a HP w) as (b & Hb & HQ).
  exists b. split; [|exact HQ]. now rewrite (bind_return _ _ _ _ _ Ha).
Qed.

Lemma quiet_for_fold {A B : Type} (P : B -> Prop) (xs : list A)
  (body : B -> A -> M (World V) B) (acc : B) :
  (forall b x, P b -> quiet P (body b x)) -> P acc -> quiet P (for_fold xs body acc).
Proof.
  intros Hb. revert acc. induction xs as [|x xs IH]; intros acc Hacc; simpl.
  - intros w. simpl. auto.
  - eapply quiet_bind; [apply Hb; exact Hacc|]. intros b Pb. now apply IH.
Qed.

Lemma nd_resize_quiet (a : ndarray V) (new_shape : nat * nat) :
  in_memory a ->
  succeeds (fun a' => in_memory a' /\ nd_shape a' = new_shape /\
                      (length (nd_flat a) <= fst new_shape * snd new_shape ->
                       length (nd_flat a') = fst new_shape * snd new_shape))
    (nd_resize a new_shape).
Proof.
  intros [Hown Hmm] w. unfold nd_resize. rewrite Hown.
  eexists. split; [reflexivity|]. unfold in_memory. simpl.
  repeat split; auto.
  intros Hle. rewrite length_app, length_take, length_replicate. lia.
Qed.

Lemma nd_setitem_quiet (a : ndarray V) (i s e : nat) (src : rhs V) :
  in_memory a ->
  quiet (fun a' => in_memory a' /\ nd_shape a' = nd_shape a) (nd_setitem a i s e src).
Proof.
  intros [Hown Hmm] w. unfold nd_setitem.
  destruct (nd_shape a) as [n_rows n_cols] eqn:Hshape.
  destruct (decide (i < n_rows)); [|simpl; auto].
  destruct (broadcast _ src) as [vs|]; [|simpl; auto].
  unfold write_through, Py.bind, ret, in_memory. simpl. rewrite Hmm. simpl. auto.
Qed.

(** A slice assignment at the end of a row of an array in memory. *)
Lemma nd_setitem_tail (a : ndarray V) (i n k : nat) (src : rhs V) (vs : list V) :
  in_memory a ->
  nd_shape a = (4, n + k) ->
  length (nd_flat a) = 4 * (n + k) ->
  i < 4 ->
  broadcast k src = Some vs ->
  length vs = k ->
  succeeds (fun a' => in_memory a' /\ nd_shape a' = (4, n + k) /\
                      length (nd_flat a') = 4 * (n + k) /\
                      nd_flat a' = write_at (nd_flat a) (i * (n + k) + n) vs)
    (nd_setitem a i n (n + k) src).
Proof.
  intros [Hown Hmm] Hshape Hlen Hi Hb Hvs w. unfold nd_setitem. rewrite Hshape.
  rewrite decide_True by exact Hi.
  rewrite slice_len_tail, slice_start_tail, Hb.
  unfold write_through, Py.bind, ret, in_memory. simpl. rewrite Hmm.
  eexists. split; [reflexivity|]. simpl. repeat split; auto.
  rewrite write_at_length; [exact Hlen|]. rewrite Hlen, Hvs. nia.
Qed.

Lemma npy_step_quiet (a : ndarray V) (d : datum V) :
  in_memory a -> quiet in_memory (npy_step a d).
Proof.
  intros Ha. unfold npy_step.
  eapply quiet_bind; [apply succeeds_quiet, nd_resize_quiet, Ha|].
  intros a0 (H0 & _).
  eapply quiet_bind; [apply nd_setitem_quiet, H0|]. intros a1 (H1 & _).
  eapply quiet_bind; [apply nd_setitem_quiet, H1|]. intros a2 (H2 & _).
  eapply quiet_bind; [apply nd_setitem_quiet, H2|]. intros a3 (H3 & _).
  intros w. destruct (nd_setitem_quiet a3 3 (snd (nd_shape a))
                        (snd (nd_shape a) + length (magn_vals d))
                        (Array (phas_vals d)) H3 w) as [Hw Ho].
  split; [exact Hw|]. destruct (fst _); auto. tauto.
Qed.

(** An array of 4 rows and [n] columns in memory. *)
Definition four_rows (n : nat) (a : ndarray V) : Prop :=
  in_memory a /\ nd_shape a = (4, n) /\ length (nd_flat a) = 4 * n.

Lemma npy_step_grows (a : ndarray V) (d : datum V) (n : nat) :
  four_rows n a -> well_formed d ->
  succeeds (four_rows (n + length (magn_vals d))) (npy_step a d).
Proof.
  intros (Ha & Hshape & Hlen) Hwf. unfold npy_step. rewrite Hshape. cbn [fst snd].
  set (k := length (magn_vals d)).
  eapply succeeds_bind; [apply nd_resize_quiet, Ha|].
  cbn [fst snd]. intros a0 (H0 & S0 & L0).
  assert (L0' : length (nd_flat a0) = 4 * (n + k)) by (apply L0; lia).
  eapply succeeds_bind.
  { apply (nd_setitem_tail a0 0 n k _ (replicate k (s1_val d)));
      [exact H0|exact S0|exact L0'|lia|apply broadcast_scalar|apply length_replicate]. }
  intros a1 (H1 & S1 & L1 & _).
  eapply succeeds_bind.
  { apply (nd_setitem_tail a1 1 n k _ (replicate k (s2_val d)));
      [exact H1|exact S1|exact L1|lia|apply broadcast_scalar|apply length_replicate]. }
  intros a2 (H2 & S2 & L2 & _).
  eapply succeeds_bind.
  { apply (nd_setitem_tail a2 2 n k _ (magn_vals d));
      [exact H2|exact S2|exact L2|lia|apply broadcast_array|reflexivity]. }
  intros a3 (H3 & S3 & L3 & _).
  intros w.
  assert (Hb : broadcast k (Array (phas_vals d)) = Some (phas_vals d)).
  { unfold k. rewrite <- Hwf. apply broadcast_array. }
  destruct (nd_setitem_tail a3 3 n k (Array (phas_vals d)) (phas_vals d) H3 S3 L3
              ltac:(lia) Hb Hwf w) as (a4 & E4 & H4 & S4 & L4 & _).
  exists a4. split; [exact E4|]. unfold four_rows. auto.
Qed.

Lemma npy_loop_grows (data : list (datum V)) :
  Forall well_formed data ->
  forall (a : ndarray V) (n : nat),
  four_rows n a ->
  succeeds (four_rows (n + n_points data)) (for_fold data npy_step a).
Proof.
  induction 1 as [|d data Hd Hdata IH]; intros a n Ha; simpl.
  - intros w. exists a. split; [reflexivity|].
    unfold n_points. simpl. now rewrite Nat.add_0_r.
  - eapply succeeds_bind; [apply (npy_step_grows a d n Ha Hd)|].
    intros a1 Ha1. specialize (IH a1 _ Ha1).
    unfold n_points in *. simpl. now rewrite Nat.add_assoc.
Qed.

(** The world that [save_to_npy] leaves behind. *)
Definition npy_left (filename : string) (w : World V) : World V :=
  MkWorld (<[filename := NpyFile (4, 0) []]> (files w))
          (({[filename]} ∪ open_files w) ∖ {[filename]}).

(** The array with which the loop of [save_to_npy] starts: the copy that
    [numpy.require] made of the empty [memmap]. *)
Definition npy_start : ndarray V := MkNdarray (4, 0) [] true None.

(** [save_to_npy] up to the end of its loop, in terms of the loop alone:
    mapping, copying and rebinding are over before the loop starts, and
    the loop works on the copy. *)
Lemma npy_body_paths (data : list (datum V)) (filename : string) (w : World V) :
  npy_body data filename w = for_fold data npy_step npy_start (npy_left filename w).
Proof. reflexivity. Qed.

Lemma npy_start_in_memory : in_memory npy_start.
Proof. split; reflexivity. Qed.

(** The loop never touches the world. *)
Lemma npy_body_world (data : list (datum V)) (filename : string) (w : World V) :
  snd (npy_body data filename w) = npy_left filename w /\
  match fst (npy_body data filename w) with
  | Return a => in_memory a
  | Raise _ => True
  | Unfinished => False
  end.
Proof.
  rewrite npy_body_paths.
  apply (quiet_for_fold in_memory data npy_step npy_start); [|apply npy_start_in_memory].
  intros b x Hb. now apply npy_step_quiet.
Qed.

Lemma save_to_npy_world {O : Type} (data : list (datum V)) (filename : string) (w : World V) :
  snd (save_to_npy (O := O) data filename w) = npy_left filename w /\
  fst (save_to_npy (O := O) data filename w) <> Unfinished.
Proof.
  unfold save_to_npy, Py.bind.
  destruct (npy_body_world data filename w) as [Hw Ho].
  destruct (npy_body data filename w) as [[a|e|] w1]; simpl in *; subst w1.
  - destruct Ho as [_ Hmm]. unfold release. rewrite Hmm. simpl.
    split; [reflexivity|discriminate].
  - split; [reflexivity|discriminate].
  - contradiction.
Qed.

(** On well-formed items the loop ends with an array of 4 rows and as
    many columns as there are points, and [save_to_npy] returns [None]. *)
Lemma npy_body_shape (data : list (datum V)) (filename : string) (w : World V) :
  Forall well_formed data ->
  exists a, npy_body data filename w = (Return a, npy_left filename w) /\
            four_rows (n_points data) a.
Proof.
  intros Hwf. rewrite npy_body_paths.
  apply (npy_loop_grows data Hwf npy_start 0).
  unfold four_rows. split; [apply npy_start_in_memory|]. split; reflexivity.
Qed.

Lemma save_to_npy_returns {O : Type} (data : list (datum V)) (filename : string) (w : World V) :
  Forall well_formed data ->
  save_to_npy (O := O) data filename w = (Return PyNone, npy_left filename w).
Proof.
  intros Hwf. destruct (npy_body_shape data filename w Hwf) as (a & Ha & (_ & Hmm) & _).
  unfold save_to_npy. rewrite (bind_return _ _ _ _ _ Ha).
  unfold release. rewrite Hmm. reflexivity.
Qed.

(** *** What is on disk afterwards, and what the loops do to the data *)

Lemma save_to_hdf5_loads {O : Type} (data : list (datum V)) (filename : string) (w : World V) :
  filename ∉ open_files w ->
  Forall well_formed data ->
  load_hdf5 filename "results" (snd (save_to_hdf5 (O := O) data filename w))
  = Some (MkDataset (4, n_points data) (4, None) (appended data [] [] [] [])).
Proof.
  intros Hclosed Hwf. rewrite (save_to_hdf5_stores data filename w Hclosed Hwf).
  unfold load_hdf5. simpl. now rewrite !lookup_insert_eq.
Qed.

Lemma appended_lengths (data : list (datum V)) (r0 r1 r2 r3 : list V) (n : nat) :
  Forall well_formed data ->
  length r0 = n -> length r1 = n -> length r2 = n -> length r3 = n ->
  Forall (fun row => length row = n + n_points data) (appended data r0 r1 r2 r3).
Proof.
  intros Hwf. revert n r0 r1 r2 r3.
  induction Hwf as [|d data Hd Hdata IH]; intros n r0 r1 r2 r3 H0 H1 H2 H3.
  - unfold appended, n_points. simpl. rewrite !app_nil_r, Nat.add_0_r.
    repeat constructor; assumption.
  - rewrite appended_cons.
    replace (n + n_points (d :: data)) with (n + length (magn_vals d) + n_points data)
      by (unfold n_points; simpl; lia).
    apply IH; rewrite length_app, ?length_map, ?length_replicate;
      unfold well_formed in Hd; lia.
Qed.

(** In the HDF5 dataset an iteration of the loop adds [n_pts] columns
    and leaves every element of the earlier columns where it was. *)
Lemma hdf5_step_keeps_items base opens f name n r0 r1 r2 r3 d :
  f ∈ opens ->
  length r0 = n -> length r1 = n -> length r2 = n -> length r3 = n ->
  well_formed d ->
  exists rows',
    hdf5_step (f, name) d
      (h5_world base opens f name (MkDataset (4, n) (4, None) [r0; r1; r2; r3]))
    = (Return tt,
       h5_world base opens f name
         (MkDataset (4, n + length (magn_vals d)) (4, None) rows')) /\
    length rows' = 4 /\
    forall i j, j < n -> rows_item rows' i j = rows_item [r0; r1; r2; r3] i j.
Proof.
  intros Hf H0 H1 H2 H3 Hwf. eexists. split; [|split].
  - now apply hdf5_step_world.
  - reflexivity.
  - intros i j Hj. unfold appended, rows_item.
    destruct i as [|[|[|[|i]]]]; simpl; try reflexivity;
      rewrite lookup_app_l by lia; reflexivity.
Qed.

(** The file that [save_to_npy] leaves behind, whatever the items: the
    array of shape (4, 0) that [open_memmap] wrote. *)
Lemma save_to_npy_loads {O : Type} (data : list (datum V)) (filename : string) (w : World V) :
  numpy_load filename (snd (save_to_npy (O := O) data filename w)) = Some ((4, 0), []).
Proof.
  destruct (save_to_npy_world (O := O) data filename w) as [-> _].
  unfold numpy_load, npy_left. simpl. now rewrite lookup_insert_eq.
Qed.

Lemma n_points_uniform (data : list (datum V)) (c : nat) :
  Forall (fun d => length (magn_vals d) = c) data -> n_points data = length data * c.
Proof.
  induction 1 as [|d data Hd Hdata IH]; [reflexivity|].
  unfold n_points in *. simpl. rewrite IH, Hd. reflexivity.
Qed.

End WriterFacts.

Import Samples.

(** C2.  The two writers on two items of one point each.  [save_to_hdf5]
    stores the four columns as the items gave them.  [save_to_npy] does
    not: the array that its loop fills ends as [[1, 5], [3, 6], [0, 7],
    [0, 8]], because [ndarray.resize] keeps the order of the buffer and
    not the indices, and the file it leaves holds the empty array, because
    the loop fills a copy in memory. *)
Theorem writers_differ_on_two_items :
  load_hdf5 "out.h5" "results"
    (snd (save_to_hdf5 (O := unit) two_items "out.h5" empty_world))
  = Some (MkDataset (4, 2) (4, None) [[1; 5]; [2; 6]; [3; 7]; [4; 8]]%Z) /\
  fst (npy_body two_items "out.npy" empty_world)
  = Return (MkNdarray (4, 2) [1; 5; 3; 6; 0; 7; 0; 8]%Z true None) /\
  numpy_load "out.npy" (snd (save_to_npy (O := unit) two_items "out.npy" empty_world))
  = Some ((4, 0), []).
Proof. vm_compute. repeat split. Qed.

(** C3.  The second iteration of the loop of [save_to_npy] moves and
    overwrites what the first one wrote: the array grows from 4 by 1 to
    4 by 2 as it should, but item [1, 0] changes from 2 to 3, item [2, 0]
    from 3 to 0, and the 2 that the first iteration wrote is gone. *)
Theorem npy_step_overwrites :
  exists a1 a2 : ndarray Z,
    npy_step (npy_start (V := Z)) first_item empty_world = (Return a1, empty_world) /\
    npy_step a1 second_item empty_world = (Return a2, empty_world) /\
    nd_shape a1 = (4, 1) /\ nd_shape a2 = (4, 2) /\
    nd_item a1 1 0 = Some 2%Z /\ nd_item a2 1 0 = Some 3%Z /\
    nd_item a1 2 0 = Some 3%Z /\ nd_item a2 2 0 = Some 0%Z /\
    ~ In 2%Z (nd_flat a2).
Proof.
  eexists. eexists. split; [vm_compute; reflexivity|].
  split; [vm_compute; reflexivity|].
  vm_compute. repeat split. intros Hin. repeat destruct Hin as [Hin|Hin]; try discriminate.
  exact Hin.
Qed.

(** C5.  After [save_to_npy] the file holds the empty array of shape
    (4, 0), whatever was generated: [numpy.require] copied the memory map
    into an array in memory, the loop filled that copy (the array it ends
    with maps no file), and [del] dropped it.  None of the data reaches
    the file. *)
Theorem save_to_npy_leaves_file_empty {V O : Type} `{Num V}
  (data : list (datum V)) (filename : string) (w : World V) :
  numpy_load filename (snd (save_to_npy (O := O) data filename w)) = Some ((4, 0), []) /\
  (forall a w', npy_body data filename w = (Return a, w') ->
                nd_mmap a = None /\
                numpy_load filename w' = Some ((4, 0), [])).
Proof.
  split; [apply save_to_npy_loads|].
  intros a w' Hbody. destruct (npy_body_world data filename w) as [Hw Ha].
  rewrite Hbody in Hw, Ha. simpl in Hw, Ha. subst w'. split; [apply Ha|].
  unfold numpy_load, npy_left. simpl. now rewrite lookup_insert_eq.
Qed.

End WriterFacts.

(** ** The producer feeding the writers *)

Module ProducerRuns.
Import Producer Storage Writers ProducerFacts WriterFacts.

Section ProducerRuns.
Context {V O : Type} `{Num V}.
Variable G : Type.
Variable next_random : G -> V * G.

(** C9.  The generator and the two writers.  For [n >= 1] the generator
    made by [make_data_producer(n)] yields [n^2] items, one for each pair
    [(s1_val, s2_val)] of [range(n) x range(n)] in lexicographic order,
    each with [n^2] values of [magn_vals] and of [phas_vals].  Fed with
    these items, [save_to_hdf5] appends every point: the dataset it
    leaves holds, in single precision and in the order of the generator,
    the [n^4] points of each of the four series.  [save_to_npy] does not:
    its loop ends with an array of [n^4] columns, but this array is a
    copy in memory that maps no file, and the file holds the array of
    shape (4, 0) that [open_memmap] wrote: of the [n^4] points of each
    series, none. *)
Theorem make_data_producer_yields
  (n : nat) (g : G) (filename : string) (w : World V) :
  1 <= n ->
  filename ∉ open_files w ->
  let items := fst (make_data_producer G next_random n g) in
  length items = n ^ 2 /\
  map (fun d => (s1_val d, s2_val d)) items
    = map (fun p => (num_of_nat (fst p), num_of_nat (snd p)))
        (list_prod (seq 0 n) (seq 0 n)) /\
  Forall (fun d => length (magn_vals d) = n ^ 2 /\ length (phas_vals d) = n ^ 2) items /\
  (let rows :=
     [flat_map (fun d => replicate (length (magn_vals d)) (num_float32 (s1_val d))) items;
      flat_map (fun d => replicate (length (magn_vals d)) (num_float32 (s2_val d))) items;
      flat_map (fun d => map num_float32 (magn_vals d)) items;
      flat_map (fun d => map num_float32 (phas_vals d)) items] in
   fst (save_to_hdf5 (O := O) items filename w) = Return PyNone /\
   load_hdf5 filename "results" (snd (save_to_hdf5 (O := O) items filename w))
   = Some (MkDataset (4, n ^ 4) (4, None) rows) /\
   Forall (fun row => length row = n ^ 4) rows) /\
  (fst (save_to_npy (O := O) items filename w) = Return PyNone /\
   (exists a : ndarray V,
      npy_body items filename w = (Return a, npy_left filename w) /\
      nd_shape a = (4, n ^ 4) /\ nd_mmap a = None) /\
   numpy_load filename (snd (save_to_npy (O := O) items filename w)) = Some ((4, 0), []) /\
   n ^ 4 <> 0).
Proof.
  intros Hn Hclosed items.
  destruct (make_data_producer_spec G next_random n g) as (Hlen & Hpairs & Hall).
  fold items in Hlen, Hpairs, Hall.
  assert (H2 : n ^ 2 = n * n) by (simpl; lia).
  assert (Hwf : Forall well_formed items).
  { eapply Forall_impl; [exact Hall|]. intros d [Hm Hp]. unfold well_formed. congruence. }
  assert (Hpts : n_points items = n ^ 4).
  { rewrite (n_points_uniform items (n * n)).
    - rewrite Hlen. simpl. lia.
    - eapply Forall_impl; [exact Hall|]. now intros d [Hm _]. }
  rewrite H2. split; [exact Hlen|]. split; [exact Hpairs|]. split; [exact Hall|]. split.
  - rewrite (save_to_hdf5_loads items filename w Hclosed Hwf).
    rewrite (save_to_hdf5_stores items filename w Hclosed Hwf).
    cbv zeta. rewrite Hpts. split; [reflexivity|]. split; [reflexivity|].
    rewrite <- Hpts. apply (appended_lengths items [] [] [] [] 0 Hwf); reflexivity.
  - rewrite (save_to_npy_returns items filename w Hwf). cbn [fst snd].
    split; [reflexivity|]. split; [|split].
    + destruct (npy_body_shape items filename w Hwf) as (a & Ha & (_ & Hmm) & Hshape & _).
      exists a. rewrite Hpts in Hshape. auto.
    + unfold numpy_load, npy_left. simpl. now rewrite lookup_insert_eq.
    + apply Nat.pow_nonzero. lia.
Qed.

End ProducerRuns.

Import Samples.

(** The producer for two points per parameter, its items written to
    files of an empty file system. *)
Lemma make_data_producer_yields_witness :
  let items := fst (make_data_producer nat counting_random 2 0) in
  load_hdf5 "out" "results" (snd (save_to_hdf5 (O := unit) items "out" empty_world))
  = Some (MkDataset (4, 16) (4, None)
            [[0; 0; 0; 0; 0; 0; 0; 0; 1; 1; 1; 1; 1; 1; 1; 1];
             [0; 0; 0; 0; 1; 1; 1; 1; 0; 0; 0; 0; 1; 1; 1; 1];
             [0; 1; 0; 1; 4; 5; 4; 5; 8; 9; 8; 9; 12; 13; 12; 13];
             [2; 2; 3; 3; 6; 6; 7; 7; 10; 10; 11; 11; 14; 14; 15; 15]]%Z) /\
  numpy_load "out" (snd (save_to_npy (O := unit) items "out" empty_world))
  = Some ((4, 0), []).
Proof.
  destruct (make_data_producer_yields (O := unit) nat counting_random 2 0 "out" empty_world)
    as (_ & _ & _ & (_ & Hh5 & _) & (_ & _ & Hnpy & _)).
  - lia.
  - vm_compute. discriminate.
  - split; [|exact Hnpy]. rewrite Hh5. vm_compute. reflexivity.
Defined.

(** The array in memory with which the loop of [save_to_npy] ends on
    these items has 16 columns, but every [resize] has moved what was
    there: in the rows of [s2_val], [magn_vals] and [phas_vals] only the
    last item is where it belongs, and most values of the first three
    items are gone (compare the rows of the dataset above). *)
Example npy_array_of_two_by_two :
  fst (npy_body (fst (make_data_producer nat counting_random 2 0)) "out" empty_world)
  = Return (MkNdarray (4, 16)
              [0; 0; 0; 0; 0; 0; 0; 0; 1; 1; 1; 1; 1; 1; 1; 1;
               0; 0; 0; 0; 0; 0; 0; 0; 0; 0; 0; 0; 1; 1; 1; 1;
               8; 9; 8; 9; 0; 0; 0; 0; 0; 0; 0; 0; 12; 13; 12; 13;
               0; 0; 0; 0; 0; 0; 0; 0; 0; 0; 0; 0; 14; 14; 15; 15]%Z
              true None).
Proof. vm_compute. reflexivity. Qed.

End ProducerRuns.

(** ** The [time_it] decorator *)

Module TimeItFacts.
Import TimeIt PyFacts.

Section Paths.
Context {V O : Type} `{Num V}.
Variable W : Type.
Variable print_exc : exn -> W -> W.
Variable print_result : TimeitResult V -> W -> W.
Variable default_timer : M W V.
Variable reaches_min_time : V -> bool.

(** The three ways through [wrapper]. *)
Lemma wrapper_paths (number : option Z) (repeat : nat) (sut : M W (pyval V O))
  (fuel : nat) (w : W) :
  time_it W print_exc print_result default_timer reaches_min_time number repeat sut fuel w
  = match profile W default_timer reaches_min_time number repeat sut fuel w with
    | (Return profiled, w1) =>
        summarise W print_result repeat (fst profiled) (snd profiled) w1
    | (Raise e, w1) => (Raise e, print_exc e w1)
    | (Unfinished, w1) => (Unfinished, w1)
    end.
Proof.
  unfold time_it, time_sut, wrapper, Py.bind at 1, try_except.
  destruct (profile _ _ _ _ _ _ _ w) as [[p|e|] w1]; reflexivity.
Qed.

End Paths.

Section TimeItFacts.
Context {V O : Type} `{Num V}.
Variable W : Type.
Variable print_exc : exn -> W -> W.
Variable print_result : TimeitResult V -> W -> W.
Variable default_timer : M W V.
Variable reaches_min_time : V -> bool.

(** The duration that a return value of the profiled function reports:
    the first element of a tuple, or the value itself. *)
Definition reported (returned_vals : pyval V O) : option V :=
  match returned_vals with
  | PyTuple (PyNum d :: _) => Some d
  | PyNum d => Some d
  | _ => None
  end.

(** [executions sut w ds w']: from the world [w], [length ds] calls of
    [sut] in a row return, reporting the durations [ds] and leaving the
    world [w']. *)
Inductive executions (sut : M W (pyval V O)) : W -> list V -> W -> Prop :=
| executions_nil (w : W) : executions sut w [] w
| executions_cons (w w1 w2 : W) (r : pyval V O) (d : V) (ds : list V) :
    sut w = (Return r, w1) ->
    reported r = Some d ->
    executions sut w1 ds w2 ->
    executions sut w (d :: ds) w2.

(** [timing_runs sut w dss w']: one timing run after the other, the
    durations of each run in one list of [dss]. *)
Inductive timing_runs (sut : M W (pyval V O)) : W -> list (list V) -> W -> Prop :=
| timing_runs_nil (w : W) : timing_runs sut w [] w
| timing_runs_cons (w w1 w2 : W) (ds : list V) (dss : list (list V)) :
    executions sut w ds w1 ->
    timing_runs sut w1 dss w2 ->
    timing_runs sut w (ds :: dss) w2.

(** The sum of the durations of a run, added up as [inner] does. *)
Definition total (ds : list V) : V := fold_left num_add ds num_zero.

Lemma sut_reports (sut : M W (pyval V O)) (w w1 : W) (r : pyval V O) (d acc : V) :
  sut w = (Return r, w1) ->
  reported r = Some d ->
  (returned_vals <- sut;;
   x <- first_return_value W returned_vals;;
   add_to W acc x) w = (Return (num_add acc d), w1).
Proof.
  intros Hs Hr. rewrite (bind_return _ _ _ _ _ Hs).
  destruct r as [|v|[|[|v'|items'|o'] items]|o]; simpl in Hr; try discriminate;
    injection Hr as <-; reflexivity.
Qed.

Lemma inner_executions (sut : M W (pyval V O)) (timer : M W V) (w w1 : W) (ds : list V) :
  executions sut w ds w1 ->
  forall acc,
  for_fold (replicate (length ds) tt)
    (fun total_time _ =>
       returned_vals <- sut;;
       x <- first_return_value W returned_vals;;
       add_to W total_time x) acc w
  = (Return (fold_left num_add ds acc), w1).
Proof.
  induction 1 as [w|w w1 w2 r d ds Hs Hr Hex IH]; intros acc; simpl.
  - reflexivity.
  - rewrite (bind_return _ _ _ _ _ (sut_reports sut w w1 r d acc Hs Hr)). apply IH.
Qed.

(** A timing run of [length ds] executions measures their total. *)
Lemma timer_timeit_total (sut : M W (pyval V O)) (number : Z) (w w1 : W) (ds : list V) :
  executions sut w ds w1 ->
  length ds = Z.to_nat number ->
  timer_timeit W default_timer sut number w = (Return (total ds), w1).
Proof.
  intros Hex Hlen. unfold timer_timeit, inner, itertools_repeat. rewrite <- Hlen.
  now apply inner_executions.
Qed.

Lemma repeat_loop_totals (sut : M W (pyval V O)) (number : Z) (w w1 : W)
  (dss : list (list V)) :
  timing_runs sut w dss w1 ->
  Forall (fun ds => length ds = Z.to_nat number) dss ->
  forall (ixs : list nat) (r : list V),
  length ixs = length dss ->
  for_fold ixs
    (fun r _ => t <- timer_timeit W default_timer sut number;; ret (r ++ [t])) r w
  = (Return (r ++ map total dss), w1).
Proof.
  induction 1 as [w|w w1 w2 ds dss Hex Hruns IH]; intros Hlen ixs r Hix.
  - destruct ixs; [|discriminate]. simpl. now rewrite app_nil_r.
  - destruct ixs as [|i ixs]; [discriminate|]. simpl in *.
    inversion Hlen as [|? ? Hds Hrest]; subst.
    rewrite bind_assoc.
    rewrite (bind_return _ _ _ _ _ (timer_timeit_total sut number w w1 ds Hex Hds)).
    unfold Py.bind at 1. unfold ret at 1.
    rewrite (IH Hrest ixs (r ++ [total ds])) by congruence.
    now rewrite <- app_assoc.
Qed.

Lemma timer_repeat_totals (sut : M W (pyval V O)) (number : Z) (w w1 : W)
  (dss : list (list V)) :
  timing_runs sut w dss w1 ->
  Forall (fun ds => length ds = Z.to_nat number) dss ->
  timer_repeat W default_timer sut (length dss) number w = (Return (map total dss), w1).
Proof.
  intros Hruns Hlen. unfold timer_repeat.
  rewrite (repeat_loop_totals sut number w w1 dss Hruns Hlen (seq 0 (length dss)) []).
  - reflexivity.
  - apply length_seq.
Qed.

(** The wrapper never reads the timer that [timeit.Timer] hands to
    [inner]: with any other timer it does the same. *)
Lemma time_it_ignores_timer (other_timer : M W V)
  (number : option Z) (repeat : nat) (sut : M W (pyval V O)) (fuel : nat) (w : W) :
  time_it W print_exc print_result default_timer reaches_min_time number repeat sut fuel w
  = time_it W print_exc print_result other_timer reaches_min_time number repeat sut fuel w.
Proof. reflexivity. Qed.

(** C1.  With positive [number] and [repeat], the wrapper made by
    [time_it] adds up, for every timing run, the durations that the
    profiled function itself reports (the first element of the tuple it
    returns, or the value it returns) over the [number] executions of
    the run; the timer handed to [inner] plays no part.  It returns (and
    prints) the [TimeitResult] whose [all_runs] are these [repeat] totals
    and whose [best] and [worst] are their minimum and maximum divided by
    [number]. *)
Theorem time_it_reports_sut_durations
  (number : Z) (repeat : nat) (sut : M W (pyval V O)) (fuel : nat) (w w' : W)
  (dss : list (list V)) :
  (0 < number)%Z ->
  0 < repeat ->
  length dss = repeat ->
  Forall (fun ds => length ds = Z.to_nat number) dss ->
  timing_runs sut w dss w' ->
  exists (first : V) (rest : list V),
    map total dss = first :: rest /\
    let timeit_result :=
      MkTimeitResult number repeat
        (num_div (smallest first rest) number)
        (num_div (largest first rest) number)
        (first :: rest) 0 3 in
    time_it W print_exc print_result default_timer reaches_min_time
      (Some number) repeat sut fuel w
    = (Return timeit_result, print_result timeit_result w').
Proof.
  intros Hnumber Hrepeat Hlen Hall Hruns.
  destruct dss as [|ds dss]; [simpl in Hlen; lia|].
  exists (total ds), (map total dss). split; [reflexivity|].
  pose proof (timer_repeat_totals sut number w w' (ds :: dss) Hruns Hall) as Hrep.
  rewrite Hlen in Hrep.
  rewrite wrapper_paths. unfold profile.
  unfold Py.bind at 1. unfold ret at 1.
  rewrite (bind_return _ _ _ _ _ Hrep).
  unfold ret at 1. cbn [fst snd map]. unfold summarise, truediv. cbn [py_min py_max].
  destruct (number =? 0)%Z eqn:Hzero; [apply Z.eqb_eq in Hzero; lia|]. reflexivity.
Qed.

(** *** Exceptions of the profiled function *)

(** The calls of the profiled function, recorded beside the world: what
    each call did (its outcome) and the world it left. *)
Definition call_log : Type := list (outcome (pyval V O) * W).

Definition logged (sut : M W (pyval V O)) : M (W * call_log) (pyval V O) :=
  fun s =>
    let '(o, w1) := sut (fst s) in
    (o, (w1, snd s ++ [(o, w1)])).

(** What is not a call of the profiled function leaves the record alone. *)
Definition beside {A : Type} (c : M W A) : M (W * call_log) A :=
  fun s => let '(o, w1) := c (fst s) in (o, (w1, snd s)).

Definition on_world (f : W -> W) (s : W * call_log) : W * call_log := (f (fst s), snd s).

(** The calls of the profiled function that a call of the wrapper makes. *)
Definition calls_of (number : option Z) (repeat : nat) (sut : M W (pyval V O))
  (fuel : nat) (w : W) : call_log :=
  snd (snd (time_it (W * call_log)
              (fun e => on_world (print_exc e)) (fun r => on_world (print_result r))
              (beside default_timer) reaches_min_time
              number repeat (logged sut) fuel (w, []))).

(** No recorded call raised. *)
Definition clean (log : call_log) : Prop := forall e w, ~ In (Raise e, w) log.

(** [linked c c']: [c'] is [c] with the calls recorded; if [c] raises
    because a call raised, that call is the last one recorded and nothing
    happened to the world after it. *)
Definition linked {A : Type} (c : M W A) (c' : M (W * call_log) A) : Prop :=
  forall w log, clean log ->
    exists log', c' (w, log) = (fst (c w), (snd (c w), log')) /\
      (clean log' \/
       exists e l, fst (c w) = Raise e /\ log' = l ++ [(Raise e, snd (c w))] /\ clean l).

Lemma clean_nil : clean [].
Proof. intros e w []. Qed.

Lemma clean_snoc_return (log : call_log) (r : pyval V O) (w : W) :
  clean log -> clean (log ++ [(Return r, w)]).
Proof.
  intros Hc e w0 Hin. apply in_app_or in Hin as [Hin|[Hin|[]]]; [now apply (Hc e w0)|].
  discriminate.
Qed.

Lemma clean_snoc_unfinished (log : call_log) (w : W) :
  clean log -> clean (log ++ [(Unfinished, w)]).
Proof.
  intros Hc e w0 Hin. apply in_app_or in Hin as [Hin|[Hin|[]]]; [now apply (Hc e w0)|].
  discriminate.
Qed.

Lemma linked_logged (sut : M W (pyval V O)) : linked sut (logged sut).
Proof.
  intros w log Hc. unfold logged. simpl.
  destruct (sut w) as [[r|e|] w1]; simpl; eexists; (split; [reflexivity|]).
  - left. now apply clean_snoc_return.
  - right. exists e, log. auto.
  - left. now apply clean_snoc_unfinished.
Qed.

Lemma linked_ret {A : Type} (a : A) : linked (ret a) (ret a).
Proof. intros w log Hc. exists log. split; [reflexivity|now left]. Qed.

Lemma linked_raise {A : Type} (e : exn) : linked (raise (A := A) e) (raise e).
Proof. intros w log Hc. exists log. split; [reflexivity|now left]. Qed.

Lemma linked_unfinished {A : Type} :
  linked (A := A) (fun w => (Unfinished, w)) (fun s => (Unfinished, s)).
Proof. intros w log Hc. exists log. split; [reflexivity|now left]. Qed.

Lemma linked_bind {A B : Type} (c : M W A) (c' : M (W * call_log) A)
  (k : A -> M W B) (k' : A -> M (W * call_log) B) :
  linked c c' -> (forall a, linked (k a) (k' a)) -> linked (Py.bind c k) (Py.bind c' k').
Proof.
  intros Hc Hk w log Hclean. unfold Py.bind.
  destruct (Hc w log Hclean) as (log1 & E1 & Hlog1). rewrite E1.
  destruct (c w) as [[a|e|] w1]; simpl in *.
  - destruct Hlog1 as [Hclean1|(e & l & Habs & _)]; [|discriminate].
    apply (Hk a w1 log1 Hclean1).
  - exists log1. split; [reflexivity|].
    destruct Hlog1 as [Hclean1|(e0 & l & He & Hl & Hcl)]; [now left|].
    right. exists e0, l. injection He as ->. auto.
  - exists log1. split; [reflexivity|].
    destruct Hlog1 as [Hclean1|(e0 & l & Habs & _)]; [now left|discriminate].
Qed.

Lemma linked_for_fold {A B : Type} (xs : list A)
  (body : B -> A -> M W B) (body' : B -> A -> M (W * call_log) B) (acc : B) :
  (forall b x, linked (body b x) (body' b x)) ->
  linked (for_fold xs body acc) (for_fold xs body' acc).
Proof.
  intros Hb. revert acc. induction xs as [|x xs IH]; intros acc; simpl.
  - apply linked_ret.
  - apply linked_bind; auto.
Qed.

Lemma linked_first_return_value (r : pyval V O) :
  linked (first_return_value W r) (first_return_value (W * call_log) r).
Proof.
  destruct r as [|v|[|x items]|o]; simpl; auto using linked_ret, linked_raise.
Qed.

Lemma linked_add_to (acc : V) (x : pyval V O) :
  linked (add_to W acc x) (add_to (W * call_log) acc x).
Proof. destruct x; simpl; auto using linked_ret, linked_raise. Qed.

Lemma linked_timer_timeit (sut : M W (pyval V O)) (number : Z) :
  linked (timer_timeit W default_timer sut number)
         (timer_timeit (W * call_log) (beside default_timer) (logged sut) number).
Proof.
  unfold timer_timeit, inner. apply linked_for_fold. intros total_time _.
  apply linked_bind; [apply linked_logged|]. intros r.
  apply linked_bind; [apply linked_first_return_value|]. intros x.
  apply linked_add_to.
Qed.

Lemma linked_timer_repeat (sut : M W (pyval V O)) (repeat : nat) (number : Z) :
  linked (timer_repeat W default_timer sut repeat number)
         (timer_repeat (W * call_log) (beside default_timer) (logged sut) repeat number).
Proof.
  unfold timer_repeat. apply linked_for_fold. intros r _.
  apply linked_bind; [apply linked_timer_timeit|]. intros t. apply linked_ret.
Qed.

Lemma linked_autorange_for (sut : M W (pyval V O)) (i : Z) (js : list Z) :
  linked (autorange_for W default_timer reaches_min_time sut i js)
         (autorange_for (W * call_log) (beside default_timer) reaches_min_time
            (logged sut) i js).
Proof.
  induction js as [|j js IH]; simpl.
  - apply linked_ret.
  - apply linked_bind; [apply linked_timer_timeit|]. intros t.
    destruct (reaches_min_time t); [apply linked_ret|exact IH].
Qed.

Lemma linked_autorange_while (sut : M W (pyval V O)) (fuel : nat) (i : Z) :
  linked (autorange_while W default_timer reaches_min_time sut fuel i)
         (autorange_while (W * call_log) (beside default_timer) reaches_min_time
            (logged sut) fuel i).
Proof.
  revert i. induction fuel as [|fuel IH]; intros i; cbn [autorange_while].
  - apply linked_unfinished.
  - apply linked_bind; [apply linked_autorange_for|]. intros [r|]; [apply linked_ret|apply IH].
Qed.

(** The body of the [try] statement of the wrapper. *)
Lemma linked_profile (number : option Z) (repeat : nat) (sut : M W (pyval V O))
  (fuel : nat) :
  linked
    (profile W default_timer reaches_min_time number repeat sut fuel)
    (profile (W * call_log) (beside default_timer) reaches_min_time number repeat
       (logged sut) fuel).
Proof.
  unfold profile. apply linked_bind.
  - destruct number as [n|]; [apply linked_ret|].
    apply linked_bind; [apply linked_autorange_while|]. intros r. apply linked_ret.
  - intros number_. apply linked_bind; [apply linked_timer_repeat|].
    intros all_runs. apply linked_ret.
Qed.

(** Building and printing the result records no call. *)
Lemma summarise_log (repeat : nat) (number_ : Z) (all_runs : list V) (s : W * call_log) :
  snd (snd (summarise (W * call_log) (fun r => on_world (print_result r))
              repeat number_ all_runs s)) = snd s.
Proof.
  unfold summarise, truediv.
  destruct all_runs as [|x xs]; [reflexivity|].
  cbn [py_min py_max]. destruct (number_ =? 0)%Z; reflexivity.
Qed.

(** C6.  If a call of the profiled function raises an exception [e]
    while the wrapper made by [time_it] runs (with a given [number] or
    with [number=None]), leaving the world [w2], then the wrapper raises
    [e] to its caller: it returns no [TimeitResult], and all it did after
    the failed call is to print the traceback. *)
Theorem time_it_reraises
  (number : option Z) (repeat : nat) (sut : M W (pyval V O)) (fuel : nat) (w : W)
  (e : exn) (w2 : W) :
  In (Raise e, w2) (calls_of number repeat sut fuel w) ->
  time_it W print_exc print_result default_timer reaches_min_time
    number repeat sut fuel w
  = (Raise e, print_exc e w2).
Proof.
  unfold calls_of. rewrite !wrapper_paths.
  destruct (linked_profile number repeat sut fuel w [] clean_nil) as (log & E & Hlog).
  unfold call_log in *. rewrite E. clear E.
  destruct (profile W default_timer reaches_min_time number repeat sut fuel w)
    as [[profiled|e0|] w1]; cbn [fst snd] in *.
  - destruct Hlog as [Hclean|(e1 & l & Habs & _)]; [|discriminate].
    rewrite summarise_log. cbn [snd]. intros Hin. exfalso. exact (Hclean _ _ Hin).
  - unfold on_world. cbn [fst snd].
    destruct Hlog as [Hclean|(e1 & l & He1 & -> & Hclean)].
    + intros Hin. exfalso. exact (Hclean _ _ Hin).
    + injection He1 as <-. intros Hin.
      apply in_app_or in Hin as [Hin|[Hin|[]]]; [exfalso; exact (Hclean _ _ Hin)|].
      injection Hin as <- <-. reflexivity.
  - destruct Hlog as [Hclean|(e1 & l & Habs & _)]; [|discriminate].
    intros Hin. exfalso. exact (Hclean _ _ Hin).
Qed.

End TimeItFacts.

Import Samples.

(** Two runs of two executions each of [ticking_sut], from its first
    call on: the runs total 1 + 2 and 3 + 4 milliseconds. *)
Lemma time_it_reports_sut_durations_witness :
  time_it Samples.counter Samples.note_exc Samples.note_result Samples.stopped_timer
    Samples.min_time_reached (Some 2%Z) 2 Samples.ticking_sut 0 (1, [])
  = (Return (MkTimeitResult 2%Z 2 1%Z 3%Z [3%Z; 7%Z] 0 3), (5, ["result"])).
Proof.
  destruct (time_it_reports_sut_durations Samples.counter Samples.note_exc
              Samples.note_result Samples.stopped_timer Samples.min_time_reached
              2%Z 2 Samples.ticking_sut 0 (1, []) (5, [])
              [[1%Z; 2%Z]; [3%Z; 4%Z]])
    as (first & rest & Hruns & Hres).
  - lia.
  - lia.
  - reflexivity.
  - repeat constructor.
  - eapply timing_runs_cons.
    + eapply executions_cons; [reflexivity|reflexivity|].
      eapply executions_cons; [reflexivity|reflexivity|]. apply executions_nil.
    + eapply timing_runs_cons; [|apply timing_runs_nil].
      eapply executions_cons; [reflexivity|reflexivity|].
      eapply executions_cons; [reflexivity|reflexivity|]. apply executions_nil.
  - vm_compute in Hruns. injection Hruns as <- <-. exact Hres.
Defined.

(** [failing_sut] fails at its third call, the first of the second run. *)
Lemma time_it_reraises_witness :
  time_it Samples.counter Samples.note_exc Samples.note_result Samples.stopped_timer
    Samples.min_time_reached (Some 2%Z) 2 Samples.failing_sut 0 (0, [])
  = (Raise (OtherError "VisaIOError"), (3, ["traceback"])).
Proof.
  apply (time_it_reraises Samples.counter Samples.note_exc Samples.note_result
           Samples.stopped_timer Samples.min_time_reached (Some 2%Z) 2
           Samples.failing_sut 0 (0, []) (OtherError "VisaIOError") (3, [])).
  vm_compute. right. right. left. reflexivity.
Defined.

End TimeItFacts.

(** ** What the save routines return *)

Module ReturnFacts.
Import Producer Storage Writers Sqlite PyFacts WriterFacts.

Section ReturnFacts.
Context {V O : Type} `{Num V}.
Variable W : Type.
Variable DataSaver : Type.
Variable now : clock -> W -> V * W.
Variable meas_run : string -> nat -> M W DataSaver.
Variable meas_run_exit : DataSaver -> M W unit.
Variable add_result : DataSaver -> datum V -> M W unit.
Variable datasaver_dataset : DataSaver -> O.

(** [save_to_sqlite] when qcodes does its part: the result is the pair
    of [t1 - t0] and the dataset, with [t0] read after the run was
    entered and [t1] after it was left. *)
Lemma save_to_sqlite_returns (data : list (datum V)) (paramtype : string)
  (write_period : nat) (datasaver : DataSaver) (s s1 s2 s3 : W) :
  meas_run paramtype write_period s = (Return datasaver, s1) ->
  for_each data (add_result datasaver) (snd (now perf_counter s1)) = (Return tt, s2) ->
  meas_run_exit datasaver s2 = (Return tt, s3) ->
  save_to_sqlite W DataSaver now meas_run meas_run_exit add_result
    datasaver_dataset data paramtype write_period s
  = (Return (PyTuple [PyNum (num_sub (fst (now perf_counter s3)) (fst (now perf_counter s1)));
                      PyObj (datasaver_dataset datasaver)]),
     snd (now perf_counter s3)).
Proof.
  intros Hrun Hloop Hexit.
  unfold save_to_sqlite, with_ctx, try_finally, read_clock, Py.bind, ret.
  rewrite Hrun. simpl. rewrite Hloop, Hexit. reflexivity.
Qed.

(** Whenever [save_to_sqlite] returns, it returns such a pair. *)
Lemma save_to_sqlite_pair (data : list (datum V)) (paramtype : string)
  (write_period : nat) (s s' : W) (v : pyval V O) :
  save_to_sqlite W DataSaver now meas_run meas_run_exit add_result
    datasaver_dataset data paramtype write_period s = (Return v, s') ->
  exists (saving_time : V) (dataset : O), v = PyTuple [PyNum saving_time; PyObj dataset].
Proof.
  unfold save_to_sqlite, with_ctx, try_finally, read_clock, Py.bind, ret.
  destruct (meas_run paramtype write_period s) as [[datasaver|e|] s1]; try discriminate.
  simpl.
  destruct (for_each data (add_result datasaver) _) as [[[]|e|] s2]; try discriminate.
  - destruct (meas_run_exit datasaver s2) as [[[]|e|] s3]; try discriminate.
    intros Heq. injection Heq as <- _. eauto.
  - destruct (meas_run_exit datasaver s2) as [[[]|e'|] s3]; discriminate.
Qed.

(** C10.  [save_to_hdf5] and [save_to_npy] return [None]: whenever they
    return, the value is [None], and on well-formed items (and, for
    HDF5, a file that is not open) they do return.  [save_to_sqlite] is
    the one save routine with a result: whenever it returns, it returns a
    pair [(saving_time, dataset)], and when the qcodes calls succeed that
    pair is [(t1 - t0, datasaver.dataset)]. *)
Theorem save_routines_return_values
  (data : list (datum V)) (filename : string) (w : World V)
  (paramtype : string) (write_period : nat) (s : W) :
  (forall v w', save_to_hdf5 (O := O) data filename w = (Return v, w') -> v = PyNone) /\
  (forall v w', save_to_npy (O := O) data filename w = (Return v, w') -> v = PyNone) /\
  (filename ∉ open_files w -> Forall well_formed data ->
   fst (save_to_hdf5 (O := O) data filename w) = Return PyNone) /\
  (Forall well_formed data ->
   fst (save_to_npy (O := O) data filename w) = Return PyNone) /\
  (forall v s',
     save_to_sqlite W DataSaver now meas_run meas_run_exit add_result
       datasaver_dataset data paramtype write_period s = (Return v, s') ->
     exists (saving_time : V) (dataset : O),
       v = PyTuple [PyNum saving_time; PyObj dataset]) /\
  (forall datasaver s1 s2 s3,
     meas_run paramtype write_period s = (Return datasaver, s1) ->
     for_each data (add_result datasaver) (snd (now perf_counter s1)) = (Return tt, s2) ->
     meas_run_exit datasaver s2 = (Return tt, s3) ->
     fst (save_to_sqlite W DataSaver now meas_run meas_run_exit add_result
            datasaver_dataset data paramtype write_period s)
     = Return (PyTuple [PyNum (num_sub (fst (now perf_counter s3)) (fst (now perf_counter s1)));
                        PyObj (datasaver_dataset datasaver)])).
Proof.
  repeat split.
  - intros v w'. unfold save_to_hdf5, Py.bind, ret.
    destruct (with_ctx _ _ _ w) as [[[]|e|] w1]; try discriminate.
    intros Heq. now injection Heq as <- _.
  - intros v w'. unfold save_to_npy, Py.bind, ret.
    destruct (npy_body data filename w) as [[a|e|] w1]; try discriminate.
    destruct (release a w1) as [[[]|e|] w2]; try discriminate.
    intros Heq. now injection Heq as <- _.
  - intros Hclosed Hwf. now rewrite (save_to_hdf5_stores data filename w Hclosed Hwf).
  - intros Hwf. now rewrite (save_to_npy_returns data filename w Hwf).
  - intros v s'. apply save_to_sqlite_pair.
  - intros datasaver s1 s2 s3 Hrun Hloop Hexit.
    now rewrite (save_to_sqlite_returns data paramtype write_period datasaver
                   s s1 s2 s3 Hrun Hloop Hexit).
Qed.

End ReturnFacts.

Import Samples.

(** The three save routines on the two sample items. *)
Lemma save_routines_return_values_witness :
  fst (save_to_hdf5 (O := string) two_items "out" empty_world) = Return PyNone /\
  fst (save_to_npy (O := string) two_items "out" empty_world) = Return PyNone /\
  fst (save_to_sqlite Z unit sample_clocks quick_run quick_run_exit quick_add_result
         the_dataset two_items "numeric" 10 0%Z)
  = Return (PyTuple [PyNum 12%Z; PyObj "dataset"]).
Proof.
  destruct (save_routines_return_values Z unit sample_clocks quick_run quick_run_exit
              quick_add_result the_dataset two_items "out" empty_world "numeric" 10 0%Z)
    as (_ & _ & Hh5 & Hnpy & _ & Hsql).
  assert (Hwf : Forall WriterFacts.well_formed two_items) by (repeat constructor).
  split; [apply Hh5; [vm_compute; discriminate|exact Hwf]|].
  split; [apply Hnpy; exact Hwf|].
  apply (Hsql tt 10%Z 12%Z 22%Z); reflexivity.
Defined.

End ReturnFacts.

(** ** How the benchmark routines take their times *)

Module PatternFacts.
Import Producer Storage Writers Sqlite Bench PyFacts.

(** What a run does to its surroundings, in the order in which it does
    it: a clock is read and gives [t], or an operation of an instrument
    or of a library is carried out. *)
Inductive event (V : Type) : Type :=
| Reading (c : clock) (t : V)
| Operation (name what : string).
Arguments Reading {V} c t.
Arguments Operation {V} name what.

Section Journal.
Context {V : Type}.
Variable X : Type.

(** The clocks and an operation of the world [X], in a world that keeps
    a journal beside [X]: they do what they do, and note it. *)
Definition noted_clocks (now : clock -> X -> V * X) (c : clock) (x : X * list (event V))
  : V * (X * list (event V)) :=
  (fst (now c (fst x)),
   (snd (now c (fst x)), snd x ++ [Reading c (fst (now c (fst x)))])).

Definition noted {A : Type} (name what : string) (op : M X A) : M (X * list (event V)) A :=
  fun x => (fst (op (fst x)), (snd (op (fst x)), snd x ++ [Operation name what])).

End Journal.

(** *** The instrument notebooks *)

Section LabJournal.
Context {V : Type} `{Num V}.
Variable D : Type.
Variable now : clock -> D -> V * D.
Variable driver_call : string -> string -> M D V.
Variable loop_run : string -> M D unit.
Variable np_mean : list V -> V.
Variable np_std : list V -> V.

(** The laboratory with a journal. *)
Definition lab_clocks : clock -> D * list (event V) -> V * (D * list (event V)) :=
  noted_clocks D now.
Definition lab_call (name method : string) : M (D * list (event V)) V :=
  noted D name method (driver_call name method).
Definition lab_loop (description : string) : M (D * list (event V)) unit :=
  noted D description "run()" (loop_run description).
















(** The journal is only kept: a run with the journal dropped is the run
    in the laboratory without one. *)
Definition plain (s : Lab (D * list (event V)) V) : Lab D V :=
  MkLab (fst (dev s)) (connected s) (printed s).

Definition with_journal {A : Type}
  (c : M (Lab D V) A) (c' : M (Lab (D * list (event V)) V) A) : Prop :=
  forall s, fst (c' s) = fst (c (plain s)) /\ plain (snd (c' s)) = snd (c (plain s)).

Lemma with_journal_ret {A : Type} (a : A) : with_journal (ret a) (ret a).
Proof. intros s. split; reflexivity. Qed.

Lemma with_journal_bind {A B : Type} (c : M (Lab D V) A) c' (k : A -> M (Lab D V) B) k' :
  with_journal c c' -> (forall a, with_journal (k a) (k' a)) ->
  with_journal (Py.bind c k) (Py.bind c' k').
Proof.
  intros Hc Hk s. unfold Py.bind. destruct (Hc s) as [Ho Hs].
  destruct (c' s) as [o' s1'], (c (plain s)) as [o s1]. cbn [fst snd] in *. subst o s1.
  destruct o' as [a|e|]; [apply Hk|split; reflexivity|split; reflexivity].
Qed.

Lemma with_journal_for_each {A : Type} (xs : list A) (body : A -> M (Lab D V) unit) body' :
  (forall x, with_journal (body x) (body' x)) ->
  with_journal (for_each xs body) (for_each xs body').
Proof.
  intros Hb. induction xs as [|x xs IH]; cbn [for_each]; [apply with_journal_ret|].
  apply with_journal_bind; auto.
Qed.

Lemma with_journal_for_fold {A B : Type} (xs : list A) (body : B -> A -> M (Lab D V) B)
  body' (acc : B) :
  (forall b x, with_journal (body b x) (body' b x)) ->
  with_journal (for_fold xs body acc) (for_fold xs body' acc).
Proof.
  intros Hb. revert acc. induction xs as [|x xs IH]; intros acc; cbn [for_fold];
    [apply with_journal_ret|].
  apply with_journal_bind; auto.
Qed.

Lemma with_journal_read_clock (c : clock) :
  with_journal (Bench.read_clock D now c) (Bench.read_clock (D * list (event V)) lab_clocks c).
Proof. intros s. split; reflexivity. Qed.

Lemma with_journal_print (l : line V) :
  with_journal (print D l) (print (D * list (event V)) l).
Proof. intros s. split; reflexivity. Qed.

Lemma with_journal_call (name method : string) :
  with_journal (call D driver_call name method)
    (call (D * list (event V)) lab_call name method).
Proof.
  intros s. unfold call, plain. cbn [connected].
  destruct (decide (name ∈ connected s)) as [Hopen|Hclosed]; [|split; reflexivity].
  unfold Py.bind, lift, lab_call, noted, ret. cbn [dev fst snd].
  destruct (driver_call name method (fst (dev s))) as [[v|e|] d1]; split; reflexivity.
Qed.

Lemma with_journal_loop (description : string) :
  with_journal (lift D (loop_run description))
    (lift (D * list (event V)) (lab_loop description)).
Proof.
  intros s. unfold lift, lab_loop, noted, plain. cbn [dev fst snd].
  destruct (loop_run description (fst (dev s))) as [o d1]. split; reflexivity.
Qed.

Ltac with_journal :=
  repeat first
    [ apply with_journal_read_clock | apply with_journal_print | apply with_journal_call
    | apply with_journal_loop | apply with_journal_ret
    | apply with_journal_for_each; intros ?
    | apply with_journal_for_fold; intros ? ?
    | apply with_journal_bind; [|intros ?] ].

Lemma with_journal_read_values (dmm : string) (N : nat) :
  with_journal (read_values D now driver_call dmm N)
    (read_values (D * list (event V)) lab_clocks lab_call dmm N).
Proof. unfold read_values. with_journal. Qed.

Lemma with_journal_sweep (description : string) (points : list nat) (pair : string) :
  with_journal (sweep D now loop_run description points pair)
    (sweep (D * list (event V)) lab_clocks lab_loop description points pair).
Proof. unfold sweep. with_journal. Qed.

Lemma with_journal_benchmark_seqx (no_of_reps : nat) :
  with_journal (benchmark_seqx D now driver_call no_of_reps)
    (benchmark_seqx (D * list (event V)) lab_clocks lab_call no_of_reps).
Proof. unfold benchmark_seqx, upload_seqx. with_journal. Qed.

Lemma with_journal_cell_benchmark :
  with_journal (cell_benchmark D now driver_call np_mean np_std)
    (cell_benchmark (D * list (event V)) lab_clocks lab_call np_mean np_std).
Proof.
  unfold cell_benchmark. apply with_journal_bind; [apply with_journal_benchmark_seqx|].
  intros times. with_journal.
Qed.

End LabJournal.

(** *** [save_to_sqlite] *)

Section SqliteJournal.
Context {V O : Type} `{Num V}.
Variable W : Type.
Variable DataSaver : Type.
Variable now : clock -> W -> V * W.
Variable meas_run : string -> nat -> M W DataSaver.
Variable meas_run_exit : DataSaver -> M W unit.
Variable add_result : DataSaver -> datum V -> M W unit.
Variable datasaver_dataset : DataSaver -> O.

(** qcodes and the clocks, with a journal. *)
Definition db_clocks : clock -> W * list (event V) -> V * (W * list (event V)) :=
  noted_clocks W now.
Definition db_run (paramtype : string) (write_period : nat)
  : M (W * list (event V)) DataSaver :=
  noted W "meas" "run().__enter__()" (meas_run paramtype write_period).
Definition db_exit (datasaver : DataSaver) : M (W * list (event V)) unit :=
  noted W "meas" "run().__exit__()" (meas_run_exit datasaver).
Definition db_add (datasaver : DataSaver) (d : datum V) : M (W * list (event V)) unit :=
  noted W "datasaver" "add_result()" (add_result datasaver d).



(** Here too the journal is only kept. *)
Lemma save_to_sqlite_with_journal (data : list (datum V)) (paramtype : string)
  (write_period : nat) (x : W * list (event V)) :
  let run := save_to_sqlite W DataSaver now meas_run meas_run_exit add_result
               datasaver_dataset data paramtype write_period (fst x) in
  let run' := save_to_sqlite (W * list (event V)) DataSaver db_clocks db_run db_exit
                db_add datasaver_dataset data paramtype write_period x in
  fst run' = fst run /\ fst (snd run') = snd run.
Proof.
  assert (Hloop : forall datasaver (y : W * list (event V)),
            fst (for_each data (db_add datasaver) y)
              = fst (for_each data (add_result datasaver) (fst y)) /\
            fst (snd (for_each data (db_add datasaver) y))
              = snd (for_each data (add_result datasaver) (fst y))).
  { intros datasaver. induction data as [|d data' IH]; intros y; cbn [for_each].
    - split; reflexivity.
    - unfold Py.bind, db_add at 1 3, noted. cbn [fst snd].
      destruct (add_result datasaver d (fst y)) as [[[]|e|] w1]; cbn [fst snd];
        [apply IH|split; reflexivity|split; reflexivity]. }
  cbv zeta.
  unfold save_to_sqlite, with_ctx, try_finally, Py.bind, Sqlite.read_clock, ret,
    db_clocks, noted_clocks, db_run, db_exit, noted. cbn [fst snd].
  destruct (meas_run paramtype write_period (fst x)) as [[datasaver|e|] w1]; cbn [fst snd];
    [|split; reflexivity|split; reflexivity].
  match goal with
  | |- context [for_each data (db_add datasaver) ?y] =>
      destruct (Hloop datasaver y) as [Ho Hw];
      destruct (for_each data (db_add datasaver) y) as [o' y1]
  end.
  cbn [fst snd] in Ho, Hw.
  destruct (for_each data (add_result datasaver) _) as [o w2]. cbn [fst snd] in Ho, Hw.
  subst o w2.
  destruct o' as [[]|e|]; cbn [fst snd].
  - destruct (meas_run_exit datasaver (fst y1)) as [[[]|e|] w3]; split; reflexivity.
  - destruct (meas_run_exit datasaver (fst y1)) as [[[]|e'|] w3]; split; reflexivity.
  - split; reflexivity.
Qed.

End SqliteJournal.

Section Pattern.
Context {V O : Type} `{Num V}.
Variable D : Type.
Variable now : clock -> D -> V * D.
Variable driver_call : string -> string -> M D V.
Variable loop_run : string -> M D unit.
Variable np_mean : list V -> V.
Variable np_std : list V -> V.
Variable W : Type.
Variable DataSaver : Type.
Variable db_now : clock -> W -> V * W.
Variable meas_run : string -> nat -> M W DataSaver.
Variable meas_run_exit : DataSaver -> M W unit.
Variable add_result : DataSaver -> datum V -> M W unit.
Variable datasaver_dataset : DataSaver -> O.


End Pattern.

Import Samples.





End PatternFacts.

(** ** Connections and handles *)

Module HandleFacts.
Import Producer Storage Writers Bench PyFacts WriterFacts.

Section HandleFacts.
Context {V : Type} `{Num V}.
Variable D : Type.
Variable now : clock -> D -> V * D.
Variable driver_connect : string -> string -> M D unit.
Variable driver_call : string -> string -> M D V.
Variable driver_close : string -> M D unit.
Variable loop_run : string -> M D unit.

(** A statement that opens and closes no connection. *)
Definition keeps_connections {A : Type} (c : M (Lab D V) A) : Prop :=
  forall s, connected (snd (c s)) = connected s.

Lemma keeps_ret {A : Type} (a : A) : keeps_connections (ret a).
Proof. intros s. reflexivity. Qed.

Lemma keeps_bind {A B : Type} (c : M (Lab D V) A) (k : A -> M (Lab D V) B) :
  keeps_connections c -> (forall a, keeps_connections (k a)) ->
  keeps_connections (Py.bind c k).
Proof.
  intros Hc Hk s. unfold Py.bind. specialize (Hc s).
  destruct (c s) as [[a|e|] s1]; simpl in *; [|assumption|assumption].
  rewrite (Hk a s1). exact Hc.
Qed.

Lemma keeps_for_each {A : Type} (xs : list A) (body : A -> M (Lab D V) unit) :
  (forall x, keeps_connections (body x)) -> keeps_connections (for_each xs body).
Proof.
  intros Hb. induction xs as [|x xs IH]; simpl; [apply keeps_ret|].
  apply keeps_bind; auto.
Qed.

Lemma keeps_lift {A : Type} (c : M D A) : keeps_connections (lift D c).
Proof. intros s. unfold lift. destruct (c (dev s)) as [o d]. reflexivity. Qed.

Lemma keeps_read_clock (c : clock) : keeps_connections (Bench.read_clock D now c).
Proof. apply keeps_lift. Qed.

Lemma keeps_print (l : line V) : keeps_connections (print D l).
Proof. intros s. reflexivity. Qed.

Lemma keeps_call (name method : string) : keeps_connections (call D driver_call name method).
Proof.
  intros s. unfold call. destruct (decide (name ∈ connected s)); [|reflexivity].
  apply (keeps_bind _ _ (keeps_lift _) (fun _ => keeps_ret tt)).
Qed.

Lemma keeps_read_values (dmm : string) (N : nat) :
  keeps_connections (read_values D now driver_call dmm N).
Proof.
  unfold read_values.
  apply keeps_bind; [apply keeps_read_clock|intros t0].
  apply keeps_bind; [apply keeps_for_each; intros _; apply keeps_call|intros _].
  apply keeps_bind; [apply keeps_read_clock|intros t1]. apply keeps_print.
Qed.

Lemma keeps_sweep (description : string) (points : list nat) (pair : string) :
  keeps_connections (sweep D now loop_run description points pair).
Proof.
  unfold sweep.
  apply keeps_bind; [apply keeps_read_clock|intros t0].
  apply keeps_bind; [apply keeps_lift|intros _].
  apply keeps_bind; [apply keeps_read_clock|intros t1]. apply keeps_print.
Qed.

(** Compose the lemmas above along the statements of a cell. *)
Ltac keeps :=
  repeat first
    [ apply keeps_call | apply keeps_print | apply keeps_read_values | apply keeps_sweep
    | apply keeps_ret
    | apply keeps_for_each; intros ?
    | apply keeps_bind; [|intros ?] ].

Lemma keeps_cell_setup : keeps_connections (cell_setup D driver_call).
Proof. unfold cell_setup. keeps. Qed.

Lemma keeps_cell_raw_displays_on :
  keeps_connections (cell_raw_displays_on D now driver_call).
Proof. unfold cell_raw_displays_on. keeps. Qed.

Lemma keeps_cell_raw_displays_off :
  keeps_connections (cell_raw_displays_off D now driver_call).
Proof. unfold cell_raw_displays_off. keeps. Qed.

Lemma keeps_cell_sweep_1d : keeps_connections (cell_sweep_1d D now driver_call loop_run).
Proof. unfold cell_sweep_1d. keeps. Qed.

Lemma keeps_cell_sweep_2d : keeps_connections (cell_sweep_2d D now driver_call loop_run).
Proof. unfold cell_sweep_2d. keeps. Qed.

Lemma new_instrument_returned (name address : string) (s s' : Lab D V) :
  new_instrument D driver_connect name address s = (Return tt, s') ->
  connected s' = {[name]} ∪ connected s.
Proof.
  unfold new_instrument. intros Hrun.
  apply bind_returns in Hrun as ([] & s1 & Hlift & Hmod).
  pose proof (keeps_lift (driver_connect name address) s) as Hk. rewrite Hlift in Hk.
  unfold modify in Hmod. injection Hmod as <-. simpl in *. now rewrite Hk.
Qed.

Lemma close_returned (name : string) (s s' : Lab D V) :
  close D driver_close name s = (Return tt, s') ->
  connected s' = connected s ∖ {[name]}.
Proof.
  unfold close. intros Hrun.
  apply bind_returns in Hrun as ([] & s1 & Hlift & Hmod).
  pose proof (keeps_lift (driver_close name) s) as Hk. rewrite Hlift in Hk.
  unfold modify in Hmod. injection Hmod as <-. simpl in *. now rewrite Hk.
Qed.

Lemma cell_connect_returned (s s' : Lab D V) :
  cell_connect D driver_connect s = (Return tt, s') ->
  connected s' = {["qdac"]} ∪ ({["Agilent"]} ∪ ({["Keysight"]} ∪ connected s)).
Proof.
  unfold cell_connect. intros Hrun.
  apply bind_returns in Hrun as ([] & s1 & H1 & Hrun).
  apply bind_returns in Hrun as ([] & s2 & H2 & H3).
  apply new_instrument_returned in H1, H2, H3. now rewrite H3, H2, H1.
Qed.

Lemma cell_close_returned (s s' : Lab D V) :
  cell_close D driver_close s = (Return tt, s') ->
  connected s' = ((connected s ∖ {["Keysight"]}) ∖ {["Agilent"]}) ∖ {["qdac"]}.
Proof.
  unfold cell_close. intros Hrun.
  apply bind_returns in Hrun as ([] & s1 & H1 & Hrun).
  apply bind_returns in Hrun as ([] & s2 & H2 & H3).
  apply close_returned in H1, H2, H3. now rewrite H3, H2, H1.
Qed.

(** The three instruments of the DMM notebook. *)
Definition three_instruments : gset string :=
  {["qdac"]} ∪ ({["Agilent"]} ∪ ({["Keysight"]} ∪ ∅)).

Lemma three_closed :
  ((three_instruments ∖ {["Keysight"]}) ∖ {["Agilent"]}) ∖ {["qdac"]} = ∅.
Proof.
  apply set_eq. intros x. unfold three_instruments.
  rewrite !elem_of_difference, !elem_of_union, !elem_of_singleton, elem_of_empty. tauto.
Qed.

(** A run of the DMM notebook that starts with no connection and gets to
    its end: the first cell opens the three connections, they stay open
    up to the last cell, and the last cell closes them. *)
Lemma dmm_notebook_returned (s s' : Lab D V) :
  connected s = ∅ ->
  dmm_notebook D now driver_connect driver_call driver_close loop_run s
    = (Return tt, s') ->
  exists s1 s6,
    cell_connect D driver_connect s = (Return tt, s1) /\
    connected s1 = three_instruments /\
    connected s6 = three_instruments /\
    cell_close D driver_close s6 = (Return tt, s') /\
    connected s' = ∅.
Proof.
  unfold dmm_notebook. intros Hnone Hrun.
  apply bind_returns in Hrun as ([] & s1 & H1 & Hrun).
  apply bind_returns in Hrun as ([] & s2 & H2 & Hrun).
  apply bind_returns in Hrun as ([] & s3 & H3 & Hrun).
  apply bind_returns in Hrun as ([] & s4 & H4 & Hrun).
  apply bind_returns in Hrun as ([] & s5 & H5 & Hrun).
  apply bind_returns in Hrun as ([] & s6 & H6 & H7).
  exists s1, s6.
  pose proof (cell_connect_returned _ _ H1) as C1.
  pose proof (cell_close_returned _ _ H7) as C7.
  pose proof (keeps_cell_setup s1) as K2. rewrite H2 in K2.
  pose proof (keeps_cell_raw_displays_on s2) as K3. rewrite H3 in K3.
  pose proof (keeps_cell_raw_displays_off s3) as K4. rewrite H4 in K4.
  pose proof (keeps_cell_sweep_1d s4) as K5. rewrite H5 in K5.
  pose proof (keeps_cell_sweep_2d s5) as K6. rewrite H6 in K6.
  simpl in *. rewrite Hnone in C1.
  assert (C6 : connected s6 = three_instruments) by (rewrite K6, K5, K4, K3, K2; exact C1).
  repeat split; auto.
  rewrite C7, C6. apply three_closed.
Qed.

(** C7.  The handles and connections that the benchmark code opens are
    closed again.  [save_to_hdf5], on a file that is not open yet, leaves
    the set of open files as it found it on every path (it returns or
    raises, and its [with] block closes the file either way);
    [save_to_npy] leaves it as it found it too (the memory map is released
    as soon as [npy_mm] is rebound to the copy); a run of the DMM
    notebook that starts with no connection and reaches its end has
    opened the three connections in its first cell, kept them up to its
    last cell and closed all three there. *)
Theorem handles_and_connections_closed
  {O : Type} (data : list (datum V)) (filename : string) (w : World V) (s s' : Lab D V) :
  (filename ∉ open_files w ->
   open_files (snd (save_to_hdf5 (O := O) data filename w)) = open_files w /\
   fst (save_to_hdf5 (O := O) data filename w) <> Unfinished) /\
  (filename ∉ open_files w ->
   open_files (snd (save_to_npy (O := O) data filename w)) = open_files w /\
   fst (save_to_npy (O := O) data filename w) <> Unfinished) /\
  (connected s = ∅ ->
   dmm_notebook D now driver_connect driver_call driver_close loop_run s
     = (Return tt, s') ->
   exists s1 s6,
     cell_connect D driver_connect s = (Return tt, s1) /\
     connected s1 = three_instruments /\
     connected s6 = three_instruments /\
     cell_close D driver_close s6 = (Return tt, s') /\
     connected s' = ∅).
Proof.
  split; [|split].
  - intros Hclosed. now apply save_to_hdf5_closes.
  - intros Hclosed. destruct (save_to_npy_world (O := O) data filename w) as [-> Hu].
    split; [|exact Hu]. unfold npy_left. simpl. now apply reopen_closed.
  - apply dmm_notebook_returned.
Qed.

End HandleFacts.

Import Samples.

(** The two writers on the two sample items and a file that is not
    open, and the DMM notebook in a laboratory where every call succeeds. *)
Lemma handles_and_connections_closed_witness :
  open_files (snd (save_to_hdf5 (O := unit) two_items "out" empty_world)) = ∅ /\
  open_files (snd (save_to_npy (O := unit) two_items "out" empty_world)) = ∅ /\
  connected (snd (dmm_notebook Z sample_clocks quick_connect quick_call quick_close
                    quick_loop fresh_lab)) = ∅.
Proof.
  destruct (dmm_notebook Z sample_clocks quick_connect quick_call quick_close quick_loop
              fresh_lab) as [o s'] eqn:Hrun.
  assert (Ho : o = Return tt).
  { apply (f_equal fst) in Hrun. vm_compute in Hrun. now subst o. }
  subst o.
  destruct (handles_and_connections_closed Z sample_clocks quick_connect quick_call
              quick_close quick_loop (O := unit) two_items "out" empty_world fresh_lab s')
    as (Hh5 & Hnpy & Hdmm).
  assert (Hclosed : "out" ∉ open_files empty_world) by (vm_compute; discriminate).
  split; [exact (proj1 (Hh5 Hclosed))|].
  split; [exact (proj1 (Hnpy Hclosed))|].
  destruct (Hdmm eq_refl Hrun) as (s1 & s6 & _ & _ & _ & _ & Hend). exact Hend.
Defined.

End HandleFacts.

(* ===================================================================== *)
(** * Part III: further properties of the code *)
(* ===================================================================== *)

(** ** [time_it]: degenerate arguments, unusable return values, results *)

Module TimeItEdges.
Import TimeIt PyFacts TimeItFacts.

Section EdgeLemmas.
Context {V O : Type} `{Num V}.
Variable W : Type.
Variable print_exc : exn -> W -> W.
Variable print_result : TimeitResult V -> W -> W.
Variable default_timer : M W V.
Variable reaches_min_time : V -> bool.

(** Runs of no execution, for a [number] that is zero or negative:
    nothing is called, every total is the initial 0. *)
Lemma repeat_loop_of_empty_runs (sut : M W (pyval V O)) (number : Z) (ixs : list nat)
  (r : list V) (w : W) :
  (number <= 0)%Z ->
  for_fold ixs
    (fun r _ => t <- timer_timeit W default_timer sut number;; ret (r ++ [t])) r w
  = (Return (r ++ replicate (length ixs) num_zero), w).
Proof.
  intros Hnumber. revert r. induction ixs as [|i ixs IH]; intros r; simpl.
  - now rewrite app_nil_r.
  - unfold Py.bind at 1 2. unfold timer_timeit at 1, inner at 1, itertools_repeat at 1.
    rewrite Z2Nat.nonpos by exact Hnumber. simpl.
    rewrite IH. now rewrite <- app_assoc.
Qed.

(** The exception that [inner] meets on a return value that reports no
    number: indexing an empty tuple, or adding a non-number to
    [total_time]. *)
Definition complaint (returned_vals : pyval V O) : exn :=
  match returned_vals with
  | PyTuple [] => IndexError
  | _ => TypeError
  end.

Lemma timer_timeit_unreported (sut : M W (pyval V O)) (number : Z) (w w1 : W)
  (r : pyval V O) :
  (0 < number)%Z ->
  sut w = (Return r, w1) ->
  reported r = None ->
  timer_timeit W default_timer sut number w = (Raise (complaint r), w1).
Proof.
  intros Hnumber Hs Hr. unfold timer_timeit, inner, itertools_repeat.
  destruct (Z.to_nat number) as [|n] eqn:Hn; [lia|]. simpl.
  rewrite bind_assoc, (bind_return _ _ _ _ _ Hs).
  destruct r as [|v|[|[|v'|items'|o'] items]|o]; simpl in Hr; try discriminate; reflexivity.
Qed.

Lemma profile_unreported
  (number : option Z) (repeat : nat) (sut : M W (pyval V O)) (fuel : nat)
  (w w1 : W) (r : pyval V O) :
  sut w = (Return r, w1) ->
  reported r = None ->
  (forall n, number = Some n -> (0 < n)%Z) -> 0 < repeat -> 0 < fuel ->
  profile W default_timer reaches_min_time number repeat sut fuel w
  = (Raise (complaint r), w1).
Proof.
  intros Hs Hr Hnumber Hrepeat Hfuel. unfold profile.
  destruct number as [n|].
  - unfold Py.bind at 1. unfold ret at 1.
    destruct repeat as [|repeat']; [lia|].
    unfold timer_repeat. cbn [seq for_fold].
    rewrite !bind_assoc.
    now rewrite (bind_raise_now _ _ _ _ _
                   (timer_timeit_unreported sut n w w1 r (Hnumber n eq_refl) Hs Hr)).
  - destruct fuel as [|fuel']; [lia|].
    unfold timer_autorange. cbn [autorange_while autorange_for].
    rewrite !bind_assoc.
    now rewrite (bind_raise_now _ _ _ _ _
                   (timer_timeit_unreported sut (1 * 1)%Z w w1 r eq_refl Hs Hr)).
Qed.

End EdgeLemmas.

Section TimeItEdges.
Context {V O : Type} `{Num V}.
Variable W : Type.
Variable print_exc : exn -> W -> W.
Variable print_result : TimeitResult V -> W -> W.
Variable default_timer : M W V.
Variable reaches_min_time : V -> bool.

(** X1.  Degenerate arguments of [time_it].  With [repeat=0] (and a given
    [number]) the wrapper raises [ValueError], from [min] of the empty
    list of runs; with [number=0] and a positive [repeat] it raises
    [ZeroDivisionError], from the division by [number_].  In both cases
    the profiled function is never called and nothing is printed: the
    world is as before, since both errors arise after the [try]
    statement. *)
Theorem time_it_degenerate_arguments
  (number : Z) (repeat : nat) (sut : M W (pyval V O)) (fuel : nat) (w : W) :
  time_it W print_exc print_result default_timer reaches_min_time
    (Some number) 0 sut fuel w = (Raise ValueError, w) /\
  (0 < repeat ->
   time_it W print_exc print_result default_timer reaches_min_time
     (Some 0%Z) repeat sut fuel w = (Raise ZeroDivisionError, w)).
Proof.
  split; [reflexivity|].
  intros Hrepeat. rewrite wrapper_paths. unfold profile.
  unfold Py.bind at 1. unfold ret at 1. unfold timer_repeat.
  unfold Py.bind at 1. rewrite repeat_loop_of_empty_runs by lia. unfold ret at 1.
  rewrite length_seq. destruct repeat as [|repeat']; [lia|]. reflexivity.
Qed.

Lemma time_it_unreported
  (number : option Z) (repeat : nat) (sut : M W (pyval V O)) (fuel : nat)
  (w w1 : W) (r : pyval V O) :
  sut w = (Return r, w1) ->
  reported r = None ->
  (forall n, number = Some n -> (0 < n)%Z) -> 0 < repeat -> 0 < fuel ->
  time_it W print_exc print_result default_timer reaches_min_time
    number repeat sut fuel w
  = (Raise (complaint r), print_exc (complaint r) w1).
Proof.
  intros Hs Hr Hnumber Hrepeat Hfuel. rewrite wrapper_paths.
  now rewrite (profile_unreported W default_timer reaches_min_time
                 number repeat sut fuel w w1 r Hs Hr Hnumber Hrepeat Hfuel).
Qed.

(** X2.  A profiled function whose return value reports no number
    ([None], an empty tuple, a tuple whose first element is not a number,
    any other object) cannot be timed: with [number=None] or a positive
    [number], after its first call the wrapper prints the traceback and
    raises [IndexError] for the empty tuple and [TypeError] otherwise; the
    function is not called again. *)
Theorem time_it_needs_a_reported_duration
  (number : option Z) (repeat : nat) (sut : M W (pyval V O)) (fuel : nat)
  (w w1 : W) (r : pyval V O) :
  sut w = (Return r, w1) ->
  reported r = None ->
  (forall n, number = Some n -> (0 < n)%Z) -> 0 < repeat -> 0 < fuel ->
  time_it W print_exc print_result default_timer reaches_min_time
    number repeat sut fuel w
  = (Raise (complaint r), print_exc (complaint r) w1) /\
  calls_of W print_exc print_result default_timer reaches_min_time
    number repeat sut fuel w = [(Return r, w1)].
Proof.
  intros Hs Hr Hnumber Hrepeat Hfuel.
  split; [now apply time_it_unreported|].
  unfold calls_of. rewrite wrapper_paths.
  assert (Hlogged : logged W sut (w, []) = (Return r, (w1, [(Return r, w1)]))).
  { unfold logged. simpl. now rewrite Hs. }
  rewrite (profile_unreported (W * call_log W) (beside W default_timer) reaches_min_time
             number repeat (logged W sut) fuel (w, []) (w1, [(Return r, w1)]) r
             Hlogged Hr Hnumber Hrepeat Hfuel).
  reflexivity.
Qed.

End TimeItEdges.

Section Results.
Context {V O : Type} `{Num V}.
Variable W : Type.
Variable print_exc : exn -> W -> W.
Variable print_result : TimeitResult V -> W -> W.
Variable default_timer : M W V.
Variable reaches_min_time : V -> bool.

Lemma repeat_loop_length (sut : M W (pyval V O)) (number : Z) (ixs : list nat) :
  forall (r runs : list V) (w w' : W),
  for_fold ixs
    (fun r _ => t <- timer_timeit W default_timer sut number;; ret (r ++ [t])) r w
  = (Return runs, w') ->
  length runs = length r + length ixs.
Proof.
  induction ixs as [|i ixs IH]; intros r runs w w'; simpl.
  - intros Heq. injection Heq as <- _. lia.
  - rewrite bind_assoc. unfold Py.bind at 1.
    destruct (timer_timeit W default_timer sut number w) as [[t|e|] w1]; try discriminate.
    unfold Py.bind at 1. unfold ret at 1. intros Heq.
    apply IH in Heq. rewrite length_app in Heq. simpl in Heq. lia.
Qed.

Lemma timer_repeat_length (sut : M W (pyval V O)) (repeat : nat) (number : Z)
  (runs : list V) (w w' : W) :
  timer_repeat W default_timer sut repeat number w = (Return runs, w') ->
  length runs = repeat.
Proof.
  unfold timer_repeat. intros Heq. apply repeat_loop_length in Heq.
  now rewrite length_seq in Heq.
Qed.

Lemma smallest_in (x : V) (xs : list V) : In (smallest x xs) (x :: xs).
Proof.
  unfold smallest. revert x. induction xs as [|y xs IH]; intros x; simpl; [now left|].
  destruct (num_lt y x).
  - right. apply IH.
  - destruct (IH x) as [Hx|Hx]; [left; exact Hx|right; right; exact Hx].
Qed.

Lemma largest_in (x : V) (xs : list V) : In (largest x xs) (x :: xs).
Proof.
  unfold largest. revert x. induction xs as [|y xs IH]; intros x; simpl; [now left|].
  destruct (num_lt x y).
  - right. apply IH.
  - destruct (IH x) as [Hx|Hx]; [left; exact Hx|right; right; exact Hx].
Qed.

Lemma autorange_for_found (sut : M W (pyval V O)) (i : Z) (js : list Z)
  (number : Z) (t : V) (w w' : W) :
  autorange_for W default_timer reaches_min_time sut i js w = (Return (Some (number, t)), w') ->
  exists j, In j js /\ number = (i * j)%Z /\ reaches_min_time t = true.
Proof.
  revert w. induction js as [|j js IH]; intros w; cbn [autorange_for]; [discriminate|].
  unfold Py.bind at 1.
  destruct (timer_timeit W default_timer sut (i * j)%Z w) as [[t0|e|] w1]; try discriminate.
  destruct (reaches_min_time t0) eqn:Hreach.
  - intros Heq. injection Heq as <- <- _. exists j. split; [now left|auto].
  - intros Heq. destruct (IH _ Heq) as (j' & Hin & Hn & Ht). exists j'.
    split; [now right|auto].
Qed.

Lemma autorange_while_found (sut : M W (pyval V O)) (fuel : nat) :
  forall (i number : Z) (t : V) (w w' : W),
  autorange_while W default_timer reaches_min_time sut fuel i w = (Return (number, t), w') ->
  exists (k : nat) (j : Z),
    k < fuel /\ In j [1; 2; 5]%Z /\ number = (i * 10 ^ Z.of_nat k * j)%Z /\
    reaches_min_time t = true.
Proof.
  induction fuel as [|fuel IH]; intros i number t w w'; cbn [autorange_while];
    [discriminate|].
  unfold Py.bind at 1.
  destruct (autorange_for W default_timer reaches_min_time sut i [1; 2; 5]%Z w)
    as [[[[n0 t0]|]|e|] w1] eqn:Hfor; try discriminate.
  - intros Heq. injection Heq as <- <- _.
    destruct (autorange_for_found _ _ _ _ _ _ _ Hfor) as (j & Hin & Hn & Ht).
    exists 0, j. split; [lia|]. split; [exact Hin|]. split; [|exact Ht].
    rewrite Hn. change (Z.of_nat 0) with 0%Z. rewrite Z.pow_0_r. lia.
  - intros Heq. destruct (IH _ _ _ _ _ Heq) as (k & j & Hk & Hin & Hn & Ht).
    exists (S k), j. split; [lia|]. split; [exact Hin|]. split; [|exact Ht].
    rewrite Hn, Nat2Z.inj_succ, Z.pow_succ_r by lia. lia.
Qed.

(** With a negative [number] every run totals the initial 0. *)
Lemma timer_repeat_of_empty_runs (sut : M W (pyval V O)) (repeat : nat) (number : Z) (w : W) :
  (number <= 0)%Z ->
  timer_repeat W default_timer sut repeat number w = (Return (replicate repeat num_zero), w).
Proof.
  intros Hnumber. unfold timer_repeat.
  rewrite (repeat_loop_of_empty_runs W default_timer sut number _ [] w Hnumber).
  now rewrite length_seq.
Qed.

(** X3.  Every [TimeitResult] that the wrapper returns is well formed:
    [loops] is not zero, [repeat] is positive, [all_runs] has exactly
    [repeat] entries, [best] and [worst] are each one of these entries
    divided by [loops], and [compile_time] and [precision] are 0 and 3.
    [loops] is the given [number], which may be negative: then no
    execution was timed and every entry of [all_runs] is the initial 0.
    With [number=None], [loops] is 1, 2 or 5 times a power of ten, chosen
    by [autorange].  The result has been printed. *)
Theorem time_it_result_well_formed
  (number : option Z) (repeat : nat) (sut : M W (pyval V O)) (fuel : nat)
  (w w' : W) (r : TimeitResult V) :
  time_it W print_exc print_result default_timer reaches_min_time
    number repeat sut fuel w = (Return r, w') ->
  loops r <> 0%Z /\ 0 < repeat /\ TimeIt.repeat r = repeat /\
  length (all_runs r) = repeat /\
  (exists lo, In lo (all_runs r) /\ best r = num_div lo (loops r)) /\
  (exists hi, In hi (all_runs r) /\ worst r = num_div hi (loops r)) /\
  compile_time r = 0 /\ precision r = 3 /\
  match number with
  | Some n => loops r = n
  | None => exists (k : nat) (j : Z), In j [1; 2; 5]%Z /\ loops r = (10 ^ Z.of_nat k * j)%Z
  end /\
  ((loops r < 0)%Z -> Forall (fun t => t = num_zero) (all_runs r)) /\
  exists w1, w' = print_result r w1.
Proof.
  rewrite wrapper_paths.
  destruct (profile W default_timer reaches_min_time number repeat sut fuel w)
    as [[[number_ runs]|e|] w1] eqn:Hprofile; try discriminate.
  cbn [fst snd]. unfold summarise, truediv.
  destruct runs as [|x xs]; [discriminate|].
  cbn [py_min py_max].
  destruct (number_ =? 0)%Z eqn:Hzero; [discriminate|].
  apply Z.eqb_neq in Hzero.
  cbn. intros Heq. injection Heq as <- <-. cbn.
  assert (Hruns : length (x :: xs) = repeat /\
                  match number with
                  | Some m => number_ = m
                  | None => exists (k : nat) (j : Z),
                              In j [1; 2; 5]%Z /\ number_ = (10 ^ Z.of_nat k * j)%Z
                  end /\
                  ((number_ < 0)%Z -> Forall (fun t => t = num_zero) (x :: xs))).
  { unfold profile in Hprofile. unfold Py.bind at 1 in Hprofile.
    destruct number as [m|].
    - unfold ret at 1 in Hprofile. unfold Py.bind at 1 in Hprofile.
      destruct (timer_repeat W default_timer sut repeat m w) as [[runs|e|] w2] eqn:Hrep;
        try discriminate.
      injection Hprofile as <- <- _. split; [|split; [reflexivity|]].
      + now apply timer_repeat_length in Hrep.
      + intros Hneg. rewrite timer_repeat_of_empty_runs in Hrep by lia.
        injection Hrep as <- _. clear. induction repeat; constructor; auto.
    - unfold Py.bind at 1 in Hprofile. unfold timer_autorange in Hprofile.
      destruct (autorange_while W default_timer reaches_min_time sut fuel 1%Z w)
        as [[[n0 t0]|e|] w2] eqn:Hauto; try discriminate.
      unfold ret at 1 in Hprofile. cbn [fst] in Hprofile.
      unfold Py.bind at 1 in Hprofile.
      destruct (timer_repeat W default_timer sut repeat n0 w2) as [[runs|e|] w3] eqn:Hrep;
        try discriminate.
      injection Hprofile as <- <- _.
      destruct (autorange_while_found _ _ _ _ _ _ _ Hauto) as (k & j & _ & Hin & Hn & _).
      split; [now apply timer_repeat_length in Hrep|]. split.
      + exists k, j. split; [exact Hin|]. rewrite Hn. lia.
      + intros Hneg. exfalso.
        assert (Hpow : (0 < 10 ^ Z.of_nat k)%Z) by (apply Z.pow_pos_nonneg; lia).
        assert (Hj : (0 < j)%Z).
        { destruct Hin as [<-|[<-|[<-|[]]]]; lia. }
        nia. }
  destruct Hruns as (Hlen & Hloops & Hneg).
  repeat split; auto.
  - simpl in Hlen. lia.
  - exists (smallest x xs). split; [apply smallest_in|reflexivity].
  - exists (largest x xs). split; [apply largest_in|reflexivity].
  - eauto.
Qed.

(** The record of calls grows by one with every execution of a run. *)
Lemma logged_execution_length (sut : M W (pyval V O)) (acc t : V) (s s' : W * call_log W) :
  (returned_vals <- logged W sut;;
   x <- first_return_value (W * call_log W) returned_vals;;
   add_to (W * call_log W) acc x) s = (Return t, s') ->
  length (snd s') = S (length (snd s)).
Proof.
  unfold Py.bind, logged. destruct (sut (fst s)) as [[r|e|] w1]; try discriminate.
  destruct r as [|v|[|[|v'|items'|o'] items]|o]; simpl; try discriminate;
    intros Heq; injection Heq as _ <-; cbn [snd]; rewrite length_app; simpl; lia.
Qed.

Lemma logged_inner_length (sut : M W (pyval V O)) (it : list unit) :
  forall (acc t : V) (s s' : W * call_log W),
  for_fold it
    (fun total_time _ =>
       returned_vals <- logged W sut;;
       x <- first_return_value (W * call_log W) returned_vals;;
       add_to (W * call_log W) total_time x) acc s = (Return t, s') ->
  length (snd s') = length (snd s) + length it.
Proof.
  induction it as [|u it IH]; intros acc t s s'; cbn [for_fold].
  - intros Heq. injection Heq as _ <-. simpl. lia.
  - unfold Py.bind at 1.
    match goal with
    | |- context [match ?c s with _ => _ end] => destruct (c s) as [[acc'|e|] s1] eqn:Hstep
    end; try discriminate.
    apply logged_execution_length in Hstep.
    intros Heq. apply IH in Heq. simpl. lia.
Qed.

Lemma logged_repeat_length (sut : M W (pyval V O)) (number : Z) (ixs : list nat) :
  forall (r runs : list V) (s s' : W * call_log W),
  for_fold ixs
    (fun r _ =>
       t <- timer_timeit (W * call_log W) (beside W default_timer) (logged W sut) number;;
       ret (r ++ [t])) r s = (Return runs, s') ->
  length (snd s') = length (snd s) + length ixs * Z.to_nat number.
Proof.
  induction ixs as [|i ixs IH]; intros r runs s s'; simpl.
  - intros Heq. injection Heq as _ <-. lia.
  - rewrite bind_assoc. unfold Py.bind at 1.
    destruct (timer_timeit _ (beside W default_timer) (logged W sut) number s)
      as [[t|e|] s1] eqn:Hrun; try discriminate.
    unfold timer_timeit, inner, itertools_repeat in Hrun.
    apply logged_inner_length in Hrun. rewrite length_replicate in Hrun.
    unfold Py.bind at 1. unfold ret at 1. intros Heq. apply IH in Heq. lia.
Qed.

(** X4.  With a given [number], a call of the wrapper that returns a
    result has executed the profiled function exactly [number * repeat]
    times, and not at all when [number] is negative ([max(number, 0) *
    repeat] times in all); none of these executions raised. *)
Theorem time_it_executes_number_times_repeat
  (number : Z) (repeat : nat) (sut : M W (pyval V O)) (fuel : nat)
  (w w' : W) (r : TimeitResult V) :
  time_it W print_exc print_result default_timer reaches_min_time
    (Some number) repeat sut fuel w = (Return r, w') ->
  Z.of_nat (length (calls_of W print_exc print_result default_timer reaches_min_time
                      (Some number) repeat sut fuel w))
  = (Z.max number 0 * Z.of_nat repeat)%Z /\
  (forall e w2,
     ~ In (Raise e, w2)
         (calls_of W print_exc print_result default_timer reaches_min_time
            (Some number) repeat sut fuel w)).
Proof.
  intros Hret. unfold calls_of. rewrite wrapper_paths. rewrite wrapper_paths in Hret.
  destruct (linked_profile W default_timer reaches_min_time (Some number) repeat sut fuel
              w [] (clean_nil W)) as (log & E & Hlog).
  destruct (profile W default_timer reaches_min_time (Some number) repeat sut fuel w)
    as [[profiled|e|] w1] eqn:Hprofile; try discriminate.
  cbn [fst snd] in E, Hlog.
  destruct Hlog as [Hclean|(e1 & l & Habs & _)]; [|discriminate].
  pose proof (summarise_log W print_result repeat (fst profiled) (snd profiled) (w1, log))
    as Hsum.
  unfold call_log in *. rewrite E. cbv beta iota. rewrite Hsum. cbn [snd].
  split.
  - unfold profile in E. unfold Py.bind at 1 in E. unfold ret at 1 in E.
    unfold Py.bind at 1 in E. unfold timer_repeat in E.
    match type of E with
    | context [for_fold ?ixs ?body ?acc ?s] =>
        destruct (for_fold ixs body acc s) as [[runs|e|] s1] eqn:Hloop; try discriminate
    end.
    apply logged_repeat_length in Hloop. rewrite length_seq in Hloop.
    unfold ret in E. injection E as _ Hs1. subst s1. simpl in Hloop. lia.
  - exact Hclean.
Qed.

End Results.

Import Samples.

Lemma time_it_degenerate_arguments_witness :
  time_it counter note_exc note_result stopped_timer min_time_reached
    (Some 0%Z) 2 ticking_sut 0 (1, [])
  = (Raise ZeroDivisionError, (1, [])).
Proof.
  apply (time_it_degenerate_arguments counter note_exc note_result stopped_timer
           min_time_reached 0%Z 2 ticking_sut 0 (1, [])).
  lia.
Defined.

Lemma time_it_needs_a_reported_duration_witness :
  time_it counter note_exc note_result stopped_timer min_time_reached
    (Some 2%Z) 2 silent_sut 1 (0, [])
  = (Raise TypeError, (1, ["traceback"])) /\
  calls_of counter note_exc note_result stopped_timer min_time_reached
    (Some 2%Z) 2 silent_sut 1 (0, []) = [(Return PyNone, (1, []))].
Proof.
  apply (time_it_needs_a_reported_duration counter note_exc note_result stopped_timer
           min_time_reached (Some 2%Z) 2 silent_sut 1 (0, []) (1, []) PyNone).
  - reflexivity.
  - reflexivity.
  - intros n [= <-]. lia.
  - lia.
  - lia.
Defined.

(** With [number=-1] the wrapper runs nothing and still returns a
    result: [loops] is -1 and both runs total 0. *)
Lemma time_it_result_well_formed_witness :
  exists r : TimeitResult Z,
    time_it counter note_exc note_result stopped_timer min_time_reached
      (Some (-1)%Z) 2 ticking_sut 0 (1, []) = (Return r, (1, ["result"])) /\
    loops r = (-1)%Z /\ length (all_runs r) = 2 /\
    Forall (fun t => t = 0%Z) (all_runs r).
Proof.
  exists (MkTimeitResult (-1)%Z 2 0%Z 0%Z [0%Z; 0%Z] 0 3).
  assert (Hrun : time_it counter note_exc note_result stopped_timer min_time_reached
                   (Some (-1)%Z) 2 ticking_sut 0 (1, [])
                 = (Return (MkTimeitResult (-1)%Z 2 0%Z 0%Z [0%Z; 0%Z] 0 3),
                    (1, ["result"]))) by reflexivity.
  destruct (time_it_result_well_formed counter note_exc note_result stopped_timer
              min_time_reached (Some (-1)%Z) 2 ticking_sut 0 (1, []) (1, ["result"])
              (MkTimeitResult (-1)%Z 2 0%Z 0%Z [0%Z; 0%Z] 0 3) Hrun)
    as (_ & _ & _ & Hlen & _ & _ & _ & _ & Hloops & Hzero & _).
  split; [exact Hrun|]. split; [exact Hloops|]. split; [exact Hlen|].
  apply Hzero. cbn. lia.
Defined.

Lemma time_it_executes_number_times_repeat_witness :
  Z.of_nat (length (calls_of counter note_exc note_result stopped_timer min_time_reached
                      (Some 2%Z) 2 ticking_sut 0 (1, []))) = (Z.max 2 0 * Z.of_nat 2)%Z.
Proof.
  apply (time_it_executes_number_times_repeat counter note_exc note_result stopped_timer
           min_time_reached 2%Z 2 ticking_sut 0 (1, []) (5, ["result"])
           (MkTimeitResult 2%Z 2 1%Z 3%Z [3%Z; 7%Z] 0 3)).
  reflexivity.
Defined.

End TimeItEdges.

(** ** [time_it] applied to the save routines *)

Module Composition.
Import Producer Storage Writers Sqlite TimeIt Cells PyFacts WriterFacts TimeItFacts
  ReturnFacts TimeItEdges.

Section ProfiledWriters.
Context {V O : Type} `{Num V}.
Variable print_exc : exn -> World V -> World V.
Variable print_result : TimeitResult V -> World V -> World V.
Variable default_timer : M (World V) V.
Variable reaches_min_time : V -> bool.

(** X5.  [save_to_hdf5] and [save_to_npy] cannot be profiled with
    [time_it]: they return [None], so (with [number=None] or a positive
    [number]) the wrapper raises [TypeError] after the first save (of
    well-formed items, to a file that is not open), having printed the
    traceback.  The world is the one that a single save leaves. *)
Theorem writers_cannot_be_profiled
  (number : option Z) (repeat fuel : nat) (data : list (datum V)) (filename : string)
  (w : World V) :
  (forall n, number = Some n -> (0 < n)%Z) -> 0 < repeat -> 0 < fuel ->
  filename ∉ open_files w ->
  Forall well_formed data ->
  time_it (World V) print_exc print_result default_timer reaches_min_time
    number repeat (save_to_hdf5 (O := O) data filename) fuel w
  = (Raise TypeError, print_exc TypeError (snd (save_to_hdf5 (O := O) data filename w))) /\
  time_it (World V) print_exc print_result default_timer reaches_min_time
    number repeat (save_to_npy (O := O) data filename) fuel w
  = (Raise TypeError, print_exc TypeError (snd (save_to_npy (O := O) data filename w))).
Proof.
  intros Hnumber Hrepeat Hfuel Hclosed Hwf. split.
  - rewrite (save_to_hdf5_stores (O := O) data filename w Hclosed Hwf). cbn [snd].
    apply (time_it_unreported (World V) print_exc print_result default_timer
             reaches_min_time number repeat _ fuel w _ PyNone); auto.
    apply (save_to_hdf5_stores data filename w Hclosed Hwf).
  - rewrite (save_to_npy_returns (O := O) data filename w Hwf). cbn [snd].
    apply (time_it_unreported (World V) print_exc print_result default_timer
             reaches_min_time number repeat _ fuel w _ PyNone); auto.
    apply (save_to_npy_returns data filename w Hwf).
Qed.

End ProfiledWriters.

Section ProfiledSqlite.
Context {V O : Type} `{Num V}.
Variable W : Type.
Variable print_exc : exn -> W -> W.
Variable print_result : TimeitResult V -> W -> W.
Variable default_timer : M W V.
Variable reaches_min_time : V -> bool.
Variable DataSaver : Type.
Variable now : clock -> W -> V * W.
Variable meas_run : string -> nat -> M W DataSaver.
Variable meas_run_exit : DataSaver -> M W unit.
Variable add_result : DataSaver -> datum V -> M W unit.
Variable datasaver_dataset : DataSaver -> O.

(** qcodes does its part: no call of it raises. *)
Hypothesis meas_run_returns :
  forall paramtype write_period s, exists datasaver s1,
    meas_run paramtype write_period s = (Return datasaver, s1).
Hypothesis add_result_returns :
  forall datasaver d s, exists s1, add_result datasaver d s = (Return tt, s1).
Hypothesis meas_run_exit_returns :
  forall datasaver s, exists s1, meas_run_exit datasaver s = (Return tt, s1).

Lemma add_results_return (datasaver : DataSaver) (data : list (datum V)) (s : W) :
  exists s1, for_each data (add_result datasaver) s = (Return tt, s1).
Proof.
  revert s. induction data as [|d data IH]; intros s; simpl.
  - now exists s.
  - destruct (add_result_returns datasaver d s) as (s1 & H1).
    destruct (IH s1) as (s2 & H2). exists s2.
    now rewrite (bind_return _ _ _ _ _ H1).
Qed.

(** Then every call of [save_to_sqlite] returns a pair that starts with
    a number. *)
Lemma partial_save_to_sqlite_reports (paramtype : string) (data : list (datum V)) (s : W) :
  exists r d s1,
    partial_save_to_sqlite W DataSaver now meas_run meas_run_exit add_result
      datasaver_dataset paramtype data s = (Return r, s1) /\
    reported r = Some d.
Proof.
  destruct (meas_run_returns paramtype 10 s) as (datasaver & s1 & Hrun).
  destruct (add_results_return datasaver data (snd (now perf_counter s1))) as (s2 & Hloop).
  destruct (meas_run_exit_returns datasaver s2) as (s3 & Hexit).
  eexists. eexists. eexists. split.
  - unfold partial_save_to_sqlite.
    apply (save_to_sqlite_returns W DataSaver now meas_run meas_run_exit add_result
             datasaver_dataset data paramtype 10 datasaver s s1 s2 s3 Hrun Hloop Hexit).
  - reflexivity.
Qed.

Lemma executions_exist (sut : M W (pyval V O)) :
  (forall s, exists r d s1, sut s = (Return r, s1) /\ reported r = Some d) ->
  forall (n : nat) (s : W), exists ds s', executions W sut s ds s' /\ length ds = n.
Proof.
  intros Hsut. induction n as [|n IH]; intros s.
  - exists [], s. split; [constructor|reflexivity].
  - destruct (Hsut s) as (r & d & s1 & Hs & Hr).
    destruct (IH s1) as (ds & s' & Hex & Hlen).
    exists (d :: ds), s'. split; [|simpl; congruence].
    now apply (executions_cons W sut s s1 s' r d ds).
Qed.

Lemma timing_runs_exist (sut : M W (pyval V O)) :
  (forall s, exists r d s1, sut s = (Return r, s1) /\ reported r = Some d) ->
  forall (k number : nat) (s : W), exists dss s',
    timing_runs W sut s dss s' /\ length dss = k /\
    Forall (fun ds => length ds = number) dss.
Proof.
  intros Hsut. induction k as [|k IH]; intros number s.
  - exists [], s. repeat split; constructor.
  - destruct (executions_exist sut Hsut number s) as (ds & s1 & Hex & Hlen).
    destruct (IH number s1) as (dss & s' & Hruns & Hlens & Hall).
    exists (ds :: dss), s'. repeat split.
    + now apply (timing_runs_cons W sut s s1 s' ds dss).
    + simpl. congruence.
    + constructor; assumption.
Qed.

(** X6.  [time_save_to_sqlite_numeric], the decorated [save_to_sqlite]:
    when no call into qcodes raises, it saves the data six times, in two
    runs of three, and returns the [TimeitResult] with [loops = 3],
    [repeat = 2] and the two run totals of the [saving_time]s, [best] and
    [worst] being the smaller and the larger total divided by 3. *)
Theorem time_save_to_sqlite_numeric_returns
  (data : list (datum V)) (fuel : nat) (w : W) :
  exists (run1 run2 : list V) (w' : W),
    timing_runs W
      (partial_save_to_sqlite W DataSaver now meas_run meas_run_exit add_result
         datasaver_dataset "numeric" data)
      w [run1; run2] w' /\
    length run1 = 3 /\ length run2 = 3 /\
    let timeit_result :=
      MkTimeitResult 3%Z 2
        (num_div (smallest (total run1) [total run2]) 3%Z)
        (num_div (largest (total run1) [total run2]) 3%Z)
        [total run1; total run2] 0 3 in
    time_save_to_sqlite_numeric W print_exc print_result default_timer reaches_min_time
      DataSaver now meas_run meas_run_exit add_result datasaver_dataset data fuel w
    = (Return timeit_result, print_result timeit_result w').
Proof.
  set (sut := partial_save_to_sqlite W DataSaver now meas_run meas_run_exit
                add_result datasaver_dataset "numeric" data).
  destruct (timing_runs_exist sut (partial_save_to_sqlite_reports "numeric" data) 2 3 w)
    as (dss & w' & Hruns & Hlen & Hall).
  destruct dss as [|run1 [|run2 [|run3 dss]]]; try discriminate.
  exists run1, run2, w'.
  inversion Hall as [|? ? H1 Hall']; subst. inversion Hall' as [|? ? H2 _]; subst.
  repeat split; auto.
  unfold time_save_to_sqlite_numeric. fold sut.
  rewrite wrapper_paths. unfold profile.
  unfold Py.bind at 1. unfold ret at 1.
  rewrite (bind_return _ _ _ _ _
             (timer_repeat_totals W default_timer sut 3%Z w w' [run1; run2] Hruns Hall)).
  reflexivity.
Qed.

End ProfiledSqlite.

Import Samples.

Lemma writers_cannot_be_profiled_witness :
  fst (time_it (World Z) (fun _ w => w) (fun _ w => w) (fun w => (Return 0%Z, w))
         min_time_reached (Some 3%Z) 2 (save_to_hdf5 (O := unit) two_items "out") 0
         empty_world)
  = Raise TypeError.
Proof.
  destruct (writers_cannot_be_profiled (O := unit) (fun _ w => w) (fun _ w => w)
              (fun w => (Return 0%Z, w)) min_time_reached (Some 3%Z) 2 1 two_items "out"
              empty_world) as [Hh5 _].
  - intros n [= <-]. lia.
  - lia.
  - lia.
  - vm_compute. discriminate.
  - repeat constructor.
  - apply (f_equal fst) in Hh5. exact Hh5.
Defined.

Lemma time_save_to_sqlite_numeric_returns_witness :
  exists r w',
    time_save_to_sqlite_numeric Z (fun _ w => w) (fun _ w => w) (fun w => (Return 0%Z, w))
      min_time_reached unit sample_clocks quick_run quick_run_exit quick_add_result
      the_dataset two_items 0 0%Z
    = (Return r, w') /\ loops r = 3%Z /\ length (all_runs r) = 2.
Proof.
  destruct (time_save_to_sqlite_numeric_returns Z (fun _ w => w) (fun _ w => w)
              (fun w => (Return 0%Z, w)) min_time_reached unit sample_clocks quick_run
              quick_run_exit quick_add_result the_dataset)
    with (data := two_items) (fuel := 0) (w := 0%Z)
    as (run1 & run2 & w' & _ & _ & _ & Hres).
  - intros paramtype write_period s. eexists. eexists. reflexivity.
  - intros datasaver d s. eexists. reflexivity.
  - intros datasaver s. eexists. reflexivity.
  - eexists. exists w'. split; [exact Hres|]. split; reflexivity.
Defined.

End Composition.

(** ** The writers: loading back, saving again, ill-formed items *)

Module WriterEdges.
Import Producer Storage Writers Cells PyFacts WriterFacts.

Section WriterEdges.
Context {V O : Type} `{Num V}.

(** The four series of a list of items, each flattened. *)
Definition s1_series (data : list (datum V)) : list V :=
  flat_map (fun d => replicate (length (magn_vals d)) (s1_val d)) data.
Definition s2_series (data : list (datum V)) : list V :=
  flat_map (fun d => replicate (length (magn_vals d)) (s2_val d)) data.
Definition magn_series (data : list (datum V)) : list V := flat_map magn_vals data.
Definition phas_series (data : list (datum V)) : list V := flat_map phas_vals data.

(** A series as the dataset holds it: in single precision. *)
Definition single (vs : list V) : list V := map num_float32 vs.

Lemma single_flat_map {A : Type} (g : A -> list V) (xs : list A) :
  flat_map (fun x => single (g x)) xs = single (flat_map g xs).
Proof.
  unfold single. induction xs as [|x xs IH]; simpl; [reflexivity|].
  now rewrite map_app, IH.
Qed.

Lemma single_replicated (g : datum V -> V) (data : list (datum V)) :
  flat_map (fun d => replicate (length (magn_vals d)) (num_float32 (g d))) data
  = single (flat_map (fun d => replicate (length (magn_vals d)) (g d)) data).
Proof.
  unfold single. induction data as [|d data IH]; simpl; [reflexivity|].
  now rewrite map_app, map_replicate, IH.
Qed.

Lemma appended_series (data : list (datum V)) :
  appended data [] [] [] []
  = [single (s1_series data); single (s2_series data);
     single (magn_series data); single (phas_series data)].
Proof.
  unfold appended, s1_series, s2_series, magn_series, phas_series. cbn [app].
  rewrite !single_replicated.
  now rewrite (single_flat_map magn_vals), (single_flat_map phas_vals).
Qed.

(** Loading from a closed HDF5 file that holds the dataset "results". *)
Lemma load_results_of_saved (base : gmap string (file_content V)) (opens : gset string)
  (f : string) (d : dataset V) :
  f ∉ opens ->
  load_results f (MkWorld (<[f := Hdf5File (<["results" := d]> ∅)]> base) opens)
  = (Return (MkNdarray (ds_shape d) (concat (ds_rows d)) true None),
     MkWorld (<[f := Hdf5File (<["results" := d]> ∅)]> base) opens).
Proof.
  intros Hclosed.
  unfold load_results, with_ctx, try_finally, h5_File_r, h5_File_exit, h5_datasets,
    Py.bind, modify, ret, close_file. simpl.
  rewrite !lookup_insert_eq. simpl.
  rewrite decide_True by (apply elem_of_union; left; now apply elem_of_singleton).
  rewrite lookup_insert_eq. simpl. rewrite lookup_insert_eq. simpl.
  now rewrite (reopen_closed f opens Hclosed).
Qed.

(** X7.  Saving to HDF5 and loading back.  After [save_to_hdf5] of
    well-formed items, the loading cell returns an array of 4 rows and as
    many columns as there are points: the repeated [s1_val]s, the
    repeated [s2_val]s, the [magn_vals] and the [phas_vals] of the items,
    in the order of the generator, each value rounded to single
    precision, the element type of the dataset.  What comes back is the
    data itself only where single precision holds it exactly.  Loading
    changes nothing: the file is closed again. *)
Theorem save_to_hdf5_then_load
  (data : list (datum V)) (filename : string) (w : World V) :
  filename ∉ open_files w ->
  Forall well_formed data ->
  (save_to_hdf5 (O := O) data filename;;; load_results filename) w
  = (Return (MkNdarray (4, n_points data)
               (single (s1_series data ++ s2_series data ++
                        magn_series data ++ phas_series data))
               true None),
     snd (save_to_hdf5 (O := O) data filename w)).
Proof.
  intros Hclosed Hwf.
  rewrite (bind_return _ _ _ _ _ (save_to_hdf5_stores (O := O) data filename w Hclosed Hwf)).
  rewrite (save_to_hdf5_stores (O := O) data filename w Hclosed Hwf). cbn [snd].
  rewrite (load_results_of_saved _ _ _ _ Hclosed).
  cbn [ds_shape ds_rows]. rewrite appended_series. simpl. rewrite app_nil_r.
  unfold single. now rewrite !map_app.
Qed.

(** X8.  Saving to the same HDF5 file again replaces what was there:
    two saves in a row leave the world that the second one alone would
    leave.  This is what the timing loop of the notebook relies on when it
    saves to one temporary file over and over. *)
Theorem save_to_hdf5_twice
  (data1 data2 : list (datum V)) (filename : string) (w : World V) :
  filename ∉ open_files w ->
  Forall well_formed data1 ->
  Forall well_formed data2 ->
  (save_to_hdf5 (O := O) data1 filename;;; save_to_hdf5 (O := O) data2 filename) w
  = save_to_hdf5 (O := O) data2 filename w.
Proof.
  intros Hclosed Hwf1 Hwf2.
  rewrite (bind_return _ _ _ _ _ (save_to_hdf5_stores (O := O) data1 filename w Hclosed Hwf1)).
  match goal with
  | |- save_to_hdf5 _ _ ?w1 = _ =>
      rewrite (save_to_hdf5_stores (O := O) data2 filename w1 Hclosed Hwf2)
  end.
  rewrite (save_to_hdf5_stores (O := O) data2 filename w Hclosed Hwf2).
  cbn [files open_files]. now rewrite insert_insert_eq.
Qed.

(** An item with points ([magn_vals] is not empty) whose [phas_vals]
    fit neither the [n_pts] columns made for them nor, as one value, all
    of them. *)
Definition mismatched (d : datum V) : Prop :=
  magn_vals d <> [] /\
  length (phas_vals d) <> length (magn_vals d) /\ length (phas_vals d) <> 1.

Lemma broadcast_mismatched (d : datum V) :
  mismatched d -> broadcast (length (magn_vals d)) (Array (phas_vals d)) = None.
Proof.
  intros (_ & Hlen & Hone). unfold broadcast. rewrite decide_False by exact Hlen.
  destruct (phas_vals d) as [|v [|v' vs]]; simpl in *; try reflexivity. lia.
Qed.

Lemma mismatched_length (d : datum V) : mismatched d -> length (magn_vals d) <> 0.
Proof. intros (Hpts & _) Hlen. apply Hpts. now apply nil_length_inv. Qed.

Lemma ds_setitem_world_raises (base : gmap string (file_content V)) (opens : gset string)
  (f name : string) (d : dataset V) (i a b : nat) (src : rhs V) (row : list V) :
  f ∈ opens ->
  ds_rows d !! i = Some row ->
  slice_len a b (snd (ds_shape d)) <> 0 ->
  broadcast (slice_len a b (snd (ds_shape d))) src = None ->
  ds_setitem (f, name) i a b src (h5_world base opens f name d)
  = (Raise TypeError, h5_world base opens f name d).
Proof.
  intros Hf Hrow Hsel Hb. unfold ds_setitem.
  rewrite (bind_return _ _ _ _ _ (ds_get_world base opens f name d Hf)).
  rewrite Hrow. cbv zeta. apply Nat.eqb_neq in Hsel. now rewrite Hsel, Hb.
Qed.

(** The iteration of the loop of [save_to_hdf5] on such an item: the
    dataset is resized, three series are written, the fourth assignment
    raises. *)
Lemma hdf5_step_mismatched (base : gmap string (file_content V)) (opens : gset string)
  (f name : string) (n : nat) (r0 r1 r2 r3 : list V) (d : datum V) :
  f ∈ opens ->
  length r0 = n -> length r1 = n -> length r2 = n -> length r3 = n ->
  mismatched d ->
  hdf5_step (f, name) d
    (h5_world base opens f name (MkDataset (4, n) (4, None) [r0; r1; r2; r3]))
  = (Raise TypeError,
     h5_world base opens f name
       (MkDataset (4, n + length (magn_vals d)) (4, None)
          [r0 ++ replicate (length (magn_vals d)) (num_float32 (s1_val d));
           r1 ++ replicate (length (magn_vals d)) (num_float32 (s2_val d));
           r2 ++ single (magn_vals d);
           r3 ++ replicate (length (magn_vals d)) num_zero])).
Proof.
  intros Hf H0 H1 H2 H3 Hbad. unfold hdf5_step, ds_shape_of.
  set (k := length (magn_vals d)).
  rewrite bind_assoc, (bind_return _ _ _ _ _ (ds_get_world _ _ _ _ _ Hf)).
  rewrite bind_ret_now. cbn [fst snd ds_shape].
  erewrite bind_return; cycle 1.
  { eapply ds_resize_world; [exact Hf|reflexivity]. }
  cbn [fst snd ds_rows ds_maxshape].
  assert (Hrows : resize_rows 4 (n + k) [r0; r1; r2; r3]
                  = [r0 ++ replicate k num_zero; r1 ++ replicate k num_zero;
                     r2 ++ replicate k num_zero; r3 ++ replicate k num_zero]).
  { unfold resize_rows. simpl.
    rewrite <- (resize_row_grow r0), <- (resize_row_grow r1),
      <- (resize_row_grow r2), <- (resize_row_grow r3).
    now rewrite H0, H1, H2, H3. }
  rewrite Hrows.
  erewrite bind_return; cycle 1.
  { eapply ds_setitem_world; [exact Hf|reflexivity|].
    cbn [snd ds_shape]. rewrite slice_len_tail. apply broadcast_scalar. }
  cbn [ds_shape ds_maxshape ds_rows snd]. rewrite slice_start_tail.
  erewrite bind_return; cycle 1.
  { eapply ds_setitem_world; [exact Hf|reflexivity|].
    cbn [snd ds_shape]. rewrite slice_len_tail. apply broadcast_scalar. }
  cbn [ds_shape ds_maxshape ds_rows snd]. rewrite slice_start_tail.
  erewrite bind_return; cycle 1.
  { eapply ds_setitem_world; [exact Hf|reflexivity|].
    cbn [snd ds_shape]. rewrite slice_len_tail. apply broadcast_array. }
  cbn [ds_shape ds_maxshape ds_rows snd]. rewrite slice_start_tail.
  erewrite ds_setitem_world_raises; [|exact Hf|reflexivity| |]; cycle 1.
  { cbn [snd ds_shape]. rewrite slice_len_tail. now apply mismatched_length. }
  { cbn [snd ds_shape]. rewrite slice_len_tail. now apply broadcast_mismatched. }
  do 3 f_equal. simpl. rewrite !map_replicate. unfold single.
  rewrite !(write_at_tail _ _ _ n); auto; rewrite ?length_map, ?length_replicate; auto.
Qed.

(** X9.  An item with points whose [phas_vals] have another length
    than its [magn_vals] (and are not a single value) makes
    [save_to_hdf5] raise the broadcast error of h5py at its fourth
    assignment.  The file is closed all the same.  It holds, in single
    precision, the items that came before, complete, and of the offending
    item the first three series, with zeros where its [phas_vals] should
    be; the items after it are not read. *)
Theorem save_to_hdf5_mismatched_item
  (good rest : list (datum V)) (bad : datum V) (filename : string) (w : World V) :
  filename ∉ open_files w ->
  Forall well_formed good ->
  mismatched bad ->
  save_to_hdf5 (O := O) (good ++ bad :: rest) filename w
  = (Raise TypeError,
     MkWorld
       (<[filename := Hdf5File
            (<["results" :=
                 MkDataset (4, n_points good + length (magn_vals bad)) (4, None)
                   [single (s1_series good)
                      ++ replicate (length (magn_vals bad)) (num_float32 (s1_val bad));
                    single (s2_series good)
                      ++ replicate (length (magn_vals bad)) (num_float32 (s2_val bad));
                    single (magn_series good) ++ single (magn_vals bad);
                    single (phas_series good)
                      ++ replicate (length (magn_vals bad)) num_zero]]> ∅)]>
          (files w))
       (open_files w)).
Proof.
  intros Hclosed Hwf Hbad. rewrite (save_to_hdf5_paths _ _ _ Hclosed).
  assert (Hin : filename ∈ ({[filename]} ∪ open_files w : gset string)).
  { apply elem_of_union. left. now apply elem_of_singleton. }
  unfold hdf5_body.
  rewrite (bind_return _ _ _ _ _
             (create_dataset_fresh (files w) _ filename "results" (4, 0) (4, None) Hin)).
  cbn [fst snd replicate]. rewrite for_each_app.
  rewrite (bind_return _ _ _ _ _
             (hdf5_loop_world _ _ _ _ good Hin Hwf 0 [] [] [] []
                eq_refl eq_refl eq_refl eq_refl)).
  cbn [for_each]. rewrite appended_series.
  assert (Hlens : Forall (fun row => length row = 0 + n_points good)
                    (appended good [] [] [] [])).
  { apply (appended_lengths good [] [] [] [] 0 Hwf); reflexivity. }
  rewrite appended_series in Hlens.
  inversion Hlens as [|? ? L0 Hl1]; subst. inversion Hl1 as [|? ? L1 Hl2]; subst.
  inversion Hl2 as [|? ? L2 Hl3]; subst. inversion Hl3 as [|? ? L3 _]; subst.
  rewrite (bind_raise_now _ _ _ _ _
             (hdf5_step_mismatched _ _ _ _ (0 + n_points good) _ _ _ _ bad
                Hin L0 L1 L2 L3 Hbad)).
  unfold close_file, h5_world. cbn [files open_files Nat.add].
  now rewrite (reopen_closed filename _ Hclosed).
Qed.

(** *** An item without points *)

Lemma ds_setitem_world_empty (base : gmap string (file_content V)) (opens : gset string)
  (f name : string) (d : dataset V) (i a b : nat) (src : rhs V) (row : list V) :
  f ∈ opens ->
  ds_rows d !! i = Some row ->
  slice_len a b (snd (ds_shape d)) = 0 ->
  ds_setitem (f, name) i a b src (h5_world base opens f name d)
  = (Return tt, h5_world base opens f name d).
Proof.
  intros Hf Hrow Hsel. unfold ds_setitem.
  rewrite (bind_return _ _ _ _ _ (ds_get_world base opens f name d Hf)).
  rewrite Hrow. cbv zeta. now rewrite Hsel.
Qed.

(** The iteration of the loop of [save_to_hdf5] on an item without
    [magn_vals]: the dataset is resized to the size it has and the four
    assignments select nothing, so they return before they look at their
    source. *)
Lemma hdf5_step_no_points (base : gmap string (file_content V)) (opens : gset string)
  (f name : string) (n : nat) (r0 r1 r2 r3 : list V) (d : datum V) :
  f ∈ opens ->
  length r0 = n -> length r1 = n -> length r2 = n -> length r3 = n ->
  magn_vals d = [] ->
  hdf5_step (f, name) d
    (h5_world base opens f name (MkDataset (4, n) (4, None) [r0; r1; r2; r3]))
  = (Return tt, h5_world base opens f name (MkDataset (4, n) (4, None) [r0; r1; r2; r3])).
Proof.
  intros Hf H0 H1 H2 H3 Hnone. unfold hdf5_step, ds_shape_of. rewrite Hnone.
  cbn [length].
  rewrite bind_assoc, (bind_return _ _ _ _ _ (ds_get_world _ _ _ _ _ Hf)).
  rewrite bind_ret_now. cbn [fst snd ds_shape].
  erewrite bind_return; cycle 1.
  { eapply ds_resize_world; [exact Hf|reflexivity]. }
  cbn [fst snd ds_rows ds_maxshape].
  assert (Hrows : resize_rows 4 (n + 0) [r0; r1; r2; r3] = [r0; r1; r2; r3]).
  { unfold resize_rows. simpl.
    rewrite <- H0 at 1. rewrite <- H1 at 1. rewrite <- H2 at 1. rewrite <- H3.
    rewrite !resize_row_grow. simpl. now rewrite !app_nil_r. }
  rewrite Hrows.
  assert (Hsel : slice_len n (n + 0) (snd (n + 0, n + 0)) = 0)
    by (unfold slice_len; cbn [snd]; lia).
  repeat (erewrite bind_return; cycle 1;
          [eapply ds_setitem_world_empty; [exact Hf|reflexivity|exact Hsel]|]).
  erewrite ds_setitem_world_empty; [|exact Hf|reflexivity|exact Hsel].
  now rewrite Nat.add_0_r.
Qed.

Lemma appended_app (good rest : list (datum V)) (r0 r1 r2 r3 : list V) :
  appended (good ++ rest) r0 r1 r2 r3
  = appended rest
      (r0 ++ flat_map (fun d => replicate (length (magn_vals d)) (num_float32 (s1_val d)))
               good)
      (r1 ++ flat_map (fun d => replicate (length (magn_vals d)) (num_float32 (s2_val d)))
               good)
      (r2 ++ flat_map (fun d => map num_float32 (magn_vals d)) good)
      (r3 ++ flat_map (fun d => map num_float32 (phas_vals d)) good).
Proof. unfold appended. now rewrite !flat_map_app, !app_assoc. Qed.

Lemma n_points_app (good rest : list (datum V)) :
  n_points (good ++ rest) = n_points good + n_points rest.
Proof. unfold n_points. now rewrite map_app, list_sum_app. Qed.

(** The iteration of the loop of [save_to_npy] on such an item with two
    or more [phas_vals]: numpy does broadcast to an empty selection, and
    fails. *)
Lemma npy_step_no_points (a : ndarray V) (d : datum V) (n : nat) (w : World V) :
  four_rows n a ->
  magn_vals d = [] ->
  2 <= length (phas_vals d) ->
  npy_step a d w = (Raise ValueError, w).
Proof.
  intros (Ha & Hshape & Hlen) Hnone Hphas. unfold npy_step.
  rewrite Hnone, Hshape. cbn [length fst snd].
  destruct (nd_resize_quiet a (4, n + 0) Ha w) as (a0 & E0 & H0 & S0 & L0).
  rewrite (bind_return _ _ _ _ _ E0).
  assert (L0' : length (nd_flat a0) = 4 * (n + 0)) by (apply L0; cbn [fst snd]; lia).
  destruct (nd_setitem_tail a0 0 n 0 (Scalar (s1_val d)) [] H0 S0 L0' ltac:(lia)
              eq_refl eq_refl w) as (a1 & E1 & H1 & S1 & L1 & _).
  rewrite (bind_return _ _ _ _ _ E1).
  destruct (nd_setitem_tail a1 1 n 0 (Scalar (s2_val d)) [] H1 S1 L1 ltac:(lia)
              eq_refl eq_refl w) as (a2 & E2 & H2 & S2 & L2 & _).
  rewrite (bind_return _ _ _ _ _ E2).
  destruct (nd_setitem_tail a2 2 n 0 (Array []) [] H2 S2 L2 ltac:(lia)
              eq_refl eq_refl w) as (a3 & E3 & H3 & S3 & L3 & _).
  rewrite (bind_return _ _ _ _ _ E3).
  unfold nd_setitem. rewrite S3. rewrite decide_True by lia. rewrite slice_len_tail.
  assert (Hb : broadcast 0 (Array (phas_vals d)) = None).
  { unfold broadcast. rewrite decide_False by lia.
    destruct (phas_vals d) as [|v [|v' vs]]; simpl in Hphas; try lia; reflexivity. }
  now rewrite Hb.
Qed.

(** X17.  An item without points ([magn_vals] is empty) is skipped by
    [save_to_hdf5], whatever its [phas_vals]: h5py returns from an
    assignment that selects nothing before it looks at the source, so
    the file is the one that the other items alone would give.
    [save_to_npy] raises [ValueError] at such an item when it has two or
    more [phas_vals]: numpy does try to broadcast them to the empty
    selection. *)
Theorem save_routines_on_item_without_points
  (good rest : list (datum V)) (d : datum V) (filename : string) (w : World V) :
  filename ∉ open_files w ->
  Forall well_formed good ->
  Forall well_formed rest ->
  magn_vals d = [] ->
  save_to_hdf5 (O := O) (good ++ d :: rest) filename w
    = save_to_hdf5 (O := O) (good ++ rest) filename w /\
  (2 <= length (phas_vals d) ->
   save_to_npy (O := O) (good ++ d :: rest) filename w
     = (Raise ValueError, npy_left filename w)).
Proof.
  intros Hclosed Hgood Hrest Hnone. split.
  - rewrite (save_to_hdf5_stores (O := O) (good ++ rest) filename w Hclosed)
      by (apply Forall_app; auto).
    rewrite (save_to_hdf5_paths _ _ _ Hclosed).
    assert (Hin : filename ∈ ({[filename]} ∪ open_files w : gset string)).
    { apply elem_of_union. left. now apply elem_of_singleton. }
    unfold hdf5_body.
    rewrite (bind_return _ _ _ _ _
               (create_dataset_fresh (files w) _ filename "results" (4, 0) (4, None) Hin)).
    cbn [fst snd replicate]. rewrite for_each_app.
    rewrite (bind_return _ _ _ _ _
               (hdf5_loop_world _ _ _ _ good Hin Hgood 0 [] [] [] []
                  eq_refl eq_refl eq_refl eq_refl)).
    pose proof (appended_lengths good [] [] [] [] 0 Hgood eq_refl eq_refl eq_refl eq_refl)
      as Hlens.
    unfold appended in Hlens |- *.
    inversion Hlens as [|? ? L0 Hl1]; subst. inversion Hl1 as [|? ? L1 Hl2]; subst.
    inversion Hl2 as [|? ? L2 Hl3]; subst. inversion Hl3 as [|? ? L3 _]; subst.
    cbn [for_each].
    rewrite (bind_return _ _ _ _ _
               (hdf5_step_no_points _ _ _ _ (0 + n_points good) _ _ _ _ d
                  Hin L0 L1 L2 L3 Hnone)).
    rewrite (hdf5_loop_world _ _ _ _ rest Hin Hrest (0 + n_points good) _ _ _ _
               L0 L1 L2 L3).
    unfold close_file, h5_world. cbn [files open_files].
    rewrite (reopen_closed filename _ Hclosed).
    fold (appended (good ++ rest) [] [] [] []).
    rewrite appended_app, n_points_app. reflexivity.
  - intros Hphas. unfold save_to_npy. unfold Py.bind at 1.
    rewrite npy_body_paths, for_fold_app.
    destruct (npy_loop_grows good Hgood npy_start 0) with (w := npy_left filename w)
      as (a & Ha & Hrows).
    { unfold four_rows. split; [apply npy_start_in_memory|]. split; reflexivity. }
    rewrite (bind_return _ _ _ _ _ Ha). cbn [for_fold].
    now rewrite (bind_raise_now _ _ _ _ _
                   (npy_step_no_points a d (0 + n_points good) _ Hrows Hnone Hphas)).
Qed.

(** Writing a block in the middle of a buffer. *)
Lemma write_at_block (pre pad post vs : list V) (start : nat) :
  length pre = start -> length pad = length vs ->
  write_at (pre ++ pad ++ post) start vs = pre ++ vs ++ post.
Proof.
  intros <- Hlen. unfold write_at.
  rewrite take_app_length. f_equal. f_equal.
  rewrite drop_app_ge by lia.
  replace (length pre + length vs - length pre) with (length pad) by lia.
  now rewrite drop_app_length.
Qed.

Lemma four_blocks (k : nat) (z : V) (A B C D : list V) :
  length A = k -> length B = k -> length C = k -> length D = k ->
  write_at
    (write_at
       (write_at (write_at (replicate (4 * k) z) (0 * k + 0) A) (1 * k + 0) B)
       (2 * k + 0) C)
    (3 * k + 0) D
  = A ++ B ++ C ++ D.
Proof.
  intros HA HB HC HD.
  replace (4 * k) with (k + (k + (k + k))) by lia.
  rewrite !replicate_add.
  assert (H1 : write_at (replicate k z ++ replicate k z ++ replicate k z ++ replicate k z)
                 (0 * k + 0) A
               = A ++ replicate k z ++ replicate k z ++ replicate k z).
  { apply (write_at_block [] (replicate k z) _ A (0 * k + 0));
      [simpl; lia|now rewrite length_replicate, HA]. }
  rewrite H1.
  rewrite (write_at_block A (replicate k z) _ B (1 * k + 0));
    [|lia|now rewrite length_replicate, HB].
  rewrite (app_assoc A B).
  rewrite (write_at_block (A ++ B) (replicate k z) _ C (2 * k + 0));
    [|rewrite length_app; lia|now rewrite length_replicate, HC].
  rewrite (app_assoc (A ++ B) C).
  rewrite <- (app_nil_r (replicate k z)).
  rewrite (write_at_block ((A ++ B) ++ C) (replicate k z) [] D (3 * k + 0));
    [|rewrite !length_app; lia|now rewrite length_replicate, HD].
  now rewrite app_nil_r, <- !app_assoc.
Qed.

Lemma nd_setitem_in_memory (shape : nat * nat) (flat : list V) (i s e : nat)
  (src : rhs V) (vs : list V) (w : World V) :
  i < fst shape ->
  broadcast (slice_len s e (snd shape)) src = Some vs ->
  nd_setitem (MkNdarray shape flat true None) i s e src w
  = (Return (MkNdarray shape (write_at flat (i * snd shape + slice_start s (snd shape)) vs)
               true None), w).
Proof.
  intros Hi Hb. unfold nd_setitem. destruct shape as [n_rows n_cols]. cbn [nd_shape fst snd] in *.
  rewrite decide_True by exact Hi. rewrite Hb. reflexivity.
Qed.

(** X10.  With a single (well-formed) item the array that the loop of
    [save_to_npy] fills is right: 4 rows of [n_pts] columns holding the
    repeated [s1_val], the repeated [s2_val], the [magn_vals] and the
    [phas_vals], as they are (the array holds Python floats).  The first
    [resize] starts from an empty buffer, so there is nothing it could
    move. *)
Theorem save_to_npy_single_item (d : datum V) (filename : string) (w : World V) :
  well_formed d ->
  npy_body [d] filename w
  = (Return (MkNdarray (4, length (magn_vals d))
               (replicate (length (magn_vals d)) (s1_val d)
                ++ replicate (length (magn_vals d)) (s2_val d)
                ++ magn_vals d ++ phas_vals d)
               true None),
     npy_left filename w).
Proof.
  intros Hwf. rewrite npy_body_paths. cbn [for_fold]. unfold npy_step, npy_start.
  cbn [nd_shape fst snd Nat.add]. set (k := length (magn_vals d)).
  assert (Hsl : slice_len 0 k k = k) by (unfold slice_len; lia).
  assert (Hst : slice_start 0 k = 0) by (unfold slice_start; lia).
  unfold nd_resize at 1. cbn [nd_owndata nd_flat nd_mmap fst snd].
  assert (Hb : broadcast (slice_len 0 k (snd (4, k))) (Array (phas_vals d))
               = Some (phas_vals d)).
  { cbn [snd]. rewrite Hsl. unfold k. rewrite <- Hwf. apply broadcast_array. }
  rewrite !bind_assoc, bind_ret_now. cbv beta.
  rewrite !bind_assoc.
  rewrite (bind_return _ _ _ _ _
             (nd_setitem_in_memory (4, k) _ 0 0 k (Scalar (s1_val d)) (replicate k (s1_val d))
                _ ltac:(simpl; lia) ltac:(cbn [snd]; now rewrite Hsl))).
  rewrite !bind_assoc.
  rewrite (bind_return _ _ _ _ _
             (nd_setitem_in_memory (4, k) _ 1 0 k (Scalar (s2_val d)) (replicate k (s2_val d))
                _ ltac:(simpl; lia) ltac:(cbn [snd]; now rewrite Hsl))).
  rewrite !bind_assoc.
  rewrite (bind_return _ _ _ _ _
             (nd_setitem_in_memory (4, k) _ 2 0 k (Array (magn_vals d)) (magn_vals d)
                _ ltac:(simpl; lia)
                ltac:(cbn [snd]; rewrite Hsl; apply broadcast_array))).
  rewrite (bind_return _ _ _ _ _
             (nd_setitem_in_memory (4, k) _ 3 0 k (Array (phas_vals d)) (phas_vals d)
                _ ltac:(simpl; lia) Hb)).
  unfold ret. cbn [snd]. rewrite Hst. do 3 f_equal.
  rewrite take_nil. cbn [app length]. rewrite Nat.sub_0_r.
  apply four_blocks; auto using length_replicate.
Qed.

End WriterEdges.

Import Samples.

(** The first sample item and one whose [magn_vals] hold 2^24 + 1,
    which single precision rounds to 2^24. *)
Lemma save_to_hdf5_then_load_witness :
  fst ((save_to_hdf5 (O := unit) [first_item; Datum 5%Z 6%Z [16777217%Z] [8%Z]] "out";;;
        load_results "out") empty_world)
  = Return (MkNdarray (4, 2) [1; 5; 2; 6; 3; 16777216; 4; 8]%Z true None).
Proof.
  rewrite (save_to_hdf5_then_load (O := unit)
             [first_item; Datum 5%Z 6%Z [16777217%Z] [8%Z]] "out" empty_world).
  - vm_compute. reflexivity.
  - vm_compute. discriminate.
  - repeat constructor.
Defined.

Lemma save_to_hdf5_twice_witness :
  (save_to_hdf5 (O := unit) two_items "out";;; save_to_hdf5 (O := unit) [first_item] "out")
    empty_world
  = save_to_hdf5 (O := unit) [first_item] "out" empty_world.
Proof.
  apply (save_to_hdf5_twice (O := unit) two_items [first_item] "out" empty_world).
  - vm_compute. discriminate.
  - repeat constructor.
  - repeat constructor.
Defined.

(** An item with one value of [magn_vals] and two of [phas_vals]. *)
Lemma save_to_hdf5_mismatched_item_witness :
  fst (save_to_hdf5 (O := unit)
         [first_item; Datum 5%Z 6%Z [7%Z] [8%Z; 9%Z]; second_item] "out" empty_world)
  = Raise TypeError /\
  load_hdf5 "out" "results"
    (snd (save_to_hdf5 (O := unit)
            [first_item; Datum 5%Z 6%Z [7%Z] [8%Z; 9%Z]; second_item] "out" empty_world))
  = Some (MkDataset (4, 2) (4, None) [[1; 5]; [2; 6]; [3; 7]; [4; 0]]%Z).
Proof.
  rewrite (save_to_hdf5_mismatched_item (O := unit) [first_item] [second_item]
             (Datum 5%Z 6%Z [7%Z] [8%Z; 9%Z]) "out" empty_world).
  - split; reflexivity.
  - vm_compute. discriminate.
  - repeat constructor.
  - split; [discriminate|split; simpl; lia].
Defined.

(** An item with no [magn_vals] and two [phas_vals], between the two
    sample items. *)
Lemma save_routines_on_item_without_points_witness :
  save_to_hdf5 (O := unit) [first_item; Datum 5%Z 6%Z [] [7%Z; 8%Z]; second_item] "out"
    empty_world
  = save_to_hdf5 (O := unit) two_items "out" empty_world /\
  fst (save_to_npy (O := unit) [first_item; Datum 5%Z 6%Z [] [7%Z; 8%Z]; second_item] "out"
         empty_world)
  = Raise ValueError.
Proof.
  destruct (save_routines_on_item_without_points (O := unit) [first_item] [second_item]
              (Datum 5%Z 6%Z [] [7%Z; 8%Z]) "out" empty_world) as [Hh5 Hnpy].
  - vm_compute. discriminate.
  - repeat constructor.
  - repeat constructor.
  - reflexivity.
  - split; [exact Hh5|]. cbn [app] in Hnpy. rewrite Hnpy; [reflexivity|simpl; lia].
Defined.

Lemma save_to_npy_single_item_witness :
  fst (npy_body [first_item] "out.npy" empty_world)
  = Return (MkNdarray (4, 1) [1; 2; 3; 4]%Z true None).
Proof.
  rewrite (save_to_npy_single_item first_item "out.npy" empty_world).
  - reflexivity.
  - reflexivity.
Defined.

End WriterEdges.

(** ** The data producer and the random state *)

Module ProducerEdges.
Import Producer ProducerFacts.

Section ProducerEdges.
Context {V : Type} `{Num V}.
Variable G : Type.
Variable next_random : G -> V * G.

(** The random state after one draw. *)
Definition drawn (g : G) : G := snd (next_random g).

Lemma rand_state (n : nat) (g : G) : snd (rand G next_random n g) = Nat.iter n drawn g.
Proof.
  revert g. induction n as [|n IH]; intros g; [reflexivity|].
  rewrite Nat.iter_succ_r. cbn [rand].
  specialize (IH (drawn g)). unfold drawn in *.
  destruct (next_random g) as [x g1]. cbn [snd] in *.
  destruct (rand G next_random n g1) as [xs g2]. exact IH.
Qed.

Lemma measure_state (n s1 s2 : nat) (g : G) :
  snd (measure G next_random n s1 s2 g) = Nat.iter (2 * n) drawn g.
Proof.
  unfold measure.
  pose proof (rand_state n g) as Hx. destruct (rand G next_random n g) as [x g1].
  pose proof (rand_state n g1) as Hy. destruct (rand G next_random n g1) as [y g2].
  cbn [snd meshgrid] in *. rewrite Hy, Hx.
  replace (2 * n) with (n + n) by lia. now rewrite Nat.iter_add.
Qed.

Lemma gen_for_state {A B : Type} (xs : list A) (body : A -> G -> list B * G) (k : nat) (g : G) :
  (forall x g', snd (body x g') = Nat.iter k drawn g') ->
  snd (gen_for G xs body g) = Nat.iter (length xs * k) drawn g.
Proof.
  intros Hbody. revert g. induction xs as [|x xs IH]; intros g; [reflexivity|].
  cbn [gen_for length]. specialize (Hbody x g).
  destruct (body x g) as [ys g1]. cbn [snd] in Hbody. specialize (IH g1).
  destruct (gen_for G xs body g1) as [zs g2]. cbn [snd] in *.
  rewrite IH, Hbody.
  replace (S (length xs) * k) with (length xs * k + k) by lia.
  now rewrite Nat.iter_add.
Qed.

(** X11.  Running the generator of [make_data_producer(n)] to its end
    draws exactly [2 * n^3] numbers from the random state of numpy ([2 * n]
    for each of the [n^2] items), whatever the state it starts from; for
    [n = 0] it draws none. *)
Theorem make_data_producer_draws (n : nat) (g : G) :
  snd (make_data_producer G next_random n g) = Nat.iter (2 * n ^ 3) drawn g.
Proof.
  unfold make_data_producer, produce_measurement_data.
  rewrite (gen_for_state _ _ (n * (2 * n))).
  - rewrite length_seq. f_equal. simpl. lia.
  - intros s1 g'. rewrite (gen_for_state _ _ (2 * n)).
    + now rewrite length_seq.
    + intros s2 g''. pose proof (measure_state n s1 s2 g'') as Hm.
      destruct (measure G next_random n s1 s2 g'') as [d g3]. exact Hm.
Qed.

(** One measurement is a grid of [n] by [n]: [magn_vals] is one row of [n]
    draws written [n] times, [phas_vals] has each of [n] further draws
    [n] times in a row. *)
Definition grid_item (n : nat) (d : datum V) : Prop :=
  exists x y : list V,
    length x = n /\ length y = n /\
    magn_vals d = concat (replicate n x) /\
    phas_vals d = flat_map (replicate n) y.

Lemma const_rows {A B : Type} (x : A) (y : list B) :
  map (fun _ => x) y = replicate (length y) x.
Proof. induction y as [|b y IH]; simpl; [reflexivity|]. now rewrite IH. Qed.

Lemma const_columns {A : Type} (x y : list A) :
  concat (map (fun yi => map (fun _ => yi) x) y) = flat_map (replicate (length x)) y.
Proof.
  induction y as [|b y IH]; [reflexivity|].
  cbn [map concat flat_map]. now rewrite IH, (const_rows b x).
Qed.

Lemma measure_grid (n s1 s2 : nat) (g : G) :
  grid_item n (fst (measure G next_random n s1 s2 g)).
Proof.
  unfold measure.
  pose proof (rand_length G next_random n g) as Hx.
  destruct (rand G next_random n g) as [x g1].
  pose proof (rand_length G next_random n g1) as Hy.
  destruct (rand G next_random n g1) as [y g2]. cbn [fst snd meshgrid] in *.
  exists x, y. repeat split; auto; unfold reshape_flat; cbn [magn_vals phas_vals].
  - now rewrite const_rows, Hy.
  - now rewrite const_columns, Hx.
Qed.

Lemma gen_for_all {A B : Type} (P : B -> Prop) (xs : list A)
  (body : A -> G -> list B * G) (g : G) :
  (forall x g', Forall P (fst (body x g'))) ->
  Forall P (fst (gen_for G xs body g)).
Proof.
  intros Hbody. revert g. induction xs as [|x xs IH]; intros g; [constructor|].
  cbn [gen_for]. specialize (Hbody x g). destruct (body x g) as [ys g1].
  specialize (IH g1). destruct (gen_for G xs body g1) as [zs g2].
  cbn [fst] in *. apply Forall_app. auto.
Qed.

(** X12.  Every item that the generator yields is a flattened grid: its
    [n^2] values of [magn_vals] are [n] random numbers repeated [n] times
    over (period [n]), its [phas_vals] are [n] random numbers each repeated
    [n] times in a row.  An item holds [2 * n] random numbers, not
    [2 * n^2]. *)
Theorem make_data_producer_items_are_grids (n : nat) (g : G) :
  Forall (grid_item n) (fst (make_data_producer G next_random n g)).
Proof.
  unfold make_data_producer, produce_measurement_data.
  apply gen_for_all. intros s1 g'. apply gen_for_all. intros s2 g''.
  pose proof (measure_grid n s1 s2 g'') as Hm.
  destruct (measure G next_random n s1 s2 g'') as [d g3]. cbn [fst] in *.
  constructor; [exact Hm|constructor].
Qed.

End ProducerEdges.
End ProducerEdges.

(** ** [save_to_sqlite] when qcodes raises *)

Module SqliteEdges.
Import Producer Sqlite PyFacts.

Section SqliteEdges.
Context {V O : Type} `{Num V}.
Variable W : Type.
Variable DataSaver : Type.
Variable now : clock -> W -> V * W.
Variable meas_run : string -> nat -> M W DataSaver.
Variable meas_run_exit : DataSaver -> M W unit.
Variable add_result : DataSaver -> datum V -> M W unit.
Variable datasaver_dataset : DataSaver -> O.

(** X13.  Errors in [save_to_sqlite].  If entering the measurement run
    raises, that is all that happens.  If an [add_result] raises during
    the loop, the run is still left through [__exit__] (which flushes what
    was added) and the exception then reaches the caller; if [__exit__]
    itself raises after a complete loop, its exception does.  In none of
    these cases is [t1] read or a time returned. *)
Theorem save_to_sqlite_errors
  (data : list (datum V)) (paramtype : string) (write_period : nat)
  (datasaver : DataSaver) (e : exn) (s s1 s2 s3 : W) :
  (meas_run paramtype write_period s = (Raise e, s1) ->
   save_to_sqlite W DataSaver now meas_run meas_run_exit add_result
     datasaver_dataset data paramtype write_period s = (Raise e, s1)) /\
  (meas_run paramtype write_period s = (Return datasaver, s1) ->
   for_each data (add_result datasaver) (snd (now perf_counter s1)) = (Raise e, s2) ->
   meas_run_exit datasaver s2 = (Return tt, s3) ->
   save_to_sqlite W DataSaver now meas_run meas_run_exit add_result
     datasaver_dataset data paramtype write_period s = (Raise e, s3)) /\
  (meas_run paramtype write_period s = (Return datasaver, s1) ->
   for_each data (add_result datasaver) (snd (now perf_counter s1)) = (Return tt, s2) ->
   meas_run_exit datasaver s2 = (Raise e, s3) ->
   save_to_sqlite W DataSaver now meas_run meas_run_exit add_result
     datasaver_dataset data paramtype write_period s = (Raise e, s3)).
Proof.
  unfold save_to_sqlite, with_ctx, try_finally, read_clock, Py.bind, ret.
  split; [|split].
  - intros Hrun. now rewrite Hrun.
  - intros Hrun Hloop Hexit. rewrite Hrun. simpl. now rewrite Hloop, Hexit.
  - intros Hrun Hloop Hexit. rewrite Hrun. simpl. now rewrite Hloop, Hexit.
Qed.

End SqliteEdges.

Import Samples.

(** A qcodes whose [add_result] fails on the second item. *)
Lemma save_to_sqlite_errors_witness :
  save_to_sqlite Z unit sample_clocks quick_run quick_run_exit
    (fun _ d t => if (s1_val d =? 5)%Z
                  then (Raise (OtherError "sqlite3.OperationalError"), t)
                  else (Return tt, (t + 1)%Z))
    the_dataset two_items "numeric" 10 0%Z
  = (Raise (OtherError "sqlite3.OperationalError"), 21%Z).
Proof.
  destruct (save_to_sqlite_errors Z unit sample_clocks quick_run quick_run_exit
              (fun _ d t => if (s1_val d =? 5)%Z
                            then (Raise (OtherError "sqlite3.OperationalError"), t)
                            else (Return tt, (t + 1)%Z))
              the_dataset two_items "numeric" 10 tt
              (OtherError "sqlite3.OperationalError") 0%Z 10%Z 11%Z 21%Z)
    as (_ & Hloop & _).
  apply Hloop; reflexivity.
Defined.

End SqliteEdges.

(** ** The instrument notebooks: what a run records and what it leaves *)

Module BenchEdges.
Import Bench PyFacts HandleFacts.

Section BenchEdges.
Context {V : Type} `{Num V}.
Variable D : Type.
Variable now : clock -> D -> V * D.
Variable driver_connect : string -> string -> M D unit.
Variable driver_call : string -> string -> M D V.
Variable driver_close : string -> M D unit.
Variable loop_run : string -> M D unit.

(** One repetition of [benchmark_seqx]: the upload is timed and the
    progress is printed; the result is the time it took. *)
Definition repetition (no_of_reps n : nat) : M (Lab D V) V :=
  t_start <- Bench.read_clock D now perf_counter;;
  upload_seqx D driver_call;;;
  t_stop <- Bench.read_clock D now perf_counter;;
  print D (Line "Completed run {} of {}." [num_of_nat (n + 1); num_of_nat no_of_reps]);;;
  ret (num_sub t_stop t_start).

(** [repetitions no_of_reps n s ds s']: from the session [s], the
    repetitions number [n], [n + 1], ... succeed one after the other,
    take the times [ds] and leave the session [s']. *)
Inductive repetitions (no_of_reps : nat) : nat -> Lab D V -> list V -> Lab D V -> Prop :=
| repetitions_nil (n : nat) (s : Lab D V) : repetitions no_of_reps n s [] s
| repetitions_cons (n : nat) (s s1 s2 : Lab D V) (d : V) (ds : list V) :
    repetition no_of_reps n s = (Return d, s1) ->
    repetitions no_of_reps (S n) s1 ds s2 ->
    repetitions no_of_reps n s (d :: ds) s2.

Lemma loop_body_of_repetition (no_of_reps n : nat) (times : list V) (s s1 : Lab D V) (d : V) :
  repetition no_of_reps n s = (Return d, s1) ->
  (t_start <- Bench.read_clock D now perf_counter;;
   upload_seqx D driver_call;;;
   t_stop <- Bench.read_clock D now perf_counter;;
   let times' := <[n := num_sub t_stop t_start]> times in
   print D (Line "Completed run {} of {}." [num_of_nat (n + 1); num_of_nat no_of_reps]);;;
   ret times') s
  = (Return (<[n := d]> times), s1).
Proof.
  unfold repetition, Py.bind, ret.
  destruct (Bench.read_clock D now perf_counter s) as [[t0|e|] s2]; try discriminate.
  destruct (upload_seqx D driver_call s2) as [[[]|e|] s3]; try discriminate.
  destruct (Bench.read_clock D now perf_counter s3) as [[t1|e|] s4]; try discriminate.
  destruct (print D _ s4) as [[[]|e|] s5]; try discriminate.
  intros Heq. now injection Heq as <- <-.
Qed.

Lemma benchmark_loop_records (no_of_reps n : nat) (s s' : Lab D V) (ds : list V) :
  repetitions no_of_reps n s ds s' ->
  forall done : list V,
  length done = n ->
  for_fold (seq n (length ds))
    (fun times n =>
       t_start <- Bench.read_clock D now perf_counter;;
       upload_seqx D driver_call;;;
       t_stop <- Bench.read_clock D now perf_counter;;
       let times' := <[n := num_sub t_stop t_start]> times in
       print D (Line "Completed run {} of {}." [num_of_nat (n + 1); num_of_nat no_of_reps]);;;
       ret times')
    (done ++ replicate (length ds) num_zero) s
  = (Return (done ++ ds), s').
Proof.
  induction 1 as [n s|n s s1 s2 d ds Hrep Hreps IH]; intros done Hdone.
  - reflexivity.
  - cbn [length seq for_fold replicate].
    rewrite (bind_return _ _ _ _ _ (loop_body_of_repetition _ _ _ _ _ _ Hrep)).
    rewrite insert_app_r_alt by lia.
    replace (n - length done) with 0 by lia. cbn [insert list_insert].
    specialize (IH (done ++ [d])). rewrite <- !app_assoc in IH. cbn [app] in IH.
    apply IH. rewrite length_app. simpl. lia.
Qed.

(** X14.  When the two clearing calls and all [no_of_reps] repetitions
    succeed, [benchmark_seqx] returns the array of exactly [no_of_reps]
    times in which [times[n]] is the time of repetition [n]: every slot of
    the array of zeros it starts with is written once, none twice. *)
Theorem benchmark_seqx_records_every_run
  (no_of_reps : nat) (s s1 s2 s' : Lab D V) (ds : list V) :
  call D driver_call "awg" "clearSequenceList()" s = (Return tt, s1) ->
  call D driver_call "awg" "clearWaveformList()" s1 = (Return tt, s2) ->
  repetitions no_of_reps 0 s2 ds s' ->
  length ds = no_of_reps ->
  benchmark_seqx D now driver_call no_of_reps s = (Return ds, s').
Proof.
  intros Hc1 Hc2 Hreps Hlen. unfold benchmark_seqx.
  rewrite (bind_return _ _ _ _ _ Hc1), (bind_return _ _ _ _ _ Hc2).
  subst no_of_reps.
  apply (benchmark_loop_records (length ds) 0 s2 s' ds Hreps []). reflexivity.
Qed.

(** The cells of the DMM notebook between the connecting one and the
    closing one. *)
Definition measuring_cells : M (Lab D V) unit :=
  cell_setup D driver_call;;;
  cell_raw_displays_on D now driver_call;;;
  cell_raw_displays_off D now driver_call;;;
  cell_sweep_1d D now driver_call loop_run;;;
  cell_sweep_2d D now driver_call loop_run.

Lemma keeps_measuring_cells : keeps_connections D measuring_cells.
Proof.
  unfold measuring_cells.
  apply keeps_bind; [apply keeps_cell_setup|intros _].
  apply keeps_bind; [apply keeps_cell_raw_displays_on|intros _].
  apply keeps_bind; [apply keeps_cell_raw_displays_off|intros _].
  apply keeps_bind; [apply keeps_cell_sweep_1d|intros _].
  apply keeps_cell_sweep_2d.
Qed.

(** X15.  The DMM notebook has no clean-up on errors: if the
    instruments were connected and one of the measuring cells raises, the
    run stops there, the closing cell is not run, and the three
    connections stay open. *)
Theorem dmm_notebook_leaves_connections_open_on_error
  (s s1 s' : Lab D V) (e : exn) :
  connected s = ∅ ->
  cell_connect D driver_connect s = (Return tt, s1) ->
  measuring_cells s1 = (Raise e, s') ->
  dmm_notebook D now driver_connect driver_call driver_close loop_run s
    = (Raise e, s') /\
  connected s' = three_instruments.
Proof.
  intros Hnone Hconnect Hraise. split.
  - unfold dmm_notebook. rewrite (bind_return _ _ _ _ _ Hconnect).
    assert (Hsame : forall s0,
              (cell_setup D driver_call;;;
               cell_raw_displays_on D now driver_call;;;
               cell_raw_displays_off D now driver_call;;;
               cell_sweep_1d D now driver_call loop_run;;;
               cell_sweep_2d D now driver_call loop_run;;;
               cell_close D driver_close) s0
              = (measuring_cells;;; cell_close D driver_close) s0).
    { intros s0. unfold measuring_cells. py_same. }
    rewrite Hsame. now rewrite (bind_raise_now _ _ _ _ _ Hraise).
  - pose proof (keeps_measuring_cells s1) as Hkeep. rewrite Hraise in Hkeep.
    cbn [snd] in Hkeep. rewrite Hkeep.
    rewrite (cell_connect_returned D driver_connect s s1 Hconnect), Hnone. reflexivity.
Qed.

End BenchEdges.

Import Samples.

(** A session with the AWG connected, and a driver in which setting the
    range of the Agilent fails. *)
Definition awg_lab : Lab Z Z := MkLab 0%Z {["awg"]} [].
Definition range_failing_call (name method : string) : M Z Z :=
  fun d =>
    if (String.eqb name "Agilent" && String.eqb method "range(1)")%bool
    then (Raise (OtherError "VisaIOError"), d)
    else (Return 0%Z, (d + 5)%Z).

(** Two repetitions of four calls of five ticks each. *)
Lemma benchmark_seqx_records_every_run_witness :
  fst (benchmark_seqx Z sample_clocks quick_call 2 awg_lab) = Return [20%Z; 20%Z].
Proof.
  destruct (benchmark_seqx Z sample_clocks quick_call 2 awg_lab) as [o s'] eqn:Hrun.
  rewrite (benchmark_seqx_records_every_run Z sample_clocks quick_call 2 awg_lab
             (snd (call Z quick_call "awg" "clearSequenceList()" awg_lab))
             (snd (benchmark_seqx Z sample_clocks quick_call 0 awg_lab))
             (snd (benchmark_seqx Z sample_clocks quick_call 2 awg_lab))
             [20%Z; 20%Z]) in Hrun.
  - now injection Hrun as <- _.
  - vm_compute. reflexivity.
  - vm_compute. reflexivity.
  - eapply repetitions_cons; [vm_compute; reflexivity|].
    eapply repetitions_cons; [vm_compute; reflexivity|].
    match goal with
    | |- repetitions _ _ _ _ _ ?a _ ?b => replace b with a by (vm_compute; reflexivity)
    end.
    apply repetitions_nil.
  - reflexivity.
Defined.

(** The connections stay open when [agi.range(1)] fails. *)
Lemma dmm_notebook_leaves_connections_open_on_error_witness :
  fst (dmm_notebook Z sample_clocks quick_connect range_failing_call quick_close
         quick_loop fresh_lab) = Raise (OtherError "VisaIOError") /\
  connected (snd (dmm_notebook Z sample_clocks quick_connect range_failing_call quick_close
                    quick_loop fresh_lab)) = three_instruments.
Proof.
  assert (Hnone : connected fresh_lab = ∅) by reflexivity.
  assert (Hconnect : cell_connect Z quick_connect fresh_lab
                     = (Return tt, snd (cell_connect Z quick_connect fresh_lab)))
    by (vm_compute; reflexivity).
  assert (Hraise : measuring_cells Z sample_clocks range_failing_call quick_loop
                     (snd (cell_connect Z quick_connect fresh_lab))
                   = (Raise (OtherError "VisaIOError"),
                      snd (measuring_cells Z sample_clocks range_failing_call quick_loop
                             (snd (cell_connect Z quick_connect fresh_lab)))))
    by (vm_compute; reflexivity).
  destruct (dmm_notebook_leaves_connections_open_on_error Z sample_clocks quick_connect
              range_failing_call quick_close quick_loop _ _ _ _ Hnone Hconnect Hraise)
    as [Hrun Hopen].
  rewrite Hrun. split; [reflexivity|exact Hopen].
Defined.

End BenchEdges.

(** ** The waveforms of the AWG benchmark *)

Module WaveformFacts.
Import Py Cells.

Section WaveformFacts.
Context {V : Type} `{Num V}.
Variable linspace_point : nat -> nat -> V.
Variable sine : nat -> V -> V.

Lemma build_waveforms_from (N : nat) (ms : list nat) (wfms m1s m2s : list (list V)) :
  fold_left
    (fun lists m =>
       let '(wfms, m1s, m2s) := lists in
       (wfms ++ [map (sine m) (twopi linspace_point N)], m1s ++ [m1 N], m2s ++ [m2 N]))
    ms (wfms, m1s, m2s)
  = (wfms ++ map (fun m => map (sine m) (twopi linspace_point N)) ms,
     m1s ++ replicate (length ms) (m1 N),
     m2s ++ replicate (length ms) (m2 N)).
Proof.
  revert wfms m1s m2s. induction ms as [|m ms IH]; intros wfms m1s m2s.
  - simpl. now rewrite !app_nil_r.
  - cbn [fold_left]. rewrite IH. cbn [map length replicate].
    now rewrite <- !app_assoc.
Qed.

Lemma build_waveforms_lists (N M : nat) :
  build_waveforms linspace_point sine N M
  = (map (fun m => map (sine m) (twopi linspace_point N)) (seq 0 M),
     replicate M (m1 N), replicate M (m2 N)).
Proof.
  unfold build_waveforms. rewrite build_waveforms_from. now rewrite length_seq.
Qed.

Lemma twopi_length (N : nat) : length (twopi linspace_point N) = N.
Proof. unfold twopi. now rewrite length_map, length_seq. Qed.

Lemma marker_lengths (N : nat) :
  length (m1 (V := V) N) = 2 * (N / 2) /\ length (m2 (V := V) N) = 2 * (N / 2).
Proof.
  unfold m1, m2. rewrite !length_app, !length_replicate. lia.
Qed.

(** X16.  The array of waveform [m] and its two markers.  The markers
    have [2 * int(N/2)] points while the waveform has [N]: for an even [N]
    (as the [N = 100000] of the notebook) [np.array] gives the 3-by-[N]
    array of the waveform, [m1] and [m2], and for an odd [N] the rows are
    ragged and no two-dimensional array results. *)
Theorem wfmx_data_shape (N M m : nat) :
  m < M ->
  wfmx_data linspace_point sine N M m
  = if N mod 2 =? 0
    then Some (3, N, map (sine m) (twopi linspace_point N) ++ m1 N ++ m2 N)
    else None.
Proof.
  intros Hm. unfold wfmx_data. rewrite build_waveforms_lists.
  rewrite list_lookup_fmap, lookup_seq_lt by exact Hm.
  rewrite !lookup_replicate_2 by exact Hm. cbn [fmap option_fmap option_map plus].
  unfold np_array. cbn [forallb length concat].
  rewrite length_map, twopi_length.
  destruct (marker_lengths N) as [-> ->].
  rewrite Nat.eqb_refl. cbn [andb].
  pose proof (Nat.div_mod_eq N 2) as Hdiv.
  pose proof (Nat.mod_upper_bound N 2) as Hmod.
  destruct (N mod 2 =? 0) eqn:Heven.
  - apply Nat.eqb_eq in Heven.
    replace (2 * (N / 2) =? N) with true by (symmetry; apply Nat.eqb_eq; lia).
    cbn [andb]. now rewrite app_nil_r.
  - apply Nat.eqb_neq in Heven.
    replace (2 * (N / 2) =? N) with false by (symmetry; apply Nat.eqb_neq; lia).
    reflexivity.
Qed.

End WaveformFacts.

Import Samples.

(** Four points and five points in the second of two waveforms. *)
Lemma wfmx_data_shape_witness :
  wfmx_data (fun _ i => Z.of_nat i) (fun m x => (Z.of_nat (m + 1) * x)%Z) 4 2 1
    = Some (3, 4, [0; 2; 4; 6; 0; 0; 1; 1; 1; 1; 0; 0]%Z) /\
  wfmx_data (fun _ i => Z.of_nat i) (fun m x => (Z.of_nat (m + 1) * x)%Z) 5 2 1
    = None.
Proof.
  split.
  - rewrite (wfmx_data_shape (fun _ i => Z.of_nat i)
               (fun m x => (Z.of_nat (m + 1) * x)%Z) 4 2 1) by lia.
    reflexivity.
  - rewrite (wfmx_data_shape (fun _ i => Z.of_nat i)
               (fun m x => (Z.of_nat (m + 1) * x)%Z) 5 2 1) by lia.
    reflexivity.
Defined.

End WaveformFacts.
